(** * Aarogya: smart-watch telemetry generator and statistics engine

    A shallow embedding of [Agents/smartwatch_health_data_generator.py]
    (class [SmartWatchDataGenerator]) and of [Agents/analyze_health_data.py]
    (function [analyze_data_statistics]), with the properties of the
    design document stated and settled against them.

    Conventions.
    - Python [int] is [Z]; Python and NumPy [float] are idealised as
      rationals ([Q]) with a separate [NaN]; rounding to one decimal is
      round-half-even on the exact value.
    - Python exceptions are values of [exn]; a computation that may raise
      and that reads or changes ambient state (the object store for the
      analyser, the random source and the clock for the generator) lives
      in the monad [M].  The state reached when the exception was raised
      is kept, as in Python.
    - A [dict] whose order is irrelevant is a [gmap]; the generator's
      configuration dictionaries, whose order drives the weighted choice,
      are association lists in insertion order. *)

From Stdlib Require Import ZArith QArith Qround Lia Lqa Sorted.
From stdpp Require Import gmap strings list fin_maps pretty.

#[local] Open Scope Z_scope.

(** ** Python values, exceptions and the state-and-exception monad *)

Module Py.

Inductive float : Type :=
| Fin (q : Q)
| NaN.

Inductive pyval : Type :=
| PInt (z : Z)
| PFloat (x : float)
| PStr (s : string).

Inductive exn : Type :=
| KeyError (key : string)
| IndexError
| TypeError
| ValueError.

(** [round(x)] to the nearest integer, ties to the even neighbour. *)
Definition round_half_even (x : Q) : Z :=
  let f := Qfloor x in
  match Qcompare (x - inject_Z f) (1 # 2) with
  | Lt => f
  | Gt => f + 1
  | Eq => if Z.even f then f else f + 1
  end.

(** [round(x, 1)] on a finite float. *)
Definition round1 (x : Q) : Q := Qmake (round_half_even (x * 10)) 10.

Definition round_float1 (x : float) : float :=
  match x with
  | Fin q => Fin (round1 q)
  | NaN => NaN
  end.

(** [round(v, 1)] on a scalar: an integer is returned unchanged, text
    has no [__round__]. *)
Definition py_round1 (v : pyval) : exn + pyval :=
  match v with
  | PInt z => inr (PInt z)
  | PFloat x => inr (PFloat (round_float1 x))
  | PStr _ => inl TypeError
  end.

(** The nearest tenth to the square root of [v >= 0]; used for
    [round(s.std(), 1)], whose intermediate value is irrational. *)
Definition round1_sqrt (v : Q) : Q :=
  Qmake ((Z.sqrt (Qfloor (v * 400)) + 1) / 2) 10.

(** NumPy [int64] addition wraps around. *)
Definition wrap64 (z : Z) : Z := (z + 2 ^ 63) mod 2 ^ 64 - 2 ^ 63.

(** Numeric value of a cell; [NaN] and text have none. *)
Definition num_of (v : pyval) : option Q :=
  match v with
  | PInt z => Some (inject_Z z)
  | PFloat (Fin q) => Some q
  | _ => None
  end.

Definition is_str (v : pyval) : bool :=
  match v with PStr _ => true | _ => false end.

Definition is_float (v : pyval) : bool :=
  match v with PFloat _ => true | _ => false end.

(** Computations that may raise. *)
#[global] Instance exn_ret : MRet (sum exn) := λ A x, inr x.
#[global] Instance exn_bind : MBind (sum exn) := λ A B k m,
  match m with
  | inl e => inl e
  | inr a => k a
  end.

(** Computations over an ambient state [S] that may raise. *)
Definition M (S A : Type) : Type := S → (exn + A) * S.

#[global] Instance M_ret {S} : MRet (M S) := λ A x s, (inr x, s).
#[global] Instance M_bind {S} : MBind (M S) := λ A B k m s,
  match m s with
  | (inl e, s') => (inl e, s')
  | (inr a, s') => k a s'
  end.

Definition raise {S A} (e : exn) : M S A := λ s, (inl e, s).

Definition lift {S A} (r : exn + A) : M S A := λ s, (r, s).

End Py.

Import Py.

(** ** The part of pandas the analyser uses *)

Module Pandas.

(** A table as [read_csv] delivers it: the header line and one record
    per data line.  A cell left empty in the file, or a record without
    the field, reads as [NaN]. *)
Record DataFrame : Type := {
  header : list string;
  rows : list (gmap string pyval)
}.

#[global] Instance DataFrame_inhabited : Inhabited DataFrame :=
  populate {| header := []; rows := [] |}.

(** The object store: tables are objects, held by reference. *)
Abbreviation store := (gmap positive DataFrame).

Definition cell (c : string) (r : gmap string pyval) : pyval :=
  default (PFloat NaN) (r !! c).

Definition to_float64 (v : pyval) : pyval :=
  match v with
  | PInt z => PFloat (Fin (inject_Z z))
  | _ => v
  end.

(** Column dtype: [object] when text occurs, [float64] when a float
    (or a gap) occurs among numbers, [int64] otherwise. *)
Definition infer_dtype (col : list pyval) : list pyval :=
  if existsb is_str col then col
  else if existsb is_float col then to_float64 <$> col
  else col.

Definition column (d : DataFrame) (c : string) : exn + list pyval :=
  if bool_decide (c ∈ header d)
  then inr (infer_dtype (cell c <$> rows d))
  else inl (KeyError c).

(** [s.iloc[i]], with Python's negative indices. *)
Definition series_iloc (s : list pyval) (i : Z) : exn + pyval :=
  let n := Z.of_nat (length s) in
  let j := if i <? 0 then i + n else i in
  if (0 <=? j) && (j <? n)
  then match s !! Z.to_nat j with
       | Some v => inr v
       | None => inl IndexError
       end
  else inl IndexError.

(** The numbers of a column, gaps skipped ([skipna=True]); a numeric
    reduction or comparison of a column that holds text raises
    [TypeError] (pandas 2). *)
Definition numeric (s : list pyval) : exn + list Q :=
  if existsb is_str s then inl TypeError else inr (omap num_of s).

Definition Qsum (l : list Q) : Q := foldr Qplus 0%Q l.

Definition mean_of (vs : list Q) : Q :=
  (Qsum vs / inject_Z (Z.of_nat (length vs)))%Q.

(** [s.mean()] *)
Definition series_mean (s : list pyval) : exn + float :=
  vs ← numeric s;
  mret (match vs with [] => NaN | _ => Fin (mean_of vs) end).

Definition Qgtb (q t : Q) : bool :=
  match Qcompare q t with Gt => true | _ => false end.

Definition Qltb (q t : Q) : bool :=
  match Qcompare q t with Lt => true | _ => false end.

(** One step of a running minimum or maximum: gaps never win. *)
Definition pick (better : Q → Q → bool) (acc v : pyval) : pyval :=
  match num_of v, num_of acc with
  | Some q, Some a => if better q a then v else acc
  | Some _, None => v
  | None, _ => acc
  end.

Definition extremum (better : Q → Q → bool) (s : list pyval)
  : exn + pyval :=
  if existsb is_str s then inl TypeError
  else inr (foldl (pick better) (PFloat NaN) s).

(** [s.min()] and [s.max()]; in this program they are only evaluated
    on a column whose [mean()] was taken just before. *)
Definition series_min : list pyval → exn + pyval := extremum Qltb.
Definition series_max : list pyval → exn + pyval := extremum Qgtb.

(** [round(s.std(), 1)]: sample standard deviation (divisor n - 1),
    [NaN] with fewer than two observations. *)
Definition series_std_round1 (s : list pyval) : exn + float :=
  vs ← numeric s;
  mret (match vs with
        | [] | [_] => NaN
        | _ =>
          let m := mean_of vs in
          let ss := Qsum ((λ x, (x - m) * (x - m))%Q <$> vs) in
          Fin (round1_sqrt (ss / inject_Z (Z.of_nat (length vs) - 1)))
        end).

Definition int_of (v : pyval) : Z :=
  match v with PInt z => z | _ => 0 end.

Definition str_of (v : pyval) : string :=
  match v with PStr s => s | _ => "" end.

(** [s.sum()]: gaps count as zero; a column of text is concatenated;
    text mixed with numbers cannot be added. *)
Definition series_sum (s : list pyval) : exn + pyval :=
  if existsb is_str s then
    if forallb is_str s
    then inr (PStr (foldr String.append "" (str_of <$> s)))
    else inl TypeError
  else if existsb is_float s
  then inr (PFloat (Fin (Qsum (omap num_of s))))
  else inr (PInt (wrap64 (foldr Z.add 0 (int_of <$> s)))).

(** [s > t] and [s < t], element by element; a gap compares false. *)
Definition compare_with (test : Q → Q → bool) (t : Q) (s : list pyval)
  : exn + list bool :=
  if existsb is_str s then inl TypeError
  else inr ((λ v, match num_of v with
                  | Some q => test q t
                  | None => false
                  end) <$> s).

Definition series_gt : Q → list pyval → exn + list bool :=
  compare_with Qgtb.
Definition series_lt : Q → list pyval → exn + list bool :=
  compare_with Qltb.

(** Rows kept by a boolean mask. *)
Fixpoint select {A} (mask : list bool) (l : list A) : list A :=
  match mask, l with
  | b :: mask', x :: l' =>
    if b then x :: select mask' l' else select mask' l'
  | _, _ => []
  end.

(** [df[c]]: read a column of the table referenced by [df]. *)
Definition df_getitem (df : positive) (c : string)
  : M store (list pyval) :=
  λ σ, (column (σ !!! df) c, σ).

(** [df[mask]]: a new table object with the selected rows. *)
Definition df_mask (df : positive) (mask : list bool)
  : M store positive :=
  λ σ, let d := σ !!! df in
       let l := fresh (dom σ) in
       (inr l,
        <[l := {| header := header d; rows := select mask (rows d) |}]> σ).

(** [len(df)] *)
Definition df_len (df : positive) : M store Z :=
  λ σ, (inr (Z.of_nat (length (rows (σ !!! df)))), σ).

End Pandas.

Import Pandas.

(** ** [analyze_health_data.py] *)

Module Analyzer.

(** A leaf of the statistics dictionary: a scalar, or the text an
    f-string makes of two scalars around a separator. *)
Inductive field : Type :=
| FVal (v : pyval)
| FText (a : pyval) (sep : string) (b : pyval).

Inductive entry : Type :=
| Leaf (f : field)
| Group (g : gmap string field).

(** [round(df[c].mean(), 1)] *)
Definition col_mean1 (df : positive) (c : string) : M store pyval :=
  s ← df_getitem df c;
  m ← lift (series_mean s);
  mret (PFloat (round_float1 m)).

(** [df[c].min()], [df[c].max()] *)
Definition col_min (df : positive) (c : string) : M store pyval :=
  s ← df_getitem df c; lift (series_min s).

Definition col_max (df : positive) (c : string) : M store pyval :=
  s ← df_getitem df c; lift (series_max s).

(** [round(df[c].min(), 1)], [round(df[c].max(), 1)] *)
Definition col_min1 (df : positive) (c : string) : M store pyval :=
  v ← col_min df c; lift (py_round1 v).

Definition col_max1 (df : positive) (c : string) : M store pyval :=
  v ← col_max df c; lift (py_round1 v).

(** [round(df[c].std(), 1)] *)
Definition col_std1 (df : positive) (c : string) : M store pyval :=
  s ← df_getitem df c;
  x ← lift (series_std_round1 s);
  mret (PFloat x).

(** [df[c].iloc[i]] *)
Definition col_iloc (df : positive) (c : string) (i : Z)
  : M store pyval :=
  s ← df_getitem df c; lift (series_iloc s i).

(** [len(df[df[c] > t])] and [len(df[df[c] < t])], with the
    comparison passed in. *)
Definition count_where (df : positive) (c : string)
    (test : list pyval → exn + list bool) : M store Z :=
  s ← df_getitem df c;
  mask ← lift (test s);
  sub ← df_mask df mask;
  df_len sub.

(** [sum(d.values())] *)
Definition sum_values (d : gmap string Z) : Z :=
  map_fold (λ _ v acc, v + acc) 0 d.

Definition scalar (v : pyval) : entry := Leaf (FVal v).

Definition analyze_data_statistics (df : positive)
  : M store (gmap string entry) :=
  total_readings ← df_len df;
  first ← col_iloc df "timestamp" 0;
  last ← col_iloc df "timestamp" (-1);
  hr_avg ← col_mean1 df "heart_rate";
  hr_min ← col_min df "heart_rate";
  hr_max ← col_max df "heart_rate";
  hr_std ← col_std1 df "heart_rate";
  spo2_avg ← col_mean1 df "spo2";
  spo2_min ← col_min1 df "spo2";
  spo2_max ← col_max1 df "spo2";
  temp_avg ← col_mean1 df "temperature";
  temp_min ← col_min1 df "temperature";
  temp_max ← col_max1 df "temperature";
  systolic_avg ← col_mean1 df "systolic_bp";
  diastolic_avg ← col_mean1 df "diastolic_bp";
  systolic_min ← col_min df "systolic_bp";
  systolic_max ← col_max df "systolic_bp";
  diastolic_min ← col_min df "diastolic_bp";
  diastolic_max ← col_max df "diastolic_bp";
  stress_avg ← col_mean1 df "stress_level";
  stress_max ← col_max df "stress_level";
  total_steps ← (s ← df_getitem df "steps"; lift (series_sum s));
  let stats : gmap string entry :=
    <["total_steps" := scalar total_steps]>
    (<["stress_level" := Group
         (<["max" := FVal stress_max]>
          (<["avg" := FVal stress_avg]> ∅))]>
    (<["blood_pressure" := Group
         (<["diastolic_range" := FText diastolic_min "-" diastolic_max]>
          (<["systolic_range" := FText systolic_min "-" systolic_max]>
          (<["diastolic_avg" := FVal diastolic_avg]>
          (<["systolic_avg" := FVal systolic_avg]> ∅))))]>
    (<["temperature" := Group
         (<["max" := FVal temp_max]>
          (<["min" := FVal temp_min]>
          (<["avg" := FVal temp_avg]> ∅)))]>
    (<["spo2" := Group
         (<["max" := FVal spo2_max]>
          (<["min" := FVal spo2_min]>
          (<["avg" := FVal spo2_avg]> ∅)))]>
    (<["heart_rate" := Group
         (<["std" := FVal hr_std]>
          (<["max" := FVal hr_max]>
          (<["min" := FVal hr_min]>
          (<["avg" := FVal hr_avg]> ∅))))]>
    (<["time_span" := Leaf (FText first " to " last)]>
    (<["total_readings" := scalar (PInt total_readings)]> ∅))))))) in
  high_heart_rate ← count_where df "heart_rate" (series_gt 120);
  low_heart_rate ← count_where df "heart_rate" (series_lt 60);
  low_oxygen ← count_where df "spo2" (series_lt 95);
  high_temp ← count_where df "temperature" (series_gt 37.2);
  low_temp ← count_where df "temperature" (series_lt 36.1);
  high_bp ← count_where df "systolic_bp" (series_gt 130);
  low_bp ← count_where df "systolic_bp" (series_lt 110);
  high_stress ← count_where df "stress_level" (series_gt 6);
  let anomalies : gmap string Z :=
    <["high_stress" := high_stress]>
    (<["low_bp" := low_bp]>
    (<["high_bp" := high_bp]>
    (<["low_temp" := low_temp]>
    (<["high_temp" := high_temp]>
    (<["low_oxygen" := low_oxygen]>
    (<["low_heart_rate" := low_heart_rate]>
    (<["high_heart_rate" := high_heart_rate]> ∅))))))) in
  let stats := <["anomalies" := Group (FVal ∘ PInt <$> anomalies)]> stats in
  let stats :=
    <["total_anomalies" := scalar (PInt (sum_values anomalies))]> stats in
  mret stats.

End Analyzer.

Import Analyzer.

(** ** The part of Python's [random] and [datetime] the generator uses *)

Module PyRandom.

(** The core generator behind the module-level functions of [random]:
    [random()] returns a float in [0, 1) and [_randbelow(n)], for
    [n > 0], an integer in [0, n).  Nothing else is assumed of it. *)
Class RandomSource (G : Type) : Type := {
  rs_random : G → Q * G;
  rs_randbelow : Z → G → Z * G;
  rs_random_range :
    ∀ g, (0 <= fst (rs_random g))%Q ∧ (fst (rs_random g) < 1)%Q;
  rs_randbelow_range :
    ∀ n g, 0 < n → 0 ≤ fst (rs_randbelow n g) < n
}.

Record datetime : Type := {
  year : Z; month : Z; day : Z;
  hour : Z; minute : Z; second : Z; microsecond : Z
}.

(** What the generator's calls can observe and change: the random
    source and the wall clock. *)
Record world (G : Type) : Type := {
  rng : G;
  clock : datetime
}.
Arguments rng {G} _.
Arguments clock {G} _.

Fixpoint zeros (n : nat) : string :=
  match n with
  | O => ""
  | S n' => "0" +:+ zeros n'
  end.

(** [%0wd] for a non-negative number. *)
Definition zpad (w : nat) (n : Z) : string :=
  let s := pretty n in
  zeros (w - String.length s) +:+ s.

(** [datetime.isoformat()] of a naive datetime. *)
Definition isoformat (t : datetime) : string :=
  zpad 4 (year t) +:+ "-" +:+ zpad 2 (month t) +:+ "-" +:+ zpad 2 (day t)
  +:+ "T" +:+ zpad 2 (hour t) +:+ ":" +:+ zpad 2 (minute t)
  +:+ ":" +:+ zpad 2 (second t)
  +:+ (if microsecond t =? 0 then "" else "." +:+ zpad 6 (microsecond t)).

Inductive num : Type :=
| NInt (z : Z)
| NFloat (q : Q).

Definition num_Q (n : num) : Q :=
  match n with
  | NInt z => inject_Z z
  | NFloat q => q
  end.

(** [itertools.accumulate]: running sums. *)
Fixpoint accumulate_from (acc : Q) (l : list Q) : list Q :=
  match l with
  | [] => []
  | x :: l' => (acc + x)%Q :: accumulate_from (acc + x)%Q l'
  end.

Definition accumulate (l : list Q) : list Q :=
  match l with
  | [] => []
  | x :: l' => x :: accumulate_from x l'
  end.

(** The loop of [bisect.bisect_right(a, x, lo, hi)]; every round
    shrinks [hi - lo], so [hi - lo] rounds are enough. *)
Fixpoint bisect_loop (fuel : nat) (a : list Q) (x : Q) (lo hi : Z) : Z :=
  match fuel with
  | O => lo
  | S fuel' =>
    if lo <? hi then
      let mid := (lo + hi) / 2 in
      if Qltb x (default 0%Q (a !! Z.to_nat mid))
      then bisect_loop fuel' a x lo mid
      else bisect_loop fuel' a x (mid + 1) hi
    else lo
  end.

Definition bisect (a : list Q) (x : Q) (lo hi : Z) : Z :=
  bisect_loop (Z.to_nat (hi - lo)) a x lo hi.

Section Functions.
Context {G : Type} `{RandomSource G}.

(** [datetime.now()] *)
Definition datetime_now : M (world G) datetime :=
  λ w, (inr (clock w), w).

(** [random.random()] *)
Definition random : M (world G) Q :=
  λ w, let '(u, g) := rs_random (rng w) in
       (inr u, {| rng := g; clock := clock w |}).

Definition _randbelow (n : Z) : M (world G) Z :=
  λ w, let '(r, g) := rs_randbelow n (rng w) in
       (inr r, {| rng := g; clock := clock w |}).

(** [random.randrange(start, stop)] *)
Definition randrange (start stop : Z) : M (world G) Z :=
  let width := stop - start in
  if 0 <? width
  then r ← _randbelow width; mret (start + r)
  else raise ValueError.

(** [random.randint(a, b)]; the bounds must be integers. *)
Definition randint (a b : num) : M (world G) Z :=
  match a, b with
  | NInt a, NInt b => randrange a (b + 1)
  | _, _ => raise TypeError
  end.

(** [random.uniform(a, b)] *)
Definition uniform (a b : num) : M (world G) Q :=
  u ← random;
  mret (num_Q a + (num_Q b - num_Q a) * u)%Q.

(** [random.choices(population, weights=weights)[0]] *)
Definition choices {A} (population : list A) (weights : list Q)
  : M (world G) A :=
  let n := length population in
  let cum_weights := accumulate weights in
  if bool_decide (length cum_weights = n) then
    match last cum_weights with
    | None => raise IndexError
    | Some total =>
      if Qle_bool total 0 then raise ValueError
      else
        u ← random;
        let i := bisect cum_weights (u * total) 0 (Z.of_nat n - 1) in
        match population !! Z.to_nat i with
        | Some x => mret x
        | None => raise IndexError
        end
    end
  else raise ValueError.

End Functions.

End PyRandom.

Import PyRandom.

(** ** [smartwatch_health_data_generator.py] *)

Module Generator.

(** A value of an anomaly's configuration dictionary: a pair of
    bounds, or a bare number (the entry ['probability']). *)
Inductive cfgval : Type :=
| CRange (lo hi : num)
| CNum (x : num).

Record SmartWatchDataGenerator : Type := {
  normal_ranges : list (string * (num * num));
  anomaly_types : list (string * list (string * cfgval))
}.

(** [SmartWatchDataGenerator.__init__] *)
Definition __init__ : SmartWatchDataGenerator := {|
  normal_ranges := [
    ("heart_rate", (NInt 60, NInt 100));
    ("spo2", (NInt 95, NInt 100));
    ("temperature", (NFloat 36.1, NFloat 37.2));
    ("systolic_bp", (NInt 110, NInt 130));
    ("diastolic_bp", (NInt 70, NInt 85));
    ("steps", (NInt 0, NInt 150));
    ("stress_level", (NInt 1, NInt 5));
    ("sleep_hours", (NFloat 6.5, NFloat 9.0))
  ];
  anomaly_types := [
    ("high_heart_rate",
     [("heart_rate", CRange (NInt 120) (NInt 180));
      ("probability", CNum (NFloat 0.05))]);
    ("low_heart_rate",
     [("heart_rate", CRange (NInt 40) (NInt 55));
      ("probability", CNum (NFloat 0.03))]);
    ("low_oxygen",
     [("spo2", CRange (NInt 85) (NInt 94));
      ("probability", CNum (NFloat 0.04))]);
    ("high_temperature",
     [("temperature", CRange (NFloat 37.5) (NFloat 39.5));
      ("probability", CNum (NFloat 0.03))]);
    ("low_temperature",
     [("temperature", CRange (NFloat 35.0) (NFloat 36.0));
      ("probability", CNum (NFloat 0.02))]);
    ("high_bp",
     [("systolic_bp", CRange (NInt 140) (NInt 180));
      ("diastolic_bp", CRange (NInt 90) (NInt 110));
      ("probability", CNum (NFloat 0.04))]);
    ("low_bp",
     [("systolic_bp", CRange (NInt 80) (NInt 100));
      ("diastolic_bp", CRange (NInt 50) (NInt 65));
      ("probability", CNum (NFloat 0.03))]);
    ("high_stress",
     [("stress_level", CRange (NInt 7) (NInt 10));
      ("probability", CNum (NFloat 0.06))]);
    ("poor_sleep",
     [("sleep_hours", CRange (NFloat 3.0) (NFloat 5.5));
      ("probability", CNum (NFloat 0.04))]);
    ("excessive_sleep",
     [("sleep_hours", CRange (NFloat 10.0) (NFloat 12.0));
      ("probability", CNum (NFloat 0.02))])
  ]
|}.

(** First binding of a key in a dictionary kept in insertion order. *)
Fixpoint assoc {V} (k : string) (d : list (string * V)) : option V :=
  match d with
  | [] => None
  | (k', v) :: d' => if String.eqb k k' then Some v else assoc k d'
  end.

(** [d[k]] *)
Definition getitem {S V} (d : list (string * V)) (k : string) : M S V :=
  match assoc k d with
  | Some v => mret v
  | None => raise (KeyError k)
  end.

(** Truth value of an optional string: [None] and [''] are false. *)
Definition truthy (s : option string) : bool :=
  match s with
  | Some s => negb (String.eqb s "")
  | None => false
  end.

Section Methods.
Context {G : Type} `{RandomSource G}.

Definition _should_trigger_anomaly (self : SmartWatchDataGenerator)
  : M (world G) bool :=
  u ← random;
  mret (Qltb u 0.15).

Definition _select_anomaly (self : SmartWatchDataGenerator)
  : M (world G) string :=
  let anomalies := fst <$> anomaly_types self in
  weights ← mapM (λ a,
      cfg ← getitem (anomaly_types self) a;
      p ← getitem cfg "probability";
      match p with
      | CNum x => mret (num_Q x)
      | CRange _ _ => raise TypeError
      end) anomalies;
  choices anomalies weights.

(** The body of the loop over [anomaly_config.items()]. *)
Definition apply_override (data : gmap string pyval)
    (metric : string) (value_range : cfgval)
  : M (world G) (gmap string pyval) :=
  if String.eqb metric "probability" then mret data
  else
    match value_range with
    | CRange (NInt a) hi =>
      z ← randint (NInt a) hi;
      mret (<[metric := PInt z]> data)
    | CRange (NFloat a) hi =>
      x ← uniform (NFloat a) hi;
      mret (<[metric := PFloat (Fin (round1 x))]> data)
    | CNum _ => raise TypeError
    end.

Fixpoint apply_overrides (data : gmap string pyval)
    (items : list (string * cfgval))
  : M (world G) (gmap string pyval) :=
  match items with
  | [] => mret data
  | (metric, value_range) :: items' =>
    data' ← apply_override data metric value_range;
    apply_overrides data' items'
  end.

(** [randint] on the bounds stored in [self.normal_ranges[m]] *)
Definition normal_int (self : SmartWatchDataGenerator) (m : string)
  : M (world G) pyval :=
  r ← getitem (normal_ranges self) m;
  z ← randint (fst r) (snd r);
  mret (PInt z).

(** [uniform] on the bounds stored in [self.normal_ranges[m]], rounded
    to one decimal *)
Definition normal_float (self : SmartWatchDataGenerator) (m : string)
  : M (world G) pyval :=
  r ← getitem (normal_ranges self) m;
  x ← uniform (fst r) (snd r);
  mret (PFloat (Fin (round1 x))).

Definition generate_reading (self : SmartWatchDataGenerator)
    (timestamp : option datetime) (force_anomaly : option string)
  : M (world G) (gmap string pyval) :=
  timestamp ← match timestamp with
              | None => datetime_now
              | Some t => mret t
              end;
  is_anomaly ← match force_anomaly with
               | Some _ => mret true
               | None => _should_trigger_anomaly self
               end;
  anomaly_type ←
    (if truthy force_anomaly then mret force_anomaly
     else if is_anomaly
          then a ← _select_anomaly self; mret (Some a)
          else mret None);
  heart_rate ← normal_int self "heart_rate";
  spo2 ← normal_float self "spo2";
  temperature ← normal_float self "temperature";
  systolic_bp ← normal_int self "systolic_bp";
  diastolic_bp ← normal_int self "diastolic_bp";
  steps ← normal_int self "steps";
  stress_level ← normal_int self "stress_level";
  sleep_hours ← normal_float self "sleep_hours";
  let data : gmap string pyval :=
    <["sleep_hours" := sleep_hours]>
    (<["stress_level" := stress_level]>
    (<["steps" := steps]>
    (<["diastolic_bp" := diastolic_bp]>
    (<["systolic_bp" := systolic_bp]>
    (<["temperature" := temperature]>
    (<["spo2" := spo2]>
    (<["heart_rate" := heart_rate]>
    (<["timestamp" := PStr (isoformat timestamp)]> ∅)))))))) in
  if is_anomaly && truthy anomaly_type then
    anomaly_config ←
      getitem (anomaly_types self) (default "" anomaly_type);
    apply_overrides data anomaly_config
  else mret data.

End Methods.

End Generator.

Import Generator.

(** ** Vocabulary for the properties of the analyser *)

Module Table.

(** What each helper of the analyser reads off a table [d]. *)
Definition mean1_of (d : DataFrame) (c : string) : exn + pyval :=
  s ← column d c; m ← series_mean s; mret (PFloat (round_float1 m)).

Definition min_of (d : DataFrame) (c : string) : exn + pyval :=
  s ← column d c; series_min s.

Definition max_of (d : DataFrame) (c : string) : exn + pyval :=
  s ← column d c; series_max s.

Definition min1_of (d : DataFrame) (c : string) : exn + pyval :=
  v ← min_of d c; py_round1 v.

Definition max1_of (d : DataFrame) (c : string) : exn + pyval :=
  v ← max_of d c; py_round1 v.

Definition std1_of (d : DataFrame) (c : string) : exn + pyval :=
  s ← column d c; x ← series_std_round1 s; mret (PFloat x).

Definition iloc_of (d : DataFrame) (c : string) (i : Z) : exn + pyval :=
  s ← column d c; series_iloc s i.

Definition sum_of (d : DataFrame) (c : string) : exn + pyval :=
  s ← column d c; series_sum s.

Definition count_of (d : DataFrame) (c : string)
    (test : list pyval → exn + list bool) : exn + Z :=
  s ← column d c;
  mask ← test s;
  mret (Z.of_nat (length (select mask (rows d)))).

(** A reading satisfies [column > t] (resp. [<]) when its cell holds
    a number on that side of the threshold. *)
Definition satisfies (c : string) (test : Q → Q → bool) (t : Q)
    (r : gmap string pyval) : bool :=
  match num_of (cell c r) with
  | Some q => test q t
  | None => false
  end.

Definition count_rows (p : gmap string pyval → bool) (d : DataFrame)
  : Z :=
  Z.of_nat (length (List.filter p (rows d))).

(** The detection rules of [analyze_data_statistics], in the order of
    its [anomalies] dictionary. *)
Definition detection_rules
  : list (string * (gmap string pyval → bool)) := [
    ("high_heart_rate", satisfies "heart_rate" Qgtb 120);
    ("low_heart_rate", satisfies "heart_rate" Qltb 60);
    ("low_oxygen", satisfies "spo2" Qltb 95);
    ("high_temp", satisfies "temperature" Qgtb 37.2);
    ("low_temp", satisfies "temperature" Qltb 36.1);
    ("high_bp", satisfies "systolic_bp" Qgtb 130);
    ("low_bp", satisfies "systolic_bp" Qltb 110);
    ("high_stress", satisfies "stress_level" Qgtb 6)
  ].

(** The two further rules of the design document's rule table. *)
Definition sleep_rules
  : list (string * (gmap string pyval → bool)) := [
    ("poor_sleep", satisfies "sleep_hours" Qltb 6.5);
    ("excessive_sleep", satisfies "sleep_hours" Qgtb 9.0)
  ].

(** How many detection rules one reading triggers. *)
Definition rules_triggered (r : gmap string pyval) : Z :=
  Z.of_nat (length (List.filter (λ rule, snd rule r) detection_rules)).

Definition Zsum (l : list Z) : Z := foldr Z.add 0 l.

(** [stats['anomalies'][rule]] and [stats['total_anomalies']] *)
Definition anomaly_count (stats : gmap string entry) (rule : string)
  : option Z :=
  match stats !! "anomalies" with
  | Some (Group g) =>
    match g !! rule with
    | Some (FVal (PInt n)) => Some n
    | _ => None
    end
  | _ => None
  end.

Definition total_anomalies (stats : gmap string entry) : option Z :=
  match stats !! "total_anomalies" with
  | Some (Leaf (FVal (PInt n))) => Some n
  | _ => None
  end.

(** [stats[group][key]] *)
Definition stat (stats : gmap string entry) (group key : string)
  : option field :=
  match stats !! group with
  | Some (Group g) => g !! key
  | _ => None
  end.

(** The keys of [stats[group]]. *)
Definition stat_keys (stats : gmap string entry) (group : string)
  : option (gset string) :=
  match stats !! group with
  | Some (Group g) => Some (dom g)
  | _ => None
  end.

(** The series extended by one more reading. *)
Definition append_reading (d : DataFrame) (r : gmap string pyval)
  : DataFrame :=
  {| header := header d; rows := rows d ++ [r] |}.

(** The columns [analyze_data_statistics] reads, in the order in
    which it first reads them. *)
Definition required_columns : list string :=
  ["timestamp"; "heart_rate"; "spo2"; "temperature"; "systolic_bp";
   "diastolic_bp"; "stress_level"; "steps"].

Definition metric_columns : list string :=
  ["heart_rate"; "spo2"; "temperature"; "systolic_bp";
   "diastolic_bp"; "stress_level"; "steps"].

Definition first_missing (d : DataFrame) : option string :=
  List.find (λ c, negb (bool_decide (c ∈ header d))) required_columns.

(** Some reading holds text in column [c]. *)
Definition text_in (d : DataFrame) (c : string) : bool :=
  existsb (λ r, is_str (cell c r)) (rows d).

(** Every metric cell holds a number or a gap, never text. *)
Definition numeric_metrics (d : DataFrame) : bool :=
  forallb (λ c, negb (text_in d c)) metric_columns.

(** The numbers recorded for a metric, gaps left out. *)
Definition observations (d : DataFrame) (c : string) : list Q :=
  omap (λ r, num_of (cell c r)) (rows d).

(** Mean of the observations, [NaN] when there are none. *)
Definition mean_obs (d : DataFrame) (c : string) : float :=
  match observations d c with
  | [] => NaN
  | vs => Fin (mean_of vs)
  end.

Definition sample_variance (vs : list Q) : Q :=
  (Qsum ((λ x, (x - mean_of vs) * (x - mean_of vs))%Q <$> vs)
   / inject_Z (Z.of_nat (length vs) - 1))%Q.

(** Sample standard deviation to one decimal, [NaN] with fewer than
    two observations. *)
Definition std_obs (d : DataFrame) (c : string) : float :=
  match observations d c with
  | [] | [_] => NaN
  | vs => Fin (round1_sqrt (sample_variance vs))
  end.

(** [v] is a least (greatest) observation, or a gap when there is no
    observation at all. *)
Definition is_minimum (vs : list Q) (v : pyval) : Prop :=
  match num_of v with
  | Some m => m ∈ vs ∧ ∀ x, x ∈ vs → (m <= x)%Q
  | None => vs = []
  end.

Definition is_maximum (vs : list Q) (v : pyval) : Prop :=
  match num_of v with
  | Some m => m ∈ vs ∧ ∀ x, x ∈ vs → (x <= m)%Q
  | None => vs = []
  end.

(** A float scalar rounded to one decimal; an integer as it is. *)
Definition rounded (v : pyval) : pyval :=
  match v with
  | PFloat x => PFloat (round_float1 x)
  | _ => v
  end.

(** The tally the rules give on a table: rule name to number of
    readings that satisfy the rule. *)
Definition tally (d : DataFrame) : gmap string Z :=
  list_to_map ((λ rule, (fst rule, count_rows (snd rule) d))
                 <$> detection_rules).

(** [v] is extremal among the numbers [seen] for an order [R], or a gap
    when nothing was seen. *)
Definition extremal (R : Q → Q → Prop) (seen : list Q) (v : pyval) : Prop :=
  match num_of v with
  | Some m => m ∈ seen ∧ ∀ x, x ∈ seen → R m x
  | None => seen = []
  end.

(** How a reading of column [c] can end: with a value only if the
    column exists; with [KeyError c] if it does not; any other
    failure needs text in the column. *)
Definition shaped {A} (x : exn + A) (d : DataFrame) (c : string) : Prop :=
  match x with
  | inl e => (e = KeyError c ∧ c ∉ header d) ∨ text_in d c = true
  | inr _ => c ∈ header d
  end.

(** The same for [df[c].iloc[0]] and [df[c].iloc[-1]]. *)
Definition iloc_shaped (x : exn + pyval) (d : DataFrame) (c : string)
  : Prop :=
  match x with
  | inl e => (e = KeyError c ∧ c ∉ header d)
             ∨ (e = IndexError ∧ c ∈ header d ∧ rows d = [])
  | inr _ => c ∈ header d ∧ rows d ≠ []
  end.

(** [evals m l d r]: wherever [l] refers to the table [d], the
    computation [m] returns [r], and every object of the store is
    left as it was (new objects may have been allocated). *)
Definition evals {A} (m : M store A) (l : positive) (d : DataFrame)
    (r : exn + A) : Prop :=
  ∀ σ, σ !! l = Some d → ∃ σ', m σ = (r, σ') ∧ σ ⊆ σ'.

Definition wp {A} (m : M store A) (l : positive) (d : DataFrame)
    (Post : exn + A → Prop) : Prop :=
  ∃ r, evals m l d r ∧ Post r.

(** Two computations, each with its own reference to the table [d],
    that come to the same result. *)
Definition agree {A} (m1 : M store A) (l1 : positive)
    (m2 : M store A) (l2 : positive) (d : DataFrame) : Prop :=
  ∃ r, evals m1 l1 d r ∧ evals m2 l2 d r.

(** The outcome of the analysis of a table [d], taken from a store
    that holds nothing else. *)
Definition report_of (d : DataFrame) : exn + gmap string entry :=
  fst (analyze_data_statistics 1 {[1%positive := d]}).

(** The analysis ended with a report, not an exception. *)
Definition is_report {A} (x : exn + A) : bool :=
  match x with
  | inr _ => true
  | inl _ => false
  end.

(** *** What a run of the analysis establishes *)

(** The anomaly tally of a report is the rules' tally of the table. *)
Definition anomalies_post (d : DataFrame) (R : exn + gmap string entry)
  : Prop :=
  ∀ r, R = inr r →
    r !! "anomalies" = Some (Group (FVal ∘ PInt <$> tally d)) ∧
    r !! "total_anomalies" = Some (scalar (PInt (sum_values (tally d)))).

(** On numeric metric columns the analysis ends in [IndexError] on an
    empty table with timestamps, in [KeyError] on the first column it
    reads and does not find, and in a report otherwise. *)
Definition outcome_post (d : DataFrame) (R : exn + gmap string entry)
  : Prop :=
  numeric_metrics d = true →
  match R with
  | inl IndexError => rows d = [] ∧ "timestamp" ∈ header d
  | inl (KeyError c) =>
    first_missing d = Some c ∧ (rows d ≠ [] ∨ c = "timestamp")
  | inl _ => False
  | inr _ => rows d ≠ [] ∧ first_missing d = None
  end.

Definition reports (r : gmap string entry) (g k : string)
    (x : exn + pyval) : Prop :=
  ∃ v, x = inr v ∧ stat r g k = Some (FVal v).

Definition reports_range (r : gmap string entry) (g k : string)
    (x y : exn + pyval) : Prop :=
  ∃ a b, x = inr a ∧ y = inr b ∧ stat r g k = Some (FText a "-" b).

(** Every aggregate of a report is the reduction of its column. *)
Definition stats_post (d : DataFrame) (R : exn + gmap string entry)
  : Prop :=
  ∀ r, R = inr r →
    (reports r "heart_rate" "avg" (mean1_of d "heart_rate") ∧
     reports r "heart_rate" "min" (min_of d "heart_rate") ∧
     reports r "heart_rate" "max" (max_of d "heart_rate") ∧
     reports r "heart_rate" "std" (std1_of d "heart_rate") ∧
     stat_keys r "heart_rate"
     = Some ({[ "avg"; "min"; "max"; "std" ]} : gset string)) ∧
    (reports r "spo2" "avg" (mean1_of d "spo2") ∧
     reports r "spo2" "min" (min1_of d "spo2") ∧
     reports r "spo2" "max" (max1_of d "spo2") ∧
     stat_keys r "spo2" = Some ({[ "avg"; "min"; "max" ]} : gset string)) ∧
    (reports r "temperature" "avg" (mean1_of d "temperature") ∧
     reports r "temperature" "min" (min1_of d "temperature") ∧
     reports r "temperature" "max" (max1_of d "temperature") ∧
     stat_keys r "temperature"
     = Some ({[ "avg"; "min"; "max" ]} : gset string)) ∧
    (reports r "blood_pressure" "systolic_avg" (mean1_of d "systolic_bp") ∧
     reports r "blood_pressure" "diastolic_avg"
       (mean1_of d "diastolic_bp") ∧
     reports_range r "blood_pressure" "systolic_range"
       (min_of d "systolic_bp") (max_of d "systolic_bp") ∧
     reports_range r "blood_pressure" "diastolic_range"
       (min_of d "diastolic_bp") (max_of d "diastolic_bp") ∧
     stat_keys r "blood_pressure"
     = Some ({[ "systolic_avg"; "diastolic_avg"; "systolic_range";
                "diastolic_range" ]} : gset string)) ∧
    (reports r "stress_level" "avg" (mean1_of d "stress_level") ∧
     reports r "stress_level" "max" (max_of d "stress_level") ∧
     stat_keys r "stress_level" = Some ({[ "avg"; "max" ]} : gset string)) ∧
    (∃ v, sum_of d "steps" = inr v ∧ r !! "total_steps" = Some (scalar v)) ∧
    r !! "steps" = None ∧
    r !! "total_readings"
    = Some (scalar (PInt (Z.of_nat (length (rows d))))) ∧
    (∃ a b, iloc_of d "timestamp" 0 = inr a ∧
            iloc_of d "timestamp" (-1) = inr b ∧
            r !! "time_span" = Some (Leaf (FText a " to " b))).

End Table.

Import Table.

(** ** Vocabulary for the properties of the generator *)

Module Profiles.

(** The metrics of a reading, and the fields of its dictionary. *)
Definition metrics : list string :=
  ["heart_rate"; "spo2"; "temperature"; "systolic_bp"; "diastolic_bp";
   "steps"; "stress_level"; "sleep_hours"].

Definition fields : gset string :=
  {[ "timestamp"; "heart_rate"; "spo2"; "temperature"; "systolic_bp";
     "diastolic_bp"; "steps"; "stress_level"; "sleep_hours" ]}.

(** How a range is sampled. *)
Inductive kind : Type :=
| Integer
| Continuous.

(** The sampler [generate_reading] applies to a metric's normal range:
    [randint] for the first group, rounded [uniform] for the second. *)
Definition normal_kind (m : string) : kind :=
  if bool_decide (m ∈ ["heart_rate"; "systolic_bp"; "diastolic_bp";
                        "steps"; "stress_level"])
  then Integer
  else Continuous.

(** The sampler applied to an override range: decided by the type of
    its lower bound. *)
Definition override_kind (lo : num) : kind :=
  match lo with
  | NInt _ => Integer
  | NFloat _ => Continuous
  end.

(** A number with at most one decimal. *)
Definition one_decimal (q : Q) : Prop := ∃ k : Z, (q == k # 10)%Q.

(** [v] is a legitimate draw from the range [lo, hi] of the given kind:
    an integer within the bounds, or a float with one decimal within
    the bounds, both bounds included. *)
Definition sampled (k : kind) (lo hi : num) (v : pyval) : Prop :=
  match k with
  | Integer =>
    ∃ z, v = PInt z ∧ (num_Q lo <= inject_Z z)%Q ∧ (inject_Z z <= num_Q hi)%Q
  | Continuous =>
    ∃ q, v = PFloat (Fin q) ∧ (num_Q lo <= q)%Q ∧ (q <= num_Q hi)%Q ∧
         one_decimal q
  end.

(** The range with which a profile overrides a metric, if it does. *)
Definition override (self : SmartWatchDataGenerator)
    (profile : option string) (m : string) : option (num * num) :=
  match profile with
  | None => None
  | Some a =>
    match assoc a (anomaly_types self) with
    | None => None
    | Some cfg =>
      if String.eqb m "probability" then None
      else match assoc m cfg with
           | Some (CRange lo hi) => Some (lo, hi)
           | _ => None
           end
    end
  end.

(** Metric [m] of [data] was drawn from the override range of the
    chosen profile if that profile overrides [m], and from the normal
    range otherwise. *)
Definition within (self : SmartWatchDataGenerator)
    (chosen : option string) (data : gmap string pyval) (m : string)
  : Prop :=
  ∃ v, data !! m = Some v ∧
    match override self chosen m with
    | Some (lo, hi) => sampled (override_kind lo) lo hi v
    | None =>
      match assoc m (normal_ranges self) with
      | Some (lo, hi) => sampled (normal_kind m) lo hi v
      | None => False
      end
    end.

Definition contained (self : SmartWatchDataGenerator)
    (chosen : option string) (data : gmap string pyval) : Prop :=
  Forall (within self chosen data) metrics.

(** The names of the configured anomaly profiles. *)
Definition profile_names (self : SmartWatchDataGenerator) : list string :=
  fst <$> anomaly_types self.

(** The profile a call may apply: none only when no anomaly is forced;
    otherwise a configured one, which is the forced one when a
    non-empty name is forced. *)
Definition selectable (self : SmartWatchDataGenerator)
    (force_anomaly chosen : option string) : Prop :=
  match chosen with
  | None => force_anomaly = None
  | Some a =>
    a ∈ profile_names self ∧
    (truthy force_anomaly = true → force_anomaly = Some a)
  end.

(** [q * 10] is an integer. *)
Definition tenths (q : Q) : bool :=
  Qeq_bool (q * 10) (inject_Z (Qfloor (q * 10))).

(** [post m s Q]: the outcome of running [m] from state [s]
    satisfies [Q]. *)
Definition post {S A} (m : M S A) (s : S) (Q : exn + A → Prop) : Prop :=
  Q (fst (m s)).

(** What the first statements of [generate_reading] settle: whether
    the reading is anomalous, and under which profile name. *)
Definition decided (self : SmartWatchDataGenerator)
    (force_anomaly : option string) (is_anomaly : bool)
    (anomaly_type : option string) : Prop :=
  (is_anomaly = false ∧ anomaly_type = None ∧ force_anomaly = None) ∨
  (is_anomaly = true ∧
   ∃ a, anomaly_type = Some a ∧
        ((truthy force_anomaly = true ∧ force_anomaly = Some a) ∨
         (truthy force_anomaly = false ∧ a ∈ profile_names self))).

(** [yields m P]: from every state, [m] returns a value, and the value
    satisfies [P]. *)
Definition yields {S A} (m : M S A) (P : A → Prop) : Prop :=
  ∀ s, ∃ a s', m s = (inr a, s') ∧ P a.

(** What a call of [generate_reading] on the stock generator ends in:
    a reading of the nine fields, contained in the ranges of the
    profile it applied; or [KeyError] on a forced name that is neither
    empty nor configured. *)
Definition reading_post (force_anomaly : option string)
    (r : exn + gmap string pyval) : Prop :=
  match r with
  | inr data =>
    dom data = fields ∧
    ∃ chosen, selectable __init__ force_anomaly chosen ∧
              contained __init__ chosen data
  | inl e =>
    ∃ a, force_anomaly = Some a ∧ a ≠ "" ∧
         assoc a (anomaly_types __init__) = None ∧ e = KeyError a
  end.

(** A concrete random source, for running the generator: a 64-bit
    linear congruential generator. *)
Definition lcg_next (g : Z) : Z :=
  (6364136223846793005 * g + 1442695040888963407) mod 2 ^ 64.

#[program] Instance Lcg : RandomSource Z := {|
  rs_random g := (Qmake (g mod 2 ^ 53) (2 ^ 53), lcg_next g);
  rs_randbelow n g := (if 0 <? n then g mod n else 0, lcg_next g)
|}.
Next Obligation.
  intros g. cbn [fst]. unfold Qle, Qlt. cbn [Qnum Qden].
  pose proof (Z.mod_pos_bound g (2 ^ 53) ltac:(done)). lia.
Qed.
Next Obligation.
  intros n g Hn. cbn [fst]. destruct (Z.ltb_spec 0 n); [|lia].
  by apply Z.mod_pos_bound.
Qed.

Definition noon : datetime := {|
  year := 2025; month := 1; day := 1;
  hour := 12; minute := 0; second := 0; microsecond := 0
|}.

Definition world0 (seed : Z) : world Z := {| rng := seed; clock := noon |}.

End Profiles.

Import Profiles.

(** ** Sample tables *)

Module Samples.

(** The header line that [save_to_csv] writes. *)
Definition csv_header : list string :=
  ["timestamp"; "heart_rate"; "spo2"; "temperature"; "systolic_bp";
   "diastolic_bp"; "steps"; "stress_level"; "sleep_hours"; "person_id"].

Definition reading (timestamp : string) (heart_rate : Z) (spo2 temperature : Q)
    (systolic_bp diastolic_bp steps stress_level : Z) (sleep_hours : Q)
  : gmap string pyval :=
  <["person_id" := PStr "Person_1"]>
  (<["sleep_hours" := PFloat (Fin sleep_hours)]>
  (<["stress_level" := PInt stress_level]>
  (<["steps" := PInt steps]>
  (<["diastolic_bp" := PInt diastolic_bp]>
  (<["systolic_bp" := PInt systolic_bp]>
  (<["temperature" := PFloat (Fin temperature)]>
  (<["spo2" := PFloat (Fin spo2)]>
  (<["heart_rate" := PInt heart_rate]>
  (<["timestamp" := PStr timestamp]> ∅))))))))).

(** An unremarkable reading. *)
Definition calm (timestamp : string) : gmap string pyval :=
  reading timestamp 72 97.5 36.6 120 80 40 3 7.5.

(** Two readings, normal but for their sleep: 5.0 h and 10.0 h. *)
Definition sleep_series : DataFrame := {|
  header := csv_header;
  rows := [reading "2025-01-01T00:00:00" 72 97.5 36.6 120 80 40 3 5.0;
           reading "2025-01-01T05:00:00" 75 98.0 36.7 118 79 55 2 10.0]
|}.

Definition one_reading : DataFrame := {|
  header := csv_header;
  rows := [calm "2025-01-01T00:00:00"]
|}.


(** The second line left its heart-rate cell empty. *)
Definition gap_series : DataFrame := {|
  header := csv_header;
  rows := [calm "2025-01-01T00:00:00";
           delete "heart_rate" (calm "2025-01-01T05:00:00")]
|}.

(** A table that never had a [sleep_hours] column. *)
Definition no_sleep_column : DataFrame := {|
  header := List.filter (λ c, negb (String.eqb c "sleep_hours")) csv_header;
  rows := [delete "sleep_hours" (calm "2025-01-01T00:00:00")]
|}.

Definition empty_series : DataFrame := {|
  header := csv_header;
  rows := []
|}.

(** Heart rates 70, 125 and 55. *)
Definition scenario : DataFrame := {|
  header := csv_header;
  rows := [reading "2025-01-01T00:00:00" 70 97.5 36.6 120 80 40 3 7.5;
           reading "2025-01-01T05:00:00" 125 97.5 36.6 120 80 40 3 7.5;
           reading "2025-01-01T10:00:00" 55 97.5 36.6 120 80 40 3 7.5]
|}.

(** Heart rate 125 and stress level 8: two rules at once. *)
Definition strained : gmap string pyval :=
  reading "2025-01-01T10:00:00" 125 97.5 36.6 120 80 40 8 7.5.

End Samples.

Import Samples.

(** ** [create_llm_prompt] of [analyze_health_data.py] *)

Module Prompt.

(** How a column presents one of its cells: as it is in an [object]
    column, as a float in a [float64] column. *)
Definition coercion (col : list pyval) (v : pyval) : pyval :=
  if existsb is_str col then v
  else if existsb is_float col then to_float64 v
  else v.

(** No column of the table holds text and some column holds floats:
    a row taken out of such a table is a float series. *)
Definition upcast_rows (d : DataFrame) : bool :=
  forallb (λ c, negb (existsb is_str (cell c <$> rows d))) (header d)
  && existsb (λ c, existsb is_float (cell c <$> rows d)) (header d).

(** The cell of row [r] in column [c], as a row series taken out of
    the table [d] holds it. *)
Definition present (d : DataFrame) (c : string) (r : gmap string pyval)
  : pyval :=
  let v := coercion (cell c <$> rows d) (cell c r) in
  if upcast_rows d then to_float64 v else v.

(** A selection [df[mask]] whose cells are read: a temporary that
    keeps the column dtypes of the table it was taken from, so it is
    kept with that table.  (The analysis above only takes the length
    of its selections.) *)
Record Selection : Type := {
  origin : DataFrame;
  kept : list (gmap string pyval)
}.

Definition df_getitem_mask (df : positive) (mask : list bool)
  : M store Selection :=
  λ σ, let d := σ !!! df in
       (inr {| origin := d; kept := select mask (rows d) |}, σ).

(** A row taken out of a table: a series indexed by the column names. *)
Record Row : Type := {
  index : list string;
  values : gmap string pyval
}.

(** [sel.iloc[i]], with Python's negative indices. *)
Definition iloc (sel : Selection) (i : Z) : exn + Row :=
  let n := Z.of_nat (length (kept sel)) in
  let j := if i <? 0 then i + n else i in
  if (0 <=? j) && (j <? n) then
    match kept sel !! Z.to_nat j with
    | Some r =>
      inr {| index := header (origin sel);
             values := list_to_map ((λ c, (c, present (origin sel) c r))
                                      <$> header (origin sel)) |}
    | None => inl IndexError
    end
  else inl IndexError.

(** [row[c]] *)
Definition row_get (row : Row) (c : string) : exn + pyval :=
  if bool_decide (c ∈ index row) then inr (cell c (values row))
  else inl (KeyError c).

(** [stats[k]] and [e[k]] for an entry [e] of the statistics. *)
Definition stats_get (stats : gmap string entry) (k : string)
  : exn + entry :=
  match stats !! k with
  | Some e => inr e
  | None => inl (KeyError k)
  end.

Definition entry_get (e : entry) (k : string) : exn + field :=
  match e with
  | Group g =>
    match g !! k with
    | Some f => inr f
    | None => inl (KeyError k)
    end
  | Leaf _ => inl TypeError
  end.

(** [f > 0] *)
Definition positive_count (f : field) : exn + bool :=
  match f with
  | FVal (PInt n) => inr (0 <? n)
  | FVal (PFloat (Fin q)) => inr (Qgtb q 0)
  | FVal (PFloat NaN) => inr false
  | FVal (PStr _) => inl TypeError
  | FText _ _ _ => inl TypeError
  end.

(** A piece of the prompt: literal text, or a value of the statistics
    or of a reading, to be rendered by [str]. *)
Inductive piece : Type :=
| Txt (s : string)
| Shown (e : entry).

Definition newline : string := String (Ascii.ascii_of_nat 10) "".

(** [sample = df[test(df[c])].iloc[0]], then [sample[c]] and
    [sample['timestamp']]. *)
Definition quote (df : positive) (c : string)
    (test : list pyval → exn + list bool) : M store (pyval * pyval) :=
  s ← df_getitem df c;
  mask ← lift (test s);
  sub ← df_getitem_mask df mask;
  sample ← lift (iloc sub 0);
  v ← lift (row_get sample c);
  t ← lift (row_get sample "timestamp");
  mret (v, t).

(** One of the three [if stats['anomalies'][rule] > 0:] blocks. *)
Definition sample_if (stats : gmap string entry) (df : positive)
    (rule c : string) (test : list pyval → exn + list bool)
    (label unit_at : string) : M store (list (list piece)) :=
  some ← lift (e ← stats_get stats "anomalies";
               f ← entry_get e rule;
               positive_count f);
  if some : bool then
    vt ← quote df c test;
    mret [[Txt label; Shown (scalar (fst vt)); Txt unit_at;
           Shown (scalar (snd vt))]]
  else mret [].

Definition anomaly_samples (stats : gmap string entry) (df : positive)
  : M store (list (list piece)) :=
  s1 ← sample_if stats df "high_heart_rate" "heart_rate" (series_gt 120)
         "High heart rate: " " bpm at ";
  s2 ← sample_if stats df "low_oxygen" "spo2" (series_lt 95)
         "Low oxygen: " "% at ";
  s3 ← sample_if stats df "high_temp" "temperature" (series_gt 37.2)
         "High temperature: " "°C at ";
  mret (s1 ++ s2 ++ s3).

(** The f-string of the prompt: literal lines, line breaks, values of
    the statistics, and the place of the sample lines. *)
Inductive item : Type :=
| Lit (s : string)
| NL
| Get (k : string)
| Get2 (g k : string)
| Samples.

Definition template : list item :=
  [  Lit "You are a health data analyst. Analyze the following smart watch health monitoring data and provide insights:";
    NL; NL; Lit "MONITORING PERIOD:"; NL; Lit "- Total readings: ";
    Get "total_readings"; NL; Lit "- Time span: "; Get "time_span"; NL; NL;
    Lit "VITAL SIGNS SUMMARY:"; NL; Lit "Heart Rate:"; NL; Lit "- Average: ";
    Get2 "heart_rate" "avg"; Lit " bpm"; NL; Lit "- Range: ";
    Get2 "heart_rate" "min"; Lit "-"; Get2 "heart_rate" "max"; Lit " bpm"; NL;
    Lit "- Standard deviation: "; Get2 "heart_rate" "std"; NL; NL;
    Lit "Blood Oxygen (SpO2):"; NL; Lit "- Average: "; Get2 "spo2" "avg";
    Lit "%"; NL; Lit "- Range: "; Get2 "spo2" "min"; Lit "-";
    Get2 "spo2" "max"; Lit "%"; NL; NL; Lit "Body Temperature:"; NL;
    Lit "- Average: "; Get2 "temperature" "avg"; Lit "°C"; NL;
    Lit "- Range: "; Get2 "temperature" "min"; Lit "-";
    Get2 "temperature" "max"; Lit "°C"; NL; NL; Lit "Blood Pressure:"; NL;
    Lit "- Average: "; Get2 "blood_pressure" "systolic_avg"; Lit "/";
    Get2 "blood_pressure" "diastolic_avg"; Lit " mmHg"; NL;
    Lit "- Systolic range: "; Get2 "blood_pressure" "systolic_range";
    Lit " mmHg"; NL; Lit "- Diastolic range: ";
    Get2 "blood_pressure" "diastolic_range"; Lit " mmHg"; NL; NL;
    Lit "Stress Level:"; NL; Lit "- Average: "; Get2 "stress_level" "avg";
    Lit "/10"; NL; Lit "- Maximum: "; Get2 "stress_level" "max"; Lit "/10";
    NL; NL; Lit "Activity:"; NL; Lit "- Total steps: "; Get "total_steps"; NL;
    NL; Lit "DETECTED ANOMALIES ("; Get "total_anomalies"; Lit " total):"; NL;
    Lit "- High heart rate events: "; Get2 "anomalies" "high_heart_rate"; NL;
    Lit "- Low heart rate events: "; Get2 "anomalies" "low_heart_rate"; NL;
    Lit "- Low oxygen saturation: "; Get2 "anomalies" "low_oxygen"; NL;
    Lit "- High temperature events: "; Get2 "anomalies" "high_temp"; NL;
    Lit "- Low temperature events: "; Get2 "anomalies" "low_temp"; NL;
    Lit "- High blood pressure: "; Get2 "anomalies" "high_bp"; NL;
    Lit "- Low blood pressure: "; Get2 "anomalies" "low_bp"; NL;
    Lit "- High stress levels: "; Get2 "anomalies" "high_stress"; NL; NL;
    Lit "EXAMPLE ANOMALIES:"; NL; Samples; NL; NL; Lit "Please provide:"; NL;
    Lit "1. Overall health assessment"; NL; Lit "2. Key concerns or patterns";
    NL; Lit "3. Recommendations for the user"; NL;
    Lit "4. Any correlations you notice between different metrics"; NL ].

(** [chr(10).join(lines)] *)
Fixpoint join_lines (lines : list (list piece)) : list piece :=
  match lines with
  | [] => []
  | [line] => line
  | line :: rest => line ++ Txt newline :: join_lines rest
  end.

(** The expressions of the f-string are evaluated from left to right;
    the first lookup that fails ends the evaluation. *)
Fixpoint render (stats : gmap string entry) (samples : list (list piece))
    (t : list item) : exn + list piece :=
  match t with
  | [] => inr []
  | it :: t' =>
    p ← match it with
        | Lit s => inr [Txt s]
        | NL => inr [Txt newline]
        | Get k => e ← stats_get stats k; inr [Shown e]
        | Get2 g k =>
          e ← stats_get stats g; f ← entry_get e k; inr [Shown (Leaf f)]
        | Samples => inr (join_lines (take 3 samples))
        end;
    rest ← render stats samples t';
    inr (p ++ rest)
  end.

Definition create_llm_prompt (stats : gmap string entry) (df : positive)
  : M store (list piece) :=
  anomaly_samples ← anomaly_samples stats df;
  lift (render stats anomaly_samples template).

End Prompt.

Import Prompt.

(** ** Vocabulary for the properties of the prompt *)

Module Lines.

(** How quoting the first reading whose column [c] passes [test]
    against [t] ends. *)
Definition quote_of (d : DataFrame) (c : string) (test : Q → Q → bool)
    (t : Q) : exn + pyval * pyval :=
  if bool_decide (c ∈ header d) then
    if text_in d c then inl TypeError
    else match List.find (satisfies c test t) (rows d) with
         | None => inl IndexError
         | Some r =>
           if bool_decide ("timestamp" ∈ header d)
           then inr (present d c r, present d "timestamp" r)
           else inl (KeyError "timestamp")
         end
  else inl (KeyError c).

(** The sample line of a rule: none when no reading satisfies the
    rule, else one that quotes the first reading that does. *)
Definition sample_line (d : DataFrame) (c : string) (test : Q → Q → bool)
    (t : Q) (label unit_at : string) : list (list piece) :=
  match List.find (satisfies c test t) (rows d) with
  | Some r =>
    [[Txt label; Shown (scalar (present d c r)); Txt unit_at;
      Shown (scalar (present d "timestamp" r))]]
  | None => []
  end.

Definition samples_of (d : DataFrame) : list (list piece) :=
  sample_line d "heart_rate" Qgtb 120 "High heart rate: " " bpm at "
  ++ sample_line d "spo2" Qltb 95 "Low oxygen: " "% at "
  ++ sample_line d "temperature" Qgtb 37.2 "High temperature: " "°C at ".

(** The statistics hold every value the template asks for. *)
Definition complete (stats : gmap string entry) : Prop :=
  ∀ samples, is_report (render stats samples template) = true.

(** The pieces of a prompt that are not literal text. *)
Definition shown (p : list piece) : list entry :=
  omap (λ x, match x with Shown e => Some e | Txt _ => None end) p.

End Lines.

Import Lines.

(** ** Vocabulary for the generator seen by the analyser *)

Module Screening.

(** The names of the detection rules a reading triggers, in the order
    of the rules. *)
Definition flagged (r : gmap string pyval) : list string :=
  fst <$> List.filter (λ rule, snd rule r) detection_rules.

(** The range a metric is drawn from under a profile: the profile's
    override if it has one, the normal range otherwise. *)
Definition range_of (self : SmartWatchDataGenerator)
    (chosen : option string) (m : string) : option (num * num) :=
  match override self chosen m with
  | Some r => Some r
  | None => assoc m (normal_ranges self)
  end.

End Screening.

Import Screening.

(** ** Vocabulary for the weighted choice of a profile *)

Module Shares.

(** The weight of a profile: the ['probability'] of its configuration. *)
Definition weight (cfg : list (string * cfgval)) : Q :=
  match assoc "probability" cfg with
  | Some (CNum x) => num_Q x
  | _ => 0%Q
  end.

(** Each profile name with the running total of the weights up to and
    including its own. *)
Definition shares (self : SmartWatchDataGenerator) : list (string * Q) :=
  zip (fst <$> anomaly_types self)
      (accumulate ((λ a, weight (snd a)) <$> anomaly_types self)).

Definition total_weight (self : SmartWatchDataGenerator) : Q :=
  default 0%Q (last (snd <$> shares self)).

(** The profile a draw [u] from [0, 1) selects: the first whose running
    total exceeds [u] times the total weight. *)
Definition share_selected (self : SmartWatchDataGenerator) (u : Q)
  : option string :=
  fst <$> List.find (λ s, Qltb (u * total_weight self) (snd s))
            (shares self).

(** The state of the world after one draw of a float. *)
Definition after_random {G} `{RandomSource G} (w : world G) : world G :=
  {| rng := snd (rs_random (rng w)); clock := clock w |}.

(** The profile a call of [generate_reading] applies, as its forced
    name and the draws to come decide: a non-empty forced name is taken
    as it is; an empty forced name leaves the choice to the next draw;
    with nothing forced the next draw decides whether there is an
    anomaly (below 0.15) and the draw after it selects the profile. *)
Definition decision {G} `{RandomSource G} (self : SmartWatchDataGenerator)
    (force_anomaly : option string) (w : world G) : option string :=
  match force_anomaly with
  | Some a =>
    if truthy force_anomaly then Some a
    else share_selected self (fst (rs_random (rng w)))
  | None =>
    if Qltb (fst (rs_random (rng w))) 0.15
    then share_selected self (fst (rs_random (rng (after_random w))))
    else None
  end.

End Shares.

Import Shares.

(** ** [datetime] arithmetic, as the generator's time series uses it *)

Module PyDatetime.

(** Exceptions beyond those the single reading and the analysis can
    raise. *)
Inductive failure : Type :=
| Raised (e : exn)
| ZeroDivisionError
| OverflowError.

(** Computations over a state [S] that may fail in these ways too. *)
Definition T (S A : Type) : Type := S → (failure + A) * S.

#[global] Instance failure_ret : MRet (sum failure) := λ A x, inr x.
#[global] Instance failure_bind : MBind (sum failure) := λ A B k m,
  match m with
  | inl e => inl e
  | inr a => k a
  end.

#[global] Instance T_ret {S} : MRet (T S) := λ A x s, (inr x, s).
#[global] Instance T_bind {S} : MBind (T S) := λ A B k m s,
  match m s with
  | (inl e, s') => (inl e, s')
  | (inr a, s') => k a s'
  end.

(** A computation of [M] run where more can go wrong. *)
Definition embed {S A} (m : M S A) : T S A :=
  λ s, match m s with
       | (inl e, s') => (inl (Raised e), s')
       | (inr a, s') => (inr a, s')
       end.

Definition fallible {S A} (r : failure + A) : T S A := λ s, (r, s).

(** [a // b] on integers *)
Definition floordiv (a b : Z) : failure + Z :=
  if b =? 0 then inl ZeroDivisionError else inr (a / b).

Definition _MAXORDINAL : Z := 3652059.

Definition _DAYS_IN_MONTH : list Z :=
  [-1; 31; 28; 31; 30; 31; 30; 31; 31; 30; 31; 30; 31].

Definition _DAYS_BEFORE_MONTH : list Z :=
  [-1; 0; 31; 59; 90; 120; 151; 181; 212; 243; 273; 304; 334].

Definition _is_leap (year : Z) : bool :=
  (year mod 4 =? 0) && (negb (year mod 100 =? 0) || (year mod 400 =? 0)).

Definition _days_before_year (year : Z) : Z :=
  let y := year - 1 in
  y * 365 + y / 4 - y / 100 + y / 400.

Definition _days_before_month (year month : Z) : Z :=
  nth (Z.to_nat month) _DAYS_BEFORE_MONTH 0
  + (if (2 <? month) && _is_leap year then 1 else 0).

Definition _ymd2ord (year month day : Z) : Z :=
  _days_before_year year + _days_before_month year month + day.

Definition _DI400Y : Z := 146097.
Definition _DI100Y : Z := 36524.
Definition _DI4Y : Z := 1461.

Definition _ord2ymd (n : Z) : Z * Z * Z :=
  let n := n - 1 in
  let n400 := n / _DI400Y in
  let n := n mod _DI400Y in
  let year := n400 * 400 + 1 in
  let n100 := n / _DI100Y in
  let n := n mod _DI100Y in
  let n4 := n / _DI4Y in
  let n := n mod _DI4Y in
  let n1 := n / 365 in
  let n := n mod 365 in
  let year := year + n100 * 100 + n4 * 4 + n1 in
  if (n1 =? 4) || (n100 =? 4) then (year - 1, 12, 31)
  else
    let leapyear := (n1 =? 3) && (negb (n4 =? 24) || (n100 =? 3)) in
    let month := Z.shiftr (n + 50) 5 in
    let preceding :=
      nth (Z.to_nat month) _DAYS_BEFORE_MONTH 0
      + (if (2 <? month) && leapyear then 1 else 0) in
    if n <? preceding then
      let month := month - 1 in
      let preceding :=
        preceding - (nth (Z.to_nat month) _DAYS_IN_MONTH 0
                     + (if (month =? 2) && leapyear then 1 else 0)) in
      (year, month, n - preceding + 1)
    else (year, month, n - preceding + 1).

(** A duration, normalised: [0 <= seconds < 86400] and
    [0 <= microseconds < 1000000]. *)
Record timedelta : Type := {
  days : Z;
  seconds : Z;
  microseconds : Z
}.

(** [timedelta(days, seconds, microseconds)] on integers: carries are
    propagated, and more than 999999999 days either way overflow. *)
Definition timedelta_of (d s us : Z) : failure + timedelta :=
  let s := s + us / 1000000 in
  let us := us mod 1000000 in
  let d := d + s / 86400 in
  let s := s mod 86400 in
  if 999999999 <? Z.abs d then inl OverflowError
  else inr {| days := d; seconds := s; microseconds := us |}.

(** [timedelta(minutes=m)] *)
Definition timedelta_minutes (m : Z) : failure + timedelta :=
  timedelta_of 0 (m * 60) 0.

(** [t.toordinal()] *)
Definition toordinal (t : datetime) : Z :=
  _ymd2ord (year t) (month t) (day t).

(** [t + delta] for a naive datetime [t] *)
Definition datetime_add (t : datetime) (other : timedelta)
  : failure + datetime :=
  delta ← timedelta_of (toordinal t)
             (hour t * 3600 + minute t * 60 + second t) (microsecond t);
  delta ← timedelta_of (days delta + days other)
             (seconds delta + seconds other)
             (microseconds delta + microseconds other);
  let hour := seconds delta / 3600 in
  let rem := seconds delta mod 3600 in
  let minute := rem / 60 in
  let second := rem mod 60 in
  if (0 <? days delta) && (days delta <=? _MAXORDINAL) then
    let '(y, m, d) := _ord2ymd (days delta) in
    inr {| year := y; month := m; day := d;
           hour := hour; minute := minute; second := second;
           microsecond := microseconds delta |}
  else inl OverflowError.

End PyDatetime.

Import PyDatetime.

(** ** [generate_time_series] *)

Module Series.

Section Methods.
Context {G : Type} `{RandomSource G}.

(** The body of the loop, for the indices still to come. *)
Fixpoint series_loop (self : SmartWatchDataGenerator)
    (start_time : datetime) (interval_minutes : Z) (indices : list Z)
    (readings : list (gmap string pyval))
  : T (world G) (list (gmap string pyval)) :=
  match indices with
  | [] => mret readings
  | i :: indices' =>
    timestamp ← fallible (delta ← timedelta_minutes (i * interval_minutes);
                          datetime_add start_time delta);
    reading ← embed (generate_reading self (Some timestamp) None);
    series_loop self start_time interval_minutes indices'
      (readings ++ [reading])
  end.

Definition generate_time_series (self : SmartWatchDataGenerator)
    (duration_minutes interval_minutes : Z)
  : T (world G) (list (gmap string pyval)) :=
  start_time ← embed datetime_now;
  num_readings ← fallible (floordiv duration_minutes interval_minutes);
  series_loop self start_time interval_minutes (seqZ 0 num_readings) [].

End Methods.

End Series.

Import Series.

(** ** Vocabulary for the properties of the time series *)

Module Stamps.

(** [_days_in_month(year, month)] *)
Definition _days_in_month (year month : Z) : Z :=
  if (month =? 2) && _is_leap year then 29
  else nth (Z.to_nat month) _DAYS_IN_MONTH 0.

(** The values a [datetime] object can hold. *)
Definition valid_datetime (t : datetime) : bool :=
  (1 <=? year t) && (year t <=? 9999)
  && (1 <=? month t) && (month t <=? 12)
  && (1 <=? day t) && (day t <=? _days_in_month (year t) (month t))
  && (0 <=? hour t) && (hour t <? 24)
  && (0 <=? minute t) && (minute t <? 60)
  && (0 <=? second t) && (second t <? 60)
  && (0 <=? microsecond t) && (microsecond t <? 1000000).

(** [start_time + timedelta(minutes=i * interval_minutes)] *)
Definition stamp (start_time : datetime) (interval_minutes i : Z)
  : failure + datetime :=
  delta ← timedelta_minutes (i * interval_minutes);
  datetime_add start_time delta.

(** A reading of a series: the nine fields, the given timestamp, and
    metrics contained in the ranges of a profile the call may have
    drawn. *)
Definition series_reading (t : datetime) (r : gmap string pyval) : Prop :=
  dom r = fields ∧
  r !! "timestamp" = Some (PStr (isoformat t)) ∧
  ∃ chosen, selectable __init__ None chosen ∧ contained __init__ chosen r.

(** The computation ended with a value, not an exception. *)
Definition returned {A} (x : failure + A) : bool :=
  match x with
  | inr _ => true
  | inl _ => false
  end.

End Stamps.

Import Stamps.

(** ** [supabase_client.py]: the HTTP client of the agents *)

Module Supabase.

(** A JSON value, as [resp.json()] returns it; the members of an
    object have distinct keys. *)
#[local] Unset Elimination Schemes.
Inductive json_value : Type :=
| JNull
| JBool (b : bool)
| JInt (z : Z)
| JFloat (q : Q)
| JStr (s : string)
| JArray (items : list json_value)
| JObject (members : list (string * json_value)).
#[local] Set Elimination Schemes.

(** The truth value Python gives a JSON value. *)
Definition json_truthy (v : json_value) : bool :=
  match v with
  | JNull => false
  | JBool b => b
  | JInt z => negb (z =? 0)
  | JFloat q => negb (Qeq_bool q 0)
  | JStr s => negb (String.eqb s "")
  | JArray items => match items with [] => false | _ => true end
  | JObject members => match members with [] => false | _ => true end
  end.

(** What [requests.request] returns; [body] is [None] when the body
    is not JSON, so that [resp.json()] raises. *)
Record response : Type := {
  ok : bool;
  status_code : Z;
  body : option json_value;
  text : string
}.

Record request : Type := {
  method : string;
  url : string;
  headers : list (string * string);
  payload : option (list (string * option pyval));
  timeout : Z
}.

(** Exceptions at the level of the agents' main programs. *)
Inductive crash : Type :=
| Failed (f : failure)
| SupabaseError (message : json_value)
| RequestException
| AttributeError.

(** What the program leaves behind, in order. *)
Inductive event : Type :=
| Requested (r : request) (answer : option response)
| Printed (label : string) (value : json_value)
| WroteJson (filename : string) (readings : list (gmap string pyval))
| WroteCsv (filename : string) (fieldnames : gset string)
    (rows : list (gmap string pyval)).

(** The world outside the program: it answers a request, or fails to
    (then [requests] raises), and it tells the time, which has moved
    on whenever it is asked again.  Nothing is assumed of the answers;
    the times are those a clock can show. *)
Class Outside (O : Type) : Type := {
  answer : request → O → option response * O;
  pass : O → datetime * O;
  pass_valid : ∀ o, valid_datetime (fst (pass o)) = true
}.

(** [SUPABASE_URL] and [SUPABASE_ANON_KEY], read from the environment
    when the module is loaded. *)
Record settings : Type := {
  SUPABASE_URL : string;
  SUPABASE_ANON_KEY : string
}.

Record env (G O : Type) : Type := {
  inner : world G;
  outside : O;
  config : settings;
  trace : list event
}.
Arguments inner {G O} _.
Arguments outside {G O} _.
Arguments config {G O} _.
Arguments trace {G O} _.

(** Programs over the whole environment. *)
Definition P (G O A : Type) : Type := env G O → (crash + A) * env G O.

#[global] Instance P_ret {G O} : MRet (P G O) := λ A x s, (inr x, s).
#[global] Instance P_bind {G O} : MBind (P G O) := λ A B k m s,
  match m s with
  | (inl e, s') => (inl e, s')
  | (inr a, s') => k a s'
  end.

Definition throw {G O A} (e : crash) : P G O A := λ s, (inl e, s).

(** [try: m  except SupabaseError as e: handler(e)] *)
Definition except_supabase {G O A} (m : P G O A)
    (handler : json_value → P G O A) : P G O A :=
  λ s, match m s with
       | (inl (SupabaseError message), s') => handler message s'
       | other => other
       end.

Definition record {G O} (ev : event) : P G O () :=
  λ s, (inr (), {| inner := inner s; outside := outside s;
                   config := config s; trace := trace s ++ [ev] |}).

(** [print(f"{label}{value}")] *)
Definition print {G O} (label : string) (value : json_value)
  : P G O () :=
  record (Printed label value).

Section Client.
Context {G O : Type} `{Outside O}.

(** [requests.request(...)] *)
Definition requests_request (r : request) : P G O response :=
  λ s, let '(ans, o) := answer r (outside s) in
       let s' := {| inner := inner s; outside := o; config := config s;
                    trace := trace s ++ [Requested r ans] |} in
       match ans with
       | Some resp => (inr resp, s')
       | None => (inl RequestException, s')
       end.

Definition FUNCTION_BASE : P G O string :=
  λ s, (inr (SUPABASE_URL (config s)
             +:+ "/functions/v1/make-server-51edddfe"), s).

Definition _headers : P G O (list (string * string)) :=
  λ s, if String.eqb (SUPABASE_URL (config s)) ""
          || String.eqb (SUPABASE_ANON_KEY (config s)) ""
       then (inl (SupabaseError (JStr
               ("SUPABASE_URL or SUPABASE_ANON_KEY not configured. "
                +:+ "Create a .env file or export env vars before "
                +:+ "running agents."))), s)
       else (inr [("Content-Type", "application/json");
                  ("Authorization",
                   "Bearer " +:+ SUPABASE_ANON_KEY (config s))], s).

(** [data.get(key, default)]; only an object has a [get]. *)
Definition json_get (data : json_value) (key : string)
    (default : json_value) : P G O json_value :=
  match data with
  | JObject members =>
    mret (match assoc key members with
          | Some v => v
          | None => default
          end)
  | _ => throw AttributeError
  end.

Definition _request (method path : string)
    (json : option (list (string * option pyval))) : P G O json_value :=
  base ← FUNCTION_BASE;
  let url := base +:+ path in
  headers ← _headers;
  resp ← requests_request {| method := method; url := url;
                             headers := headers; payload := json;
                             timeout := 15 |};
  let data :=
    match body resp with
    | Some data => data
    | None =>
      JObject [("success", JBool false);
               ("error", JStr ("Non-JSON response: " +:+ text resp))]
    end in
  failed ← (if negb (ok resp) then mret true
            else success ← json_get data "success" (JBool false);
                 mret (negb (json_truthy success)));
  if failed : bool then
    error ← json_get data "error" JNull;
    throw (SupabaseError
             (if json_truthy error then error
              else JStr ("HTTP " +:+ pretty (status_code resp))))
  else mret data.

(** The keys of the payload of a health reading. *)
Definition payload_keys : list string :=
  ["timestamp"; "heart_rate"; "spo2"; "temperature"; "systolic_bp";
   "diastolic_bp"; "steps"; "stress_level"; "sleep_hours"].

Definition post_health_reading (patient_id : string)
    (reading : gmap string pyval) : P G O json_value :=
  let payload := (λ k, (k, reading !! k)) <$> payload_keys in
  _request "POST" ("/patient/" +:+ patient_id +:+ "/health-data")
    (Some payload).

End Client.

End Supabase.

Import Supabase.

(** ** [main] of the generator *)

Module Demo.

Section Main.
Context {G O : Type} `{RandomSource G} `{Outside O}.

(** Time has passed when the generator next asks for it. *)
Definition time_passes : P G O () :=
  λ s, let '(t, o) := pass (outside s) in
       (inr (), {| inner := {| rng := rng (inner s); clock := t |};
                   outside := o; config := config s; trace := trace s |}).

(** A method of the generator, run within the program. *)
Definition call {A} (m : T (world G) A) : P G O A :=
  λ s, let '(r, w) := m (inner s) in
       let s' := {| inner := w; outside := outside s; config := config s;
                    trace := trace s |} in
       match r with
       | inl f => (inl (Failed f), s')
       | inr a => (inr a, s')
       end.

(** [SmartWatchDataGenerator.save_to_json] *)
Definition save_to_json (self : SmartWatchDataGenerator)
    (readings : list (gmap string pyval)) (filename : string)
  : P G O () :=
  record (WroteJson filename readings).

(** The rows a [DictWriter] writes before it meets one that does not
    fit its field names. *)
Fixpoint rows_written (fits : gmap string pyval → bool)
    (rows : list (gmap string pyval)) : list (gmap string pyval) :=
  match rows with
  | [] => []
  | row :: rows' => if fits row then row :: rows_written fits rows' else []
  end.

(** [SmartWatchDataGenerator.save_to_csv]: nothing is written for an
    empty list; a row with a field the first row lacks stops the
    writing with [ValueError], the rows before it being written. *)
Definition save_to_csv (self : SmartWatchDataGenerator)
    (readings : list (gmap string pyval)) (filename : string)
  : P G O () :=
  match readings with
  | [] => mret ()
  | first :: _ =>
    let fieldnames := dom first in
    let fits (row : gmap string pyval) :=
      bool_decide (dom row ⊆ fieldnames) in
    _ ← record (WroteCsv filename fieldnames
                  (rows_written fits readings));
    if forallb fits readings then mret ()
    else throw (Failed (Raised ValueError))
  end.

Definition people : list string :=
  ["Person_1"; "Person_2"; "Person_3"; "Person_4"; "Person_5";
   "Person_6"].

(** The loop over the readings of one person; [push_to_supabase] is
    the variable the handler clears. *)
Fixpoint reading_loop (patient_id : option string) (person : string)
    (readings all_readings : list (gmap string pyval))
    (push_to_supabase : bool)
  : P G O (list (gmap string pyval) * bool) :=
  match readings with
  | [] => mret (all_readings, push_to_supabase)
  | reading :: readings' =>
    let reading := <["person_id" := PStr person]> reading in
    let all_readings := all_readings ++ [reading] in
    push_to_supabase ←
      (if push_to_supabase && truthy patient_id then
         except_supabase
           (_ ← post_health_reading (default "" patient_id) reading;
            mret push_to_supabase)
           (λ e, _ ← print "[Supabase error] " e; mret false)
       else mret push_to_supabase);
    reading_loop patient_id person readings' all_readings push_to_supabase
  end.

Fixpoint people_loop (generator : SmartWatchDataGenerator)
    (patient_id : option string) (persons : list string)
    (all_readings : list (gmap string pyval)) (push_to_supabase : bool)
  : P G O (list (gmap string pyval) * bool) :=
  match persons with
  | [] => mret (all_readings, push_to_supabase)
  | person :: persons' =>
    _ ← time_passes;
    readings ← call (generate_time_series generator (24 * 60) (5 * 60));
    state ← reading_loop patient_id person readings all_readings
              push_to_supabase;
    people_loop generator patient_id persons' (fst state) (snd state)
  end.

Definition main (patient_id : option string) (push_to_supabase : bool)
  : P G O () :=
  let generator := __init__ in
  state ← people_loop generator patient_id people [] push_to_supabase;
  let all_readings := fst state in
  _ ← save_to_json generator all_readings "smartwatch_data.json";
  save_to_csv generator all_readings "smartwatch_data.csv".

End Main.

End Demo.

Import Demo.

(** ** Vocabulary for the properties of the client and of [main] *)

Module Traces.

Definition is_request (ev : event) : bool :=
  match ev with
  | Requested _ _ => true
  | _ => false
  end.

Definition is_write (ev : event) : bool :=
  match ev with
  | WroteJson _ _ | WroteCsv _ _ _ => true
  | _ => false
  end.

(** What the checks of [_request] make of a response. *)
Definition verdict (resp : response) : crash + json_value :=
  let data :=
    match body resp with
    | Some data => data
    | None =>
      JObject [("success", JBool false);
               ("error", JStr ("Non-JSON response: " +:+ text resp))]
    end in
  match data with
  | JObject members =>
    if ok resp
       && json_truthy (default (JBool false) (assoc "success" members))
    then inr data
    else
      let error := default JNull (assoc "error" members) in
      inl (SupabaseError
             (if json_truthy error then error
              else JStr ("HTTP " +:+ pretty (status_code resp))))
  | _ => inl AttributeError
  end.

(** The settings name a server and a key. *)
Definition configured (c : settings) : bool :=
  negb (String.eqb (SUPABASE_URL c) "")
  && negb (String.eqb (SUPABASE_ANON_KEY c) "").

(** The request [post_health_reading] sends. *)
Definition health_request (c : settings) (patient_id : string)
    (reading : gmap string pyval) : request :=
  {| method := "POST";
     url := (SUPABASE_URL c +:+ "/functions/v1/make-server-51edddfe")
            +:+ ("/patient/" +:+ patient_id +:+ "/health-data");
     headers := [("Content-Type", "application/json");
                 ("Authorization", "Bearer " +:+ SUPABASE_ANON_KEY c)];
     payload := Some ((λ k, (k, reading !! k)) <$> payload_keys);
     timeout := 15 |}.

(** The events of the pushing phase, from the value of
    [push_to_supabase] before to its value after: nothing when pushing
    is off; requests only while it stays on; and when it goes off,
    requests, then the one report of the error, and nothing more. *)
Definition shape (push push' : bool) (evs : list event) : Prop :=
  if push then
    (push' = true ∧ Forall (λ ev, is_request ev = true) evs) ∨
    (push' = false ∧
     ∃ pre label value,
       evs = pre ++ [Printed label value] ∧
       Forall (λ ev, is_request ev = true) pre)
  else push' = false ∧ evs = [].

(** No file is written by these events. *)
Definition quiet (evs : list event) : Prop :=
  Forall (λ ev, is_write ev = false) evs.



(** The readings of the demo: four for each person, in the order of
    the persons, each tagged with its person and holding the nine
    fields besides. *)
Definition demo_fields : gset string := fields ∪ {[ "person_id" ]}.

Definition person_chunk (person : string)
    (chunk : list (gmap string pyval)) : Prop :=
  length chunk = 4%nat ∧
  Forall (λ r, r !! "person_id" = Some (PStr person) ∧
               dom r = demo_fields) chunk.

(** An outside world that answers from a script, and accepts when the
    script is over; its clock stands at noon. *)
Definition accepted : response :=
  {| ok := true; status_code := 200;
     body := Some (JObject [("success", JBool true)]); text := "" |}.

Definition refused : response :=
  {| ok := false; status_code := 500;
     body := Some (JObject [("success", JBool false);
                            ("error", JStr "unavailable")]);
     text := "" |}.

#[program] Instance Scripted : Outside (list (option response)) := {|
  answer r script :=
    match script with
    | a :: script' => (a, script')
    | [] => (Some accepted, [])
    end;
  pass script := (noon, script)
|}.
Next Obligation. reflexivity. Qed.

Definition env0 (seed : Z) (script : list (option response))
  : env Z (list (option response)) :=
  {| inner := world0 seed; outside := script;
     config := {| SUPABASE_URL := "https://example.supabase.co";
                  SUPABASE_ANON_KEY := "key" |};
     trace := [] |}.

(** An outside world that refuses every request. *)
#[program] Instance Refusing : Outside () := {|
  answer r o := (Some refused, o);
  pass o := (noon, o)
|}.
Next Obligation. reflexivity. Qed.

(** The program ended with a value. *)
Definition finished {A} (x : crash + A) : bool :=
  match x with
  | inr _ => true
  | inl _ => false
  end.

End Traces.

Import Traces.

(** * Properties of the analyser *)

Module AnalyzerFacts.

(** ** Stepping through the analysis *)

Lemma evals_ret {A} (a : A) l d : evals (mret a) l d (inr a).
Proof. intros σ _. by exists σ. Qed.

Lemma evals_lift {A} (r : exn + A) l d : evals (lift r) l d r.
Proof. intros σ _. by exists σ. Qed.

Lemma wp_ret {A} (a : A) l d (Post : exn + A → Prop) :
  Post (inr a) → wp (mret a) l d Post.
Proof. intros HP. exists (inr a). split; [apply evals_ret | done]. Qed.

Lemma wp_bind {A B} (m : M store A) (k : A → M store B) l d r
    (Post : exn + B → Prop) :
  evals m l d r →
  match r with
  | inl e => Post (inl e)
  | inr a => wp (k a) l d Post
  end →
  wp (m ≫= k) l d Post.
Proof.
  intros Hm Hk. destruct r as [e|a].
  - exists (inl e). split; [|done].
    intros σ Hσ. destruct (Hm σ Hσ) as (σ1 & E & Hsub).
    exists σ1. unfold mbind, M_bind. by rewrite E.
  - destruct Hk as (r' & Hk & HP). exists r'. split; [|done].
    intros σ Hσ. destruct (Hm σ Hσ) as (σ1 & E & Hsub).
    destruct (Hk σ1) as (σ2 & E2 & Hsub2).
    { by eapply lookup_weaken. }
    exists σ2. unfold mbind, M_bind. rewrite E.
    split; [done | by etrans].
Qed.

(** A computation that reads the table and allocates nothing. *)
Lemma evals_read {A} (m : M store A) l d (f : DataFrame → exn + A) :
  (∀ σ, m σ = (f (σ !!! l), σ)) → evals m l d (f d).
Proof.
  intros Hm σ Hσ. exists σ. rewrite Hm.
  by rewrite (lookup_total_correct _ _ _ Hσ).
Qed.

Lemma evals_len l d :
  evals (df_len l) l d (inr (Z.of_nat (length (rows d)))).
Proof. by apply (evals_read _ _ _ (λ d, inr (Z.of_nat (length (rows d))))). Qed.

Ltac read_only :=
  intros σ;
  repeat (unfold mbind, M_bind, exn_bind, mret, M_ret, exn_ret, lift,
          df_getitem, col_min, col_max; simpl);
  repeat match goal with
         | |- context [match ?x with inl _ => _ | inr _ => _ end] =>
           destruct x; simpl
         end;
  reflexivity.

Lemma evals_col_iloc l d c i : evals (col_iloc l c i) l d (iloc_of d c i).
Proof. apply (evals_read _ _ _ (λ d, iloc_of d c i)).
       unfold col_iloc, iloc_of. read_only. Qed.

Lemma evals_col_mean1 l d c : evals (col_mean1 l c) l d (mean1_of d c).
Proof. apply (evals_read _ _ _ (λ d, mean1_of d c)).
       unfold col_mean1, mean1_of. read_only. Qed.

Lemma evals_col_min l d c : evals (col_min l c) l d (min_of d c).
Proof. apply (evals_read _ _ _ (λ d, min_of d c)).
       unfold col_min, min_of. read_only. Qed.

Lemma evals_col_max l d c : evals (col_max l c) l d (max_of d c).
Proof. apply (evals_read _ _ _ (λ d, max_of d c)).
       unfold col_max, max_of. read_only. Qed.

Lemma evals_col_min1 l d c : evals (col_min1 l c) l d (min1_of d c).
Proof. apply (evals_read _ _ _ (λ d, min1_of d c)).
       unfold col_min1, min1_of, min_of. read_only. Qed.

Lemma evals_col_max1 l d c : evals (col_max1 l c) l d (max1_of d c).
Proof. apply (evals_read _ _ _ (λ d, max1_of d c)).
       unfold col_max1, max1_of, max_of. read_only. Qed.

Lemma evals_col_std1 l d c : evals (col_std1 l c) l d (std1_of d c).
Proof. apply (evals_read _ _ _ (λ d, std1_of d c)).
       unfold col_std1, std1_of. read_only. Qed.

Lemma evals_col_sum l d c :
  evals (s ← df_getitem l c; lift (series_sum s)) l d (sum_of d c).
Proof. apply (evals_read _ _ _ (λ d, sum_of d c)).
       unfold sum_of. read_only. Qed.

(** Counting allocates the filtered table at a fresh address. *)
Lemma evals_count_where l d c test :
  evals (count_where l c test) l d (count_of d c test).
Proof.
  intros σ Hσ. unfold count_where, count_of.
  unfold mbind, M_bind, exn_bind, df_getitem, lift, df_mask, df_len.
  rewrite (lookup_total_correct _ _ _ Hσ).
  destruct (column d c) as [e|s]; [by exists σ|].
  destruct (test s) as [e|mask]; [by exists σ|].
  eexists. split.
  - rewrite lookup_total_insert_eq. reflexivity.
  - apply insert_subseteq, not_elem_of_dom, is_fresh.
Qed.

Create HintDb evals.
#[local] Hint Resolve evals_len evals_col_iloc evals_col_mean1 evals_col_min
  evals_col_max evals_col_min1 evals_col_max1 evals_col_std1
  evals_col_sum evals_count_where : evals.

(** One statement of the analysis: run it, and either stop at its
    exception (handled by [on_error]) or go on with its value. *)
Ltac wp_step on_error :=
  eapply wp_bind; [ solve [ eauto with evals ] | ];
  lazymatch goal with
  | |- match inr _ with inl _ => _ | inr _ => _ end => cbv beta iota
  | |- match ?r with inl _ => _ | inr _ => _ end =>
    let E := fresh "E" in destruct r eqn:E; cbv beta; [ on_error | ]
  end.

Lemma wp_run {A} (m : M store A) l d (Post : exn + A → Prop) σ :
  wp m l d Post → σ !! l = Some d →
  Post (fst (m σ)) ∧ σ ⊆ snd (m σ).
Proof.
  intros (r & Hm & HP) Hσ. destruct (Hm σ Hσ) as (σ' & E & Hsub).
  by rewrite E.
Qed.

(** ** Columns *)

Lemma column_ok d c s :
  column d c = inr s → c ∈ header d ∧ s = infer_dtype (cell c <$> rows d).
Proof.
  unfold column. case_bool_decide; [|discriminate]. by intros [= <-].
Qed.

Lemma column_err d c e :
  column d c = inl e → e = KeyError c ∧ c ∉ header d.
Proof.
  unfold column. case_bool_decide; [discriminate|]. by intros [= <-].
Qed.

Lemma num_of_to_float64 v : num_of (to_float64 v) = num_of v.
Proof. by destruct v. Qed.

Lemma is_str_to_float64 v : is_str (to_float64 v) = is_str v.
Proof. by destruct v. Qed.

Lemma existsb_fmap {A B} (f : A → B) (p : B → bool) (l : list A) :
  existsb p (f <$> l) = existsb (p ∘ f) l.
Proof.
  induction l as [|x l IH]; [done|].
  rewrite fmap_cons. cbn [existsb]. by rewrite IH.
Qed.

Lemma existsb_ext {A} (p q : A → bool) (l : list A) :
  (∀ x, p x = q x) → existsb p l = existsb q l.
Proof.
  intros Hpq. induction l as [|x l IH]; [done|]. simpl.
  by rewrite Hpq, IH.
Qed.

Lemma infer_dtype_str s : existsb is_str (infer_dtype s) = existsb is_str s.
Proof.
  unfold infer_dtype. destruct (existsb is_str s) eqn:Es; [done|].
  destruct (existsb is_float s); [|done].
  rewrite existsb_fmap, <- Es. apply existsb_ext, is_str_to_float64.
Qed.

Lemma omap_num_of_fmap {A} (f g : A → pyval) (l : list A) :
  (∀ x, num_of (f x) = num_of (g x)) →
  omap num_of (f <$> l) = omap num_of (g <$> l).
Proof.
  intros Hfg. induction l as [|x l IH]; [done|].
  rewrite !fmap_cons. csimpl. by rewrite Hfg, IH.
Qed.

Lemma infer_dtype_num s : omap num_of (infer_dtype s) = omap num_of s.
Proof.
  unfold infer_dtype. destruct (existsb is_str s); [done|].
  destruct (existsb is_float s); [|done].
  rewrite <- (list_fmap_id s) at 2.
  apply omap_num_of_fmap, num_of_to_float64.
Qed.

Lemma observations_column d c :
  omap num_of (infer_dtype (cell c <$> rows d)) = observations d c.
Proof.
  rewrite infer_dtype_num. unfold observations.
  induction (rows d) as [|r l IH]; [done|].
  rewrite fmap_cons. csimpl. by rewrite IH.
Qed.

Lemma text_in_column d c :
  existsb is_str (infer_dtype (cell c <$> rows d)) = text_in d c.
Proof. rewrite infer_dtype_str. apply existsb_fmap. Qed.

Lemma numeric_column d c :
  numeric (infer_dtype (cell c <$> rows d))
  = if text_in d c then inl TypeError else inr (observations d c).
Proof.
  unfold numeric. by rewrite text_in_column, observations_column.
Qed.

Lemma numeric_no_text d c :
  numeric_metrics d = true → c ∈ metric_columns → text_in d c = false.
Proof.
  unfold numeric_metrics. rewrite forallb_forall.
  intros Hall Hc. apply negb_true_iff, Hall. by apply list_elem_of_In.
Qed.

(** ** What each reduction returns *)

Lemma mean1_of_eq d c :
  mean1_of d c =
  if bool_decide (c ∈ header d)
  then if text_in d c then inl TypeError
       else inr (PFloat (round_float1 (mean_obs d c)))
  else inl (KeyError c).
Proof.
  unfold mean1_of, column, series_mean, mean_obs.
  case_bool_decide; [|done]. cbn [mbind exn_bind].
  rewrite numeric_column. destruct (text_in d c); [done|].
  cbn. by destruct (observations d c).
Qed.

Lemma std1_of_eq d c :
  std1_of d c =
  if bool_decide (c ∈ header d)
  then if text_in d c then inl TypeError
       else inr (PFloat (std_obs d c))
  else inl (KeyError c).
Proof.
  unfold std1_of, column, series_std_round1, std_obs.
  case_bool_decide; [|done]. cbn [mbind exn_bind].
  rewrite numeric_column. destruct (text_in d c); [done|].
  cbn. by destruct (observations d c) as [|? [|? ?]].
Qed.

Lemma extremum_eq better d c :
  (s ← column d c; extremum better s) =
  if bool_decide (c ∈ header d)
  then if text_in d c then inl TypeError
       else inr (foldl (pick better) (PFloat NaN)
                   (infer_dtype (cell c <$> rows d)))
  else inl (KeyError c).
Proof.
  unfold column, extremum.
  case_bool_decide; [|done]. cbn [mbind exn_bind].
  by rewrite text_in_column.
Qed.

Lemma pick_not_str better acc v :
  is_str acc = false → is_str (pick better acc v) = false.
Proof.
  intros Hacc. unfold pick.
  destruct v as [z|[q|]|s]; simpl; try done;
    destruct (num_of acc); try done; by destruct (better _ _).
Qed.

Lemma foldl_pick_not_str better s acc :
  is_str acc = false → is_str (foldl (pick better) acc s) = false.
Proof.
  revert acc. induction s as [|v s IH]; [done|].
  intros acc Hacc. simpl. by apply IH, pick_not_str.
Qed.

Lemma py_round1_rounded v :
  is_str v = false → py_round1 v = inr (rounded v).
Proof. by destruct v. Qed.

(** The running extremum is extremal for an order [R] that [better]
    decides. *)
Section Extremum.
Context (better : Q → Q → bool) (R : Q → Q → Prop).
Hypothesis better_true : ∀ q a, better q a = true → R q a.
Hypothesis better_false : ∀ q a, better q a = false → R a q.
Hypothesis R_refl : ∀ q, R q q.
Hypothesis R_trans : ∀ x y z, R x y → R y z → R x z.

Lemma pick_extremal seen acc v :
  extremal R seen acc →
  extremal R (seen ++ omap num_of [v]) (pick better acc v).
Proof.
  unfold extremal, pick. intros Hacc. csimpl.
  destruct (num_of v) as [q|] eqn:Ev; csimpl.
  - destruct (num_of acc) as [a|] eqn:Ea.
    + destruct Hacc as [Hin Hle].
      destruct (better q a) eqn:Eb.
      * rewrite Ev. split; [set_solver|].
        intros x [Hx|Hx%list_elem_of_singleton]%elem_of_app.
        -- eapply R_trans; [by apply better_true|by apply Hle].
        -- subst. apply R_refl.
      * rewrite Ea. split; [set_solver|].
        intros x [Hx|Hx%list_elem_of_singleton]%elem_of_app.
        -- by apply Hle.
        -- subst. by apply better_false.
    + subst seen. rewrite Ev. split; [set_solver|].
      intros x Hx%list_elem_of_singleton. subst. apply R_refl.
  - rewrite app_nil_r. by destruct (num_of acc).
Qed.

Lemma foldl_pick_extremal s seen acc :
  extremal R seen acc →
  extremal R (seen ++ omap num_of s) (foldl (pick better) acc s).
Proof.
  revert seen acc. induction s as [|v s IH]; intros seen acc Hacc.
  - by rewrite app_nil_r.
  - change (v :: s) with ([v] ++ s).
    rewrite omap_app, app_assoc. simpl.
    by apply IH, pick_extremal.
Qed.
End Extremum.

Lemma Qltb_true q a : Qltb q a = true → (q <= a)%Q.
Proof.
  unfold Qltb. destruct (q ?= a)%Q eqn:E; try discriminate.
  intros _. apply Qlt_le_weak. by apply Qlt_alt.
Qed.

Lemma Qltb_false q a : Qltb q a = false → (a <= q)%Q.
Proof.
  unfold Qltb. destruct (q ?= a)%Q eqn:E; try discriminate; intros _.
  - apply Qeq_alt in E. rewrite E. apply Qle_refl.
  - apply Qlt_le_weak. by apply Qgt_alt.
Qed.

Lemma Qgtb_true q a : Qgtb q a = true → (a <= q)%Q.
Proof.
  unfold Qgtb. destruct (q ?= a)%Q eqn:E; try discriminate.
  intros _. apply Qlt_le_weak. by apply Qgt_alt.
Qed.

Lemma Qgtb_false q a : Qgtb q a = false → (q <= a)%Q.
Proof.
  unfold Qgtb. destruct (q ?= a)%Q eqn:E; try discriminate; intros _.
  - apply Qeq_alt in E. rewrite E. apply Qle_refl.
  - apply Qlt_le_weak. by apply Qlt_alt.
Qed.

Lemma min_of_ok d c v :
  min_of d c = inr v →
  is_str v = false ∧ is_minimum (observations d c) v.
Proof.
  unfold min_of, series_min. rewrite extremum_eq.
  case_bool_decide; [|discriminate].
  destruct (text_in d c); [discriminate|]. intros [= <-].
  split; [by apply foldl_pick_not_str|].
  rewrite <- observations_column.
  apply (foldl_pick_extremal Qltb Qle Qltb_true Qltb_false
           Qle_refl Qle_trans _ [] (PFloat NaN)).
  reflexivity.
Qed.

Lemma max_of_ok d c v :
  max_of d c = inr v →
  is_str v = false ∧ is_maximum (observations d c) v.
Proof.
  unfold max_of, series_max. rewrite extremum_eq.
  case_bool_decide; [|discriminate].
  destruct (text_in d c); [discriminate|]. intros [= <-].
  split; [by apply foldl_pick_not_str|].
  rewrite <- observations_column.
  apply (foldl_pick_extremal Qgtb (λ x y, (y <= x)%Q)
           Qgtb_true Qgtb_false Qle_refl
           (λ x y z H1 H2, Qle_trans _ _ _ H2 H1) _ [] (PFloat NaN)).
  reflexivity.
Qed.



(** ** How each reading of a column can end *)

Ltac shaped_cases d c :=
  unfold shaped; case_bool_decide; [destruct (text_in d c) eqn:?|]; auto.

Lemma mean1_shaped d c : shaped (mean1_of d c) d c.
Proof. rewrite mean1_of_eq. shaped_cases d c. Qed.

Lemma std1_shaped d c : shaped (std1_of d c) d c.
Proof. rewrite std1_of_eq. shaped_cases d c. Qed.

Lemma min_shaped d c : shaped (min_of d c) d c.
Proof. unfold min_of, series_min. rewrite extremum_eq. shaped_cases d c. Qed.

Lemma max_shaped d c : shaped (max_of d c) d c.
Proof. unfold max_of, series_max. rewrite extremum_eq. shaped_cases d c. Qed.

Lemma min1_shaped d c : shaped (min1_of d c) d c.
Proof.
  pose proof (min_shaped d c) as Hs. unfold min1_of.
  destruct (min_of d c) as [e|m] eqn:E; [done|].
  apply min_of_ok in E as [Hm _]. cbn [mbind exn_bind].
  by rewrite (py_round1_rounded _ Hm).
Qed.

Lemma max1_shaped d c : shaped (max1_of d c) d c.
Proof.
  pose proof (max_shaped d c) as Hs. unfold max1_of.
  destruct (max_of d c) as [e|m] eqn:E; [done|].
  apply max_of_ok in E as [Hm _]. cbn [mbind exn_bind].
  by rewrite (py_round1_rounded _ Hm).
Qed.

Lemma sum_shaped d c : shaped (sum_of d c) d c.
Proof.
  unfold sum_of, column, series_sum, shaped.
  case_bool_decide; [|by left]. cbn [mbind exn_bind].
  rewrite text_in_column. destruct (text_in d c).
  - destruct (forallb _ _); [done|by right].
  - destruct (existsb is_float _); done.
Qed.

Lemma count_shaped d c test t :
  shaped (count_of d c (compare_with test t)) d c.
Proof.
  unfold count_of, column, compare_with, shaped.
  case_bool_decide; [|by left]. cbn [mbind exn_bind].
  rewrite text_in_column. destruct (text_in d c); [by right|done].
Qed.

(** The first and the last timestamp exist exactly when the column
    does and the table has a row. *)
Lemma series_iloc_first s :
  series_iloc s 0 = match s with [] => inl IndexError | v :: _ => inr v end.
Proof.
  unfold series_iloc. destruct s as [|v s]; [done|].
  cbn [length]. rewrite Nat2Z.inj_succ.
  replace (0 <? 0) with false by done. cbn [Z.to_nat lookup].
  replace (0 <=? 0) with true by done.
  destruct (Z.ltb_spec 0 (Z.succ (Z.of_nat (length s)))); [done|lia].
Qed.

Lemma series_iloc_last s :
  series_iloc s (-1) =
  match last s with None => inl IndexError | Some v => inr v end.
Proof.
  unfold series_iloc. replace (-1 <? 0) with true by done.
  destruct s as [|v s]; [done|].
  rewrite last_lookup. cbn [length Nat.pred].
  replace (-1 + Z.of_nat (S (length s))) with (Z.of_nat (length s)) by lia.
  rewrite Nat2Z.id.
  destruct (Z.leb_spec 0 (Z.of_nat (length s))); [|lia].
  destruct (Z.ltb_spec (Z.of_nat (length s)) (Z.of_nat (S (length s))));
    [|lia].
  cbn [andb].
  destruct ((v :: s) !! length s) eqn:E; [done|].
  apply lookup_ge_None in E. simpl in E. lia.
Qed.

Lemma infer_dtype_nil s : infer_dtype s = [] → s = [].
Proof.
  unfold infer_dtype. destruct (existsb is_str s); [done|].
  destruct (existsb is_float s); [|done]. by destruct s.
Qed.

Lemma column_nil d c : infer_dtype (cell c <$> rows d) = [] → rows d = [].
Proof. intros Hn%infer_dtype_nil. by destruct (rows d). Qed.

Lemma iloc_first_shaped d c : iloc_shaped (iloc_of d c 0) d c.
Proof.
  unfold iloc_of, column, iloc_shaped.
  case_bool_decide; [|by left]. cbn [mbind exn_bind].
  rewrite series_iloc_first.
  destruct (infer_dtype _) eqn:E.
  - right. by apply column_nil in E.
  - split; [done|]. intros Hr. by rewrite Hr in E.
Qed.

Lemma iloc_last_shaped d c : iloc_shaped (iloc_of d c (-1)) d c.
Proof.
  unfold iloc_of, column, iloc_shaped.
  case_bool_decide; [|by left]. cbn [mbind exn_bind].
  rewrite series_iloc_last.
  destruct (infer_dtype _) as [|v s] eqn:E.
  - right. by apply column_nil in E.
  - destruct (last (v :: s)) eqn:El.
    + split; [done|]. intros Hr. by rewrite Hr in E.
    + by apply last_None in El.
Qed.

(** ** Counting *)

Lemma select_fmap {A} (p : A → bool) (l : list A) :
  select (p <$> l) l = List.filter p l.
Proof.
  induction l as [|x l IH]; [done|].
  rewrite fmap_cons. simpl. rewrite IH. reflexivity.
Qed.

Lemma compare_infer_dtype test t s mask :
  compare_with test t (infer_dtype s) = inr mask →
  mask = (λ v, match num_of v with Some q => test q t | None => false end)
           <$> s.
Proof.
  unfold compare_with. rewrite infer_dtype_str. unfold infer_dtype.
  destruct (existsb is_str s) eqn:Es; [discriminate|].
  destruct (existsb is_float s).
  - intros [= <-]. rewrite <- list_fmap_compose.
    apply list_fmap_ext. intros _ v _. simpl.
    by rewrite num_of_to_float64.
  - by intros [= <-].
Qed.

Lemma count_of_rows d c test t n :
  count_of d c (compare_with test t) = inr n →
  n = count_rows (satisfies c test t) d.
Proof.
  unfold count_of, column, count_rows.
  destruct (bool_decide (c ∈ header d)); [|discriminate].
  cbn [mbind exn_bind].
  destruct (compare_with _ _ _) as [e|mask] eqn:E; [discriminate|].
  intros [= <-].
  apply compare_infer_dtype in E. subst mask.
  rewrite <- list_fmap_compose.
  by rewrite <- (select_fmap (satisfies c test t)).
Qed.

Lemma sum_values_insert (m : gmap string Z) k x :
  m !! k = None → sum_values (<[k := x]> m) = x + sum_values m.
Proof.
  intros Hk. unfold sum_values.
  rewrite map_fold_insert_L; [done| |done].
  intros. lia.
Qed.

(** ** The analysis, statement by statement *)

Lemma wp_anomalies l d :
  wp (analyze_data_statistics l) l d (anomalies_post d).
Proof.
  unfold analyze_data_statistics.
  do 22 (wp_step ltac:(intros ? [=])).
  cbv zeta.
  do 8 (wp_step ltac:(intros ? [=])).
  apply wp_ret. intros r [= <-].
  repeat match goal with
         | H : count_of _ _ _ = inr _ |- _ =>
           apply count_of_rows in H; subst
         end.
  split; reflexivity.
Qed.

Lemma wp_stats l d :
  wp (analyze_data_statistics l) l d (stats_post d).
Proof.
  unfold analyze_data_statistics.
  do 22 (wp_step ltac:(intros ? [=])).
  cbv zeta.
  do 8 (wp_step ltac:(intros ? [=])).
  apply wp_ret. intros r [= <-].
  unfold reports, reports_range.
  repeat split; eauto 6.
Qed.

(** Record how the reading in [E] ended. *)
Ltac note_shape E :=
  lazymatch type of E with
  | iloc_of ?d ?c ?i = _ =>
    let S := fresh "S" in
    assert (S : iloc_shaped (iloc_of d c i) d c)
      by first [apply iloc_first_shaped | apply iloc_last_shaped];
    rewrite E in S; cbn [iloc_shaped] in S
  | count_of ?d ?c ?t = _ =>
    let S := fresh "S" in
    assert (S : shaped (count_of d c t) d c) by apply count_shaped;
    rewrite E in S; cbn [shaped] in S
  | ?f ?d ?c = _ =>
    let S := fresh "S" in
    assert (S : shaped (f d c) d c)
      by first [apply mean1_shaped | apply std1_shaped | apply min_shaped
               | apply max_shaped | apply min1_shaped | apply max1_shaped
               | apply sum_shaped];
    rewrite E in S; cbn [shaped] in S
  end.

Ltac solve_first_missing :=
  unfold first_missing, required_columns; cbn [List.find];
  repeat match goal with
         | H : ?c ∈ header ?d |- context [bool_decide (?c ∈ header ?d)] =>
           rewrite (bool_decide_eq_true_2 _ H)
         | H : ?c ∉ header ?d |- context [bool_decide (?c ∈ header ?d)] =>
           rewrite (bool_decide_eq_false_2 _ H)
         end;
  reflexivity.

Lemma metric_column c :
  bool_decide (c ∈ metric_columns) = true → c ∈ metric_columns.
Proof. apply bool_decide_eq_true_1. Qed.

Ltac outcome_error E :=
  note_shape E; intros Hnum; destruct_and?;
  lazymatch goal with
  | S : _ ∨ (_ = IndexError ∧ _) |- _ =>
    destruct S as [[-> Hc] | (-> & Hc & Hr)];
    first [ contradiction | done
          | split; [solve_first_missing | by right] ]
  | S : _ ∨ text_in ?d ?c = true |- _ =>
    destruct S as [[-> Hc] | Ht];
    [ first [ contradiction
            | split; [solve_first_missing | by left] ]
    | rewrite (numeric_no_text d c Hnum) in Ht
        by (by apply metric_column);
      discriminate ]
  end.

Lemma wp_outcome l d :
  wp (analyze_data_statistics l) l d (outcome_post d).
Proof.
  unfold analyze_data_statistics.
  wp_step idtac.
  do 21 (wp_step ltac:(outcome_error E);
         match goal with E : _ = inr _ |- _ => note_shape E; clear E end).
  cbv zeta.
  do 8 (wp_step ltac:(outcome_error E); clear E).
  apply wp_ret. intros _. destruct_and?.
  split; [done | solve_first_missing].
Qed.

(** ** The analysis does not depend on where the table lives *)

Lemma agree_ret {A} (a : A) l1 l2 d : agree (mret a) l1 (mret a) l2 d.
Proof. exists (inr a). split; apply evals_ret. Qed.

Lemma agree_bind {A B} (m1 m2 : M store A) (k1 k2 : A → M store B)
    l1 l2 d r :
  evals m1 l1 d r → evals m2 l2 d r →
  match r with
  | inl _ => True
  | inr a => agree (k1 a) l1 (k2 a) l2 d
  end →
  agree (m1 ≫= k1) l1 (m2 ≫= k2) l2 d.
Proof.
  intros H1 H2 Hk. destruct r as [e|a].
  - exists (inl e). split; intros σ Hσ.
    + destruct (H1 σ Hσ) as (σ' & E & Hsub). exists σ'.
      unfold mbind, M_bind. by rewrite E.
    + destruct (H2 σ Hσ) as (σ' & E & Hsub). exists σ'.
      unfold mbind, M_bind. by rewrite E.
  - destruct Hk as (r' & Hk1 & Hk2). exists r'. split; intros σ Hσ.
    + destruct (H1 σ Hσ) as (σ1 & E & Hsub).
      destruct (Hk1 σ1) as (σ2 & E2 & Hsub2); [by eapply lookup_weaken|].
      exists σ2. unfold mbind, M_bind. rewrite E.
      split; [done | by etrans].
    + destruct (H2 σ Hσ) as (σ1 & E & Hsub).
      destruct (Hk2 σ1) as (σ2 & E2 & Hsub2); [by eapply lookup_weaken|].
      exists σ2. unfold mbind, M_bind. rewrite E.
      split; [done | by etrans].
Qed.

Ltac agree_step :=
  eapply agree_bind;
  [ solve [ eauto with evals ] | solve [ eauto with evals ] | ];
  lazymatch goal with
  | |- match inr _ with inl _ => _ | inr _ => _ end => cbv beta iota
  | |- match ?r with inl _ => _ | inr _ => _ end =>
    destruct r; cbv beta; [ exact I | ]
  end.

Lemma analyze_agree l1 l2 d :
  agree (analyze_data_statistics l1) l1 (analyze_data_statistics l2) l2 d.
Proof.
  unfold analyze_data_statistics.
  do 22 agree_step. cbv zeta. do 8 agree_step.
  apply agree_ret.
Qed.

(** Wherever the table lives, the analysis returns [report_of] it and
    leaves the objects of the store as they were. *)
Lemma analyze_report_of σ l d :
  σ !! l = Some d →
  ∃ σ', analyze_data_statistics l σ = (report_of d, σ') ∧ σ ⊆ σ'.
Proof.
  intros Hσ. destruct (analyze_agree 1 l d) as (R & H1 & H2).
  destruct (H1 {[1%positive := d]}) as (σ0 & E0 & _);
    [apply lookup_singleton_eq|].
  unfold report_of. rewrite E0. by apply H2.
Qed.

(** ** Reading a report *)

Lemma analysis_run σ l d r σ' (Post : exn + gmap string entry → Prop) :
  wp (analyze_data_statistics l) l d Post →
  σ !! l = Some d →
  analyze_data_statistics l σ = (inr r, σ') →
  Post (inr r).
Proof.
  intros Hwp Hσ Hrun. destruct (wp_run _ _ _ _ σ Hwp Hσ) as [HP _].
  by rewrite Hrun in HP.
Qed.

Lemma anomaly_count_tally σ l d r σ' rule :
  σ !! l = Some d →
  analyze_data_statistics l σ = (inr r, σ') →
  anomaly_count r rule = tally d !! rule.
Proof.
  intros Hσ Hrun.
  destruct (analysis_run _ _ _ _ _ _ (wp_anomalies l d) Hσ Hrun r eq_refl)
    as [Ha _].
  unfold anomaly_count. rewrite Ha, lookup_fmap.
  by destruct (tally d !! rule).
Qed.

Lemma total_anomalies_tally σ l d r σ' :
  σ !! l = Some d →
  analyze_data_statistics l σ = (inr r, σ') →
  total_anomalies r = Some (sum_values (tally d)).
Proof.
  intros Hσ Hrun.
  destruct (analysis_run _ _ _ _ _ _ (wp_anomalies l d) Hσ Hrun r eq_refl)
    as [_ Ht].
  unfold total_anomalies. by rewrite Ht.
Qed.

Lemma sum_values_list (m : gmap string Z) :
  sum_values m = Zsum (snd <$> map_to_list m).
Proof.
  unfold sum_values. rewrite map_fold_foldr.
  induction (map_to_list m) as [|[k v] kvs IH]; [done|].
  rewrite fmap_cons. simpl. by rewrite IH.
Qed.

Lemma count_cons {A} (p : A → bool) (r : A) (l : list A) :
  Z.of_nat (length (List.filter p (r :: l)))
  = (if p r then 1 else 0) + Z.of_nat (length (List.filter p l)).
Proof. simpl. destruct (p r); simpl; lia. Qed.

Lemma count_head {A} (rules : list (string * (A → bool))) (r : A)
    (l : list A) :
  Zsum ((λ rule, Z.of_nat (length (List.filter (snd rule) (r :: l))))
          <$> rules)
  = Z.of_nat (length (List.filter (λ rule, snd rule r) rules))
    + Zsum ((λ rule, Z.of_nat (length (List.filter (snd rule) l)))
              <$> rules).
Proof.
  induction rules as [|rule rules IH]; [done|].
  rewrite !fmap_cons.
  change (Zsum (?x :: ?xs)) with (x + Zsum xs).
  rewrite IH, !count_cons. lia.
Qed.

(** Counting by rule and counting by reading give the same total. *)
Lemma count_exchange {A} (rules : list (string * (A → bool))) (l : list A) :
  Zsum ((λ rule, Z.of_nat (length (List.filter (snd rule) l))) <$> rules)
  = Zsum ((λ r, Z.of_nat (length (List.filter (λ rule, snd rule r) rules)))
            <$> l).
Proof.
  induction l as [|r l IH].
  - simpl. induction rules as [|rule rules IHr]; [done|].
    rewrite fmap_cons.
    change (Zsum (?x :: ?xs)) with (x + Zsum xs). by rewrite IHr.
  - rewrite count_head, fmap_cons.
    change (Zsum (?x :: ?xs)) with (x + Zsum xs). by rewrite IH.
Qed.

Lemma sum_values_tally d :
  sum_values (tally d) = Zsum (rules_triggered <$> rows d).
Proof.
  unfold rules_triggered. rewrite <- count_exchange.
  unfold tally, detection_rules.
  rewrite !fmap_cons, fmap_nil. cbn [list_to_map foldr fst snd Zsum].
  repeat (rewrite sum_values_insert by done).
  unfold sum_values. rewrite map_fold_empty. reflexivity.
Qed.

Lemma count_rows_append p d r :
  count_rows p (append_reading d r)
  = count_rows p d + (if p r then 1 else 0).
Proof.
  unfold count_rows, append_reading. cbn [rows].
  rewrite List.filter_app, length_app, Nat2Z.inj_add. simpl.
  by destruct (p r).
Qed.

Lemma satisfies_value c test t row q :
  num_of (cell c row) = Some q → satisfies c test t row = test q t.
Proof. unfold satisfies. by intros ->. Qed.




(** A concrete table that passes the analysis. *)
Ltac run_sample r σ' E :=
  lazymatch goal with
  | |- context [analyze_data_statistics ?l ?σ] =>
    let H := fresh "H" in
    assert (H : is_report (fst (analyze_data_statistics l σ)) = true)
      by (vm_compute; reflexivity);
    destruct (analyze_data_statistics l σ) as [[?|r] σ'] eqn:E;
    [discriminate H|clear H]
  end.

(** The worked scenario: heart rates 70, 125 and 55 give mean 83.3,
    minimum 55, maximum 125, one high and one low heart-rate event. *)
Example scenario_report :
  ∃ r σ',
    analyze_data_statistics 1 {[1%positive := scenario]} = (inr r, σ') ∧
    stat r "heart_rate" "avg" = Some (FVal (PFloat (Fin 83.3))) ∧
    stat r "heart_rate" "min" = Some (FVal (PInt 55)) ∧
    stat r "heart_rate" "max" = Some (FVal (PInt 125)) ∧
    anomaly_count r "high_heart_rate" = Some 1 ∧
    anomaly_count r "low_heart_rate" = Some 1.
Proof.
  assert (Hr : (let '(R, _) :=
                  analyze_data_statistics 1 {[1%positive := scenario]} in
                match R with
                | inr r =>
                  (stat r "heart_rate" "avg", stat r "heart_rate" "min",
                   stat r "heart_rate" "max",
                   anomaly_count r "high_heart_rate",
                   anomaly_count r "low_heart_rate")
                | inl _ => (None, None, None, None, None)
                end)
               = (Some (FVal (PFloat (Fin 83.3))), Some (FVal (PInt 55)),
                  Some (FVal (PInt 125)), Some 1, Some 1))
    by (vm_compute; reflexivity).
  destruct (analyze_data_statistics 1 {[1%positive := scenario]})
    as [[e|r] σ']; [discriminate Hr|].
  exists r, σ'. injection Hr as -> -> -> -> ->. by repeat split.
Qed.

(** ** The claims about the analyser *)

(** C1 (defect of the code).  The rule table has ten rules, among them
    [poor_sleep] (sleep_hours < 6.5) and [excessive_sleep]
    (sleep_hours > 9.0).  On a series with one reading of each kind
    the report carries the eight other counters, each equal to the
    number of readings that satisfy its rule, but no counter for the
    two sleep rules, and its total is 0. *)
Theorem sleep_rules_not_counted :
  ∃ r σ',
    analyze_data_statistics 1 {[1%positive := sleep_series]} = (inr r, σ') ∧
    Forall (λ rule, anomaly_count r (fst rule)
                    = Some (count_rows (snd rule) sleep_series))
      detection_rules ∧
    Forall (λ rule, count_rows (snd rule) sleep_series = 1 ∧
                    anomaly_count r (fst rule) = None)
      sleep_rules ∧
    total_anomalies r = Some 0.
Proof.
  run_sample r σ' E. exists r, σ'. split; [reflexivity|].
  assert (Hσ : ({[1%positive := sleep_series]} : store) !! 1%positive
               = Some sleep_series) by reflexivity.
  assert (Hc : ∀ rule, anomaly_count r rule = tally sleep_series !! rule).
  { intros rule. exact (anomaly_count_tally _ _ _ _ _ rule Hσ E). }
  split; [|split].
  - unfold detection_rules.
    repeat (apply Forall_cons_2; [rewrite Hc; vm_compute; reflexivity|]).
    apply Forall_nil_2.
  - unfold sleep_rules.
    repeat (apply Forall_cons_2;
            [split; [|rewrite Hc]; vm_compute; reflexivity|]).
    apply Forall_nil_2.
  - rewrite (total_anomalies_tally _ _ _ _ _ Hσ E), sum_values_tally.
    vm_compute. reflexivity.
Qed.

(** C5.  Whenever the analysis returns a report, its total anomaly
    count is the sum of the per-rule counters of that report, which is
    the sum over the readings of the number of rules each one
    triggers: a reading that triggers two rules adds 2. *)
Theorem total_is_sum_of_rule_counts σ l d r σ' :
  σ !! l = Some d →
  analyze_data_statistics l σ = (inr r, σ') →
  ∃ counters : gmap string Z,
    r !! "anomalies" = Some (Group (FVal ∘ PInt <$> counters)) ∧
    total_anomalies r = Some (Zsum (snd <$> map_to_list counters)) ∧
    Zsum (snd <$> map_to_list counters) = Zsum (rules_triggered <$> rows d).
Proof.
  intros Hσ Hrun. exists (tally d).
  destruct (analysis_run _ _ _ _ _ _ (wp_anomalies l d) Hσ Hrun r eq_refl)
    as [Ha _].
  split; [done|]. rewrite <- sum_values_list. split.
  - by eapply total_anomalies_tally.
  - apply sum_values_tally.
Qed.

Lemma total_is_sum_of_rule_counts_witness :
  let d := append_reading one_reading strained in
  let σ : store := {[1%positive := d]} in
  σ !! 1%positive = Some d ∧
  rules_triggered strained = 2 ∧
  ∃ r σ',
    analyze_data_statistics 1 σ = (inr r, σ') ∧
    ∃ counters : gmap string Z,
      r !! "anomalies" = Some (Group (FVal ∘ PInt <$> counters)) ∧
      total_anomalies r = Some (Zsum (snd <$> map_to_list counters)) ∧
      Zsum (snd <$> map_to_list counters) = Zsum (rules_triggered <$> rows d).
Proof.
  intros d σ. split; [reflexivity|]. split; [reflexivity|].
  subst σ. run_sample r σ' E.
  exists r, σ'. split; [reflexivity|].
  apply (total_is_sum_of_rule_counts {[1%positive := d]} 1%positive d r σ');
    [reflexivity | exact E].
Defined.

(** C6.  Thresholds are strict.  When the analysis reports on a series
    and on the same series with one more reading, the counter
    [high_heart_rate] grows by exactly 1 if the new reading's heart
    rate is 121 and by 0 if it is 120. *)
Theorem threshold_exactness σ l d r σ' σ2 l2 row r2 σ2' q :
  σ !! l = Some d →
  analyze_data_statistics l σ = (inr r, σ') →
  σ2 !! l2 = Some (append_reading d row) →
  analyze_data_statistics l2 σ2 = (inr r2, σ2') →
  num_of (cell "heart_rate" row) = Some q →
  ∃ n, anomaly_count r "high_heart_rate" = Some n ∧
       ((q == 121)%Q → anomaly_count r2 "high_heart_rate" = Some (n + 1)) ∧
       ((q == 120)%Q → anomaly_count r2 "high_heart_rate" = Some (n + 0)).
Proof.
  intros Hσ Hrun Hσ2 Hrun2 Hq.
  exists (count_rows (satisfies "heart_rate" Qgtb 120) d).
  rewrite (anomaly_count_tally _ _ _ _ _ _ Hσ Hrun).
  rewrite (anomaly_count_tally _ _ _ _ _ _ Hσ2 Hrun2).
  split; [done|].
  change (tally ?d !! "high_heart_rate")
    with (Some (count_rows (satisfies "heart_rate" Qgtb 120) d)).
  rewrite count_rows_append, (satisfies_value _ _ _ _ _ Hq).
  split; intros Hv.
  - assert (Hb : Qgtb q 120 = true); [|by rewrite Hb].
    assert (Hgt : (120 < q)%Q) by (rewrite Hv; reflexivity).
    unfold Qgtb. apply Qgt_alt in Hgt. by rewrite Hgt.
  - assert (Hb : Qgtb q 120 = false); [|by rewrite Hb].
    unfold Qgtb. apply Qeq_alt in Hv. by rewrite Hv.
Qed.

Lemma threshold_exactness_witness :
  let row := reading "2025-01-01T05:00:00" 121 97.5 36.6 120 80 40 3 7.5 in
  let σ : store := {[1%positive := one_reading]} in
  let σ2 : store := {[1%positive := append_reading one_reading row]} in
  ∃ r σ' r2 σ2',
    σ !! 1%positive = Some one_reading ∧
    analyze_data_statistics 1 σ = (inr r, σ') ∧
    σ2 !! 1%positive = Some (append_reading one_reading row) ∧
    analyze_data_statistics 1 σ2 = (inr r2, σ2') ∧
    num_of (cell "heart_rate" row) = Some (inject_Z 121) ∧
    ∃ n, anomaly_count r "high_heart_rate" = Some n ∧
         ((inject_Z 121 == 121)%Q →
          anomaly_count r2 "high_heart_rate" = Some (n + 1)) ∧
         ((inject_Z 121 == 120)%Q →
          anomaly_count r2 "high_heart_rate" = Some (n + 0)).
Proof.
  intros row σ σ2.
  assert (H : is_report (fst (analyze_data_statistics 1 σ)) = true)
    by (vm_compute; reflexivity).
  destruct (analyze_data_statistics 1 σ) as [[e|r] σ'] eqn:E;
    [discriminate H|clear H].
  assert (H : is_report (fst (analyze_data_statistics 1 σ2)) = true)
    by (vm_compute; reflexivity).
  destruct (analyze_data_statistics 1 σ2) as [[e|r2] σ2'] eqn:E2;
    [discriminate H|clear H].
  exists r, σ', r2, σ2'.
  split; [reflexivity|]. split; [reflexivity|].
  split; [reflexivity|]. split; [reflexivity|].
  split; [reflexivity|].
  apply (threshold_exactness σ 1%positive one_reading r σ' σ2 1%positive row
           r2 σ2' (inject_Z 121));
    [reflexivity | exact E | reflexivity | exact E2 | reflexivity].
Defined.

(** C9.  The analysis is a function of the table it is given: run
    twice on the same table it returns the same result both times,
    namely the result [report_of] determined by the table alone; and
    neither run changes that table or any other object of the store
    (each may only allocate new objects). *)
Theorem summarize_deterministic σ l d :
  σ !! l = Some d →
  ∃ σ1 σ2,
    analyze_data_statistics l σ = (report_of d, σ1) ∧
    analyze_data_statistics l σ1 = (report_of d, σ2) ∧
    σ1 !! l = Some d ∧ σ2 !! l = Some d ∧
    ∀ l' d', σ !! l' = Some d' → σ1 !! l' = Some d' ∧ σ2 !! l' = Some d'.
Proof.
  intros Hσ.
  destruct (analyze_report_of σ l d Hσ) as (σ1 & E1 & Hsub1).
  assert (Hσ1 : σ1 !! l = Some d) by by eapply lookup_weaken.
  destruct (analyze_report_of σ1 l d Hσ1) as (σ2 & E2 & Hsub2).
  assert (Hσ2 : σ2 !! l = Some d) by by eapply lookup_weaken.
  exists σ1, σ2. repeat split; try done.
  - by eapply lookup_weaken.
  - eapply lookup_weaken; [|exact Hsub2]. by eapply lookup_weaken.
Qed.

Lemma summarize_deterministic_witness :
  let σ : store := {[1%positive := scenario; 2%positive := one_reading]} in
  σ !! 2%positive = Some one_reading ∧
  ∃ σ1 σ2,
    analyze_data_statistics 2 σ = (report_of one_reading, σ1) ∧
    analyze_data_statistics 2 σ1 = (report_of one_reading, σ2) ∧
    σ1 !! 2%positive = Some one_reading ∧
    σ2 !! 2%positive = Some one_reading ∧
    ∀ l' d', σ !! l' = Some d' → σ1 !! l' = Some d' ∧ σ2 !! l' = Some d'.
Proof.
  intros σ. split; [reflexivity|].
  apply (summarize_deterministic σ 2%positive one_reading). reflexivity.
Defined.





Lemma first_missing_Some d c :
  first_missing d = Some c → c ∈ required_columns ∧ c ∉ header d.
Proof.
  unfold first_missing. intros [Hin Hc]%List.find_some. split.
  - by apply list_elem_of_In.
  - apply negb_true_iff in Hc. by apply bool_decide_eq_false_1 in Hc.
Qed.

Lemma first_missing_None d :
  first_missing d = None ↔ Forall (λ c, c ∈ header d) required_columns.
Proof.
  unfold first_missing. rewrite Forall_forall. split.
  - intros Hnone c Hc%list_elem_of_In.
    pose proof (List.find_none _ _ Hnone c Hc) as Hb.
    apply negb_false_iff in Hb. by apply bool_decide_eq_true_1 in Hb.
  - intros Hall.
    destruct (List.find _ _) as [c|] eqn:E; [|done].
    apply List.find_some in E as [Hin Hc%negb_true_iff].
    apply bool_decide_eq_false_1 in Hc.
    destruct Hc. by apply Hall, list_elem_of_In.
Qed.

(** C3, as stated, fails.  The second reading of [gap_series] has no
    heart rate, yet the analysis returns a report for the series. *)
Lemma missing_metric_accepted :
  (∃ row, rows gap_series !! 1%nat = Some row ∧ row !! "heart_rate" = None) ∧
  is_report (fst (analyze_data_statistics 1 {[1%positive := gap_series]}))
  = true.
Proof.
  split.
  - eexists. split; reflexivity.
  - vm_compute. reflexivity.
Qed.

(** C3, amended.  On a table whose metric cells hold numbers or gaps,
    the analysis returns a report exactly when the table has a row and
    all of the columns timestamp, heart_rate, spo2, temperature,
    systolic_bp, diastolic_bp, stress_level and steps; it raises
    [IndexError] exactly when the table has the timestamp column and
    no row; it raises [KeyError c] exactly when [c] is the first of
    those columns that the table lacks (and the table is not an empty
    one with timestamps); and it fails in no other way. *)
Theorem analysis_outcome σ l d :
  σ !! l = Some d →
  numeric_metrics d = true →
  let res := fst (analyze_data_statistics l σ) in
  (is_report res = true ↔
   rows d ≠ [] ∧ Forall (λ c, c ∈ header d) required_columns) ∧
  (res = inl IndexError ↔ rows d = [] ∧ "timestamp" ∈ header d) ∧
  (∀ c, res = inl (KeyError c) ↔
        first_missing d = Some c ∧ (rows d ≠ [] ∨ c = "timestamp")) ∧
  (is_report res = false →
   res = inl IndexError ∨ ∃ c, res = inl (KeyError c)).
Proof.
  intros Hσ Hnum res.
  destruct (wp_run _ _ _ _ σ (wp_outcome l d) Hσ) as [Hpost _].
  specialize (Hpost Hnum). fold res in Hpost. clearbody res.
  rewrite <- first_missing_None.
  destruct res as [[c'| | |]|r]; simpl in *; try done.
  - destruct Hpost as [Hfm Hor].
    pose proof (first_missing_Some _ _ Hfm) as [_ Hc'].
    split; [|split; [|split]].
    + split; [done|]. intros [_ Hnone]. congruence.
    + split; [done|]. intros [Hr Hts]. by destruct Hor as [Hne| ->].
    + intros c. split; [by intros [= <-]|]. intros [Hc _]. congruence.
    + intros _. right. by exists c'.
  - destruct Hpost as [Hr Hts].
    split; [|split; [|split]].
    + split; [done|]. by intros [Hne _].
    + done.
    + intros c. split; [done|]. intros [Hfm [Hne| ->]]; [done|].
      by apply first_missing_Some in Hfm as [_ Hc'].
    + intros _. by left.
  - destruct Hpost as [Hne Hnone].
    split; [|split; [|split]].
    + done.
    + split; [done|]. by intros [Hr _].
    + intros c. split; [done|]. intros [Hc _]. congruence.
    + done.
Qed.

Lemma analysis_outcome_witness :
  let σ : store := {[1%positive := empty_series]} in
  let res := fst (analyze_data_statistics 1 σ) in
  σ !! 1%positive = Some empty_series ∧
  numeric_metrics empty_series = true ∧
  res = inl IndexError.
Proof.
  intros σ res. split; [reflexivity|]. split; [reflexivity|].
  apply (analysis_outcome σ 1%positive empty_series eq_refl eq_refl).
  split; [reflexivity|]. apply (bool_decide_unpack _). by vm_compute.
Defined.

End AnalyzerFacts.

(** * Properties of the generator *)

Module GeneratorFacts.

(** ** Rounding to one decimal stays within one-decimal bounds *)

Lemma round_half_even_floor x :
  Qfloor x ≤ round_half_even x ≤ Qfloor x + 1.
Proof.
  unfold round_half_even.
  destruct (Qcompare _ _); [destruct (Z.even _)| |]; lia.
Qed.

Lemma round_half_even_lower (A : Z) x :
  (inject_Z A <= x)%Q → A ≤ round_half_even x.
Proof.
  intros Hx. apply Qfloor_resp_le in Hx. rewrite Qfloor_Z in Hx.
  pose proof (round_half_even_floor x). lia.
Qed.

Lemma round_half_even_upper (B : Z) x :
  (x <= inject_Z B)%Q → round_half_even x ≤ B.
Proof.
  intros Hx. pose proof (round_half_even_floor x) as Hf.
  pose proof (Qfloor_resp_le _ _ Hx) as Hfl. rewrite Qfloor_Z in Hfl.
  destruct (Z.eq_dec (Qfloor x) B) as [Heq|Hne]; [|lia].
  pose proof (Qfloor_le x) as Hle. rewrite Heq in Hle.
  unfold round_half_even. rewrite Heq.
  destruct (Qcompare (x - inject_Z B) (1 # 2)) eqn:E; [|lia|].
  - apply Qeq_alt in E. lra.
  - apply Qgt_alt in E. lra.
Qed.

Lemma Qmake_tenth k : (Qmake k 10 * 10 == inject_Z k)%Q.
Proof. unfold Qeq. simpl. lia. Qed.

Lemma tenths_spec q : tenths q = true → (q * 10 == inject_Z (Qfloor (q * 10)))%Q.
Proof. unfold tenths. apply Qeq_bool_iff. Qed.

Lemma round1_range lo hi x :
  tenths lo = true → tenths hi = true →
  (lo <= x)%Q → (x <= hi)%Q →
  (lo <= round1 x)%Q ∧ (round1 x <= hi)%Q.
Proof.
  intros Hlo%tenths_spec Hhi%tenths_spec Hl Hh. unfold round1.
  assert (H1 : Qfloor (lo * 10) ≤ round_half_even (x * 10)).
  { apply round_half_even_lower. lra. }
  assert (H2 : round_half_even (x * 10) ≤ Qfloor (hi * 10)).
  { apply round_half_even_upper. lra. }
  rewrite Zle_Qle in H1, H2.
  pose proof (Qmake_tenth (round_half_even (x * 10))). lra.
Qed.

Lemma one_decimal_round1 x : one_decimal (round1 x).
Proof. by exists (round_half_even (x * 10)). Qed.

(** ** The search loop of [bisect] *)

Lemma bisect_loop_range fuel a x lo hi :
  lo ≤ hi → lo ≤ bisect_loop fuel a x lo hi ≤ hi.
Proof.
  revert lo hi. induction fuel as [|fuel IH]; intros lo hi Hle; [simpl; lia|].
  simpl. destruct (Z.ltb_spec lo hi) as [Hlt|]; [|lia].
  assert (lo ≤ (lo + hi) / 2 < hi).
  { split; [apply Z.div_le_lower_bound | apply Z.div_lt_upper_bound]; lia. }
  destruct (Qltb _ _).
  - specialize (IH lo ((lo + hi) / 2)). lia.
  - specialize (IH ((lo + hi) / 2 + 1) hi). lia.
Qed.

(** [hi - lo] rounds are enough: more fuel changes nothing. *)
Lemma bisect_loop_enough fuel a x lo hi :
  (Z.to_nat (hi - lo) ≤ fuel)%nat →
  bisect_loop fuel a x lo hi = bisect a x lo hi.
Proof.
  unfold bisect.
  enough (Hgen : ∀ f1 f2 lo hi,
             (Z.to_nat (hi - lo) ≤ f1)%nat → (Z.to_nat (hi - lo) ≤ f2)%nat →
             bisect_loop f1 a x lo hi = bisect_loop f2 a x lo hi).
  { intros Hf. by apply Hgen. }
  clear. induction f1 as [|f1 IH]; intros f2 lo hi H1 H2.
  - destruct f2 as [|f2]; [done|]. simpl.
    destruct (Z.ltb_spec lo hi); [lia|done].
  - destruct f2 as [|f2]; simpl.
    + destruct (Z.ltb_spec lo hi); [lia|done].
    + destruct (Z.ltb_spec lo hi) as [Hlt|]; [|done].
      assert (lo ≤ (lo + hi) / 2 < hi).
      { split; [apply Z.div_le_lower_bound | apply Z.div_lt_upper_bound];
          lia. }
      destruct (Qltb _ _); apply IH; lia.
Qed.

Lemma bisect_range a x lo hi : lo ≤ hi → lo ≤ bisect a x lo hi ≤ hi.
Proof. apply bisect_loop_range. Qed.

(** ** Running computations *)

Lemma post_ret {S A} (a : A) (s : S) (Q : exn + A → Prop) :
  Q (inr a) → post (mret a) s Q.
Proof. done. Qed.

Lemma post_raise {S A} (e : exn) (s : S) (Q : exn + A → Prop) :
  Q (inl e) → post (raise e) s Q.
Proof. done. Qed.

Lemma post_bind {S A B} (m : M S A) (k : A → M S B) (P : A → Prop) s
    (Q : exn + B → Prop) :
  yields m P →
  (∀ a s', P a → post (k a) s' Q) →
  post (m ≫= k) s Q.
Proof.
  intros Hm Hk. destruct (Hm s) as (a & s' & E & HP).
  unfold post, mbind, M_bind. rewrite E. by apply Hk.
Qed.

Lemma yields_ret {S A} (a : A) (P : A → Prop) :
  P a → yields (S := S) (mret a) P.
Proof. intros HP s. by exists a, s. Qed.

Lemma yields_bind {S A B} (m : M S A) (k : A → M S B) (P : A → Prop)
    (Q : B → Prop) :
  yields m P → (∀ a, P a → yields (k a) Q) → yields (m ≫= k) Q.
Proof.
  intros Hm Hk s. destruct (Hm s) as (a & s1 & E & HP).
  destruct (Hk a HP s1) as (b & s2 & E2 & HQ).
  exists b, s2. unfold mbind, M_bind. by rewrite E.
Qed.

Lemma yields_getitem {S V} (d : list (string * V)) k v (P : V → Prop) :
  assoc k d = Some v → P v → yields (S := S) (getitem d k) P.
Proof. intros Hk HP s. unfold getitem. rewrite Hk. by exists v, s. Qed.

Lemma yields_getitem_eq {S V} (d : list (string * V)) k v :
  assoc k d = Some v → yields (S := S) (getitem d k) (eq v).
Proof. intros Hk. by apply (yields_getitem d k v). Qed.

(** ** Random draws *)

Section Draws.
Context {G : Type} `{RandomSource G}.

Lemma yields_random :
  yields (random (G := G)) (λ u, (0 <= u)%Q ∧ (u < 1)%Q).
Proof.
  intros w. unfold random.
  pose proof (rs_random_range (rng w)) as Hr.
  destruct (rs_random (rng w)) as [u g]. by eexists _, _.
Qed.

Lemma yields_randint a b :
  a ≤ b →
  yields (randint (G := G) (NInt a) (NInt b))
    (λ z, sampled Integer (NInt a) (NInt b) (PInt z)).
Proof.
  intros Hab w. unfold randint, randrange.
  destruct (Z.ltb_spec 0 (b + 1 - a)); [|lia].
  unfold mbind, M_bind, _randbelow.
  pose proof (rs_randbelow_range (b + 1 - a) (rng w) ltac:(lia)) as Hr.
  destruct (rs_randbelow (b + 1 - a) (rng w)) as [r g]. cbn [fst] in Hr.
  eexists _, _. split; [reflexivity|].
  exists (a + r). split; [done|]. cbn [num_Q].
  rewrite <- !Zle_Qle. lia.
Qed.

Lemma yields_uniform lo hi :
  (num_Q lo <= num_Q hi)%Q →
  tenths (num_Q lo) = true → tenths (num_Q hi) = true →
  yields (uniform (G := G) lo hi)
    (λ x, sampled Continuous lo hi (PFloat (Fin (round1 x)))).
Proof.
  intros Hle Hlo Hhi w. unfold uniform.
  destruct (yields_random w) as (u & w' & E & Hu0 & Hu1).
  unfold mbind, M_bind. rewrite E.
  eexists _, _. split; [reflexivity|].
  eexists. split; [done|].
  assert ((num_Q lo <= num_Q lo + (num_Q hi - num_Q lo) * u)%Q ∧
          (num_Q lo + (num_Q hi - num_Q lo) * u <= num_Q hi)%Q) as [H1 H2].
  { split; nra. }
  destruct (round1_range _ _ _ Hlo Hhi H1 H2) as [H3 H4].
  repeat split; [done|done|apply one_decimal_round1].
Qed.

Lemma yields_choices {A} (population : list A) (weights : list Q) total :
  population ≠ [] →
  length (accumulate weights) = length population →
  last (accumulate weights) = Some total →
  Qle_bool total 0 = false →
  yields (choices (G := G) population weights) (λ x, x ∈ population).
Proof.
  intros Hne Hlen Hlast Htot w. unfold choices.
  rewrite bool_decide_eq_true_2 by done. rewrite Hlast, Htot.
  destruct (yields_random w) as (u & w' & E & _).
  unfold mbind, M_bind. rewrite E.
  pose proof (bisect_range (accumulate weights) (u * total) 0
                (Z.of_nat (length population) - 1)) as Hi.
  assert (0 < length population)%nat by (destruct population; simpl; [done|lia]).
  specialize (Hi ltac:(lia)).
  destruct (population !! Z.to_nat (bisect _ _ _ _)) as [x|] eqn:El.
  - exists x, w'. split; [done|]. by eapply list_elem_of_lookup_2.
  - apply lookup_ge_None in El. lia.
Qed.

End Draws.

(** ** The statements of [generate_reading] *)

Section Reading.
Context {G : Type} `{RandomSource G}.

Lemma post_yields {A} (m : M (world G) A) (P : A → Prop) w
    (Q : exn + A → Prop) :
  yields m P → (∀ a, P a → Q (inr a)) → post m w Q.
Proof.
  intros Hm HQ. destruct (Hm w) as (a & w' & E & HP).
  unfold post. rewrite E. by apply HQ.
Qed.

Lemma post_getitem_missing {V B} (d : list (string * V)) k
    (kont : V → M (world G) B) w (Q : exn + B → Prop) :
  assoc k d = None → Q (inl (KeyError k)) → post (getitem d k ≫= kont) w Q.
Proof.
  intros Hk HQ. unfold post, mbind, M_bind, getitem. by rewrite Hk.
Qed.

Lemma yields_normal_int m lo hi :
  assoc m (normal_ranges __init__) = Some (NInt lo, NInt hi) →
  lo ≤ hi →
  yields (normal_int (G := G) __init__ m) (sampled Integer (NInt lo) (NInt hi)).
Proof.
  intros Hm Hle. unfold normal_int.
  eapply yields_bind; [by apply yields_getitem_eq|].
  intros r <-. cbn [fst snd].
  eapply yields_bind; [by apply yields_randint|].
  intros z Hz. by apply yields_ret.
Qed.

Lemma yields_normal_float m lo hi :
  assoc m (normal_ranges __init__) = Some (lo, hi) →
  (num_Q lo <= num_Q hi)%Q →
  tenths (num_Q lo) = true → tenths (num_Q hi) = true →
  yields (normal_float (G := G) __init__ m) (sampled Continuous lo hi).
Proof.
  intros Hm Hle Hlo Hhi. unfold normal_float.
  eapply yields_bind; [by apply yields_getitem_eq|].
  intros r <-. cbn [fst snd].
  eapply yields_bind; [by apply yields_uniform|].
  intros x Hx. by apply yields_ret.
Qed.

Lemma yields_override_int data m a b :
  String.eqb m "probability" = false → a ≤ b →
  yields (apply_override (G := G) data m (CRange (NInt a) (NInt b)))
    (λ data', ∃ v, data' = <[m := v]> data ∧
                   sampled Integer (NInt a) (NInt b) v).
Proof.
  intros Hm Hle. unfold apply_override. rewrite Hm.
  eapply yields_bind; [by apply yields_randint|].
  intros z Hz. apply yields_ret. by eexists.
Qed.

Lemma yields_override_float data m a hi :
  String.eqb m "probability" = false →
  (a <= num_Q hi)%Q → tenths a = true → tenths (num_Q hi) = true →
  yields (apply_override (G := G) data m (CRange (NFloat a) hi))
    (λ data', ∃ v, data' = <[m := v]> data ∧
                   sampled Continuous (NFloat a) hi v).
Proof.
  intros Hm Hle Hlo Hhi. unfold apply_override. rewrite Hm.
  eapply yields_bind; [by apply (yields_uniform (NFloat a) hi)|].
  intros x Hx. apply yields_ret. by eexists.
Qed.

Lemma yields_override_skip data v :
  yields (apply_override (G := G) data "probability" v) (λ data', data' = data).
Proof. unfold apply_override. cbn. by apply yields_ret. Qed.

Lemma profile_names_init :
  profile_names __init__ =
  ["high_heart_rate"; "low_heart_rate"; "low_oxygen"; "high_temperature";
   "low_temperature"; "high_bp"; "low_bp"; "high_stress"; "poor_sleep";
   "excessive_sleep"].
Proof. reflexivity. Qed.

(** The weighted choice returns one of the configured names. *)
Lemma yields_select_anomaly :
  yields (_select_anomaly (G := G) __init__) (λ a, a ∈ profile_names __init__).
Proof.
  unfold _select_anomaly.
  eapply yields_bind with
    (P := eq [0.05; 0.03; 0.04; 0.03; 0.02; 0.04; 0.03; 0.06; 0.04; 0.02]%Q).
  { intros w. by eexists _, _. }
  intros weights <-.
  eapply yields_choices;
    [done | reflexivity | reflexivity | vm_compute; reflexivity].
Qed.

Lemma dom_insert_field (data : gmap string pyval) m v :
  dom data = fields → bool_decide (m ∈ fields) = true →
  dom (<[m := v]> data) = fields.
Proof.
  intros Hd Hm%bool_decide_eq_true_1. rewrite dom_insert_L, Hd.
  apply subseteq_union_1_L. by apply singleton_subseteq_l.
Qed.

(** A metric of the reading after the overrides: either it was just
    overridden, or it still holds its normal draw. *)
Ltac solve_within :=
  lazymatch goal with
  | Hw : within __init__ None ?data ?m |- within __init__ _ _ ?m =>
    first
      [ eexists; split;
        [ repeat first [ apply lookup_insert_eq
                       | rewrite lookup_insert_ne by done ]
        | eassumption ]
      | let v := fresh "v" in
        let Hl := fresh "Hl" in
        let Hs := fresh "Hs" in
        destruct Hw as (v & Hl & Hs);
        exists v; split;
        [ by rewrite ?lookup_insert_ne by done | exact Hs ] ]
  end.

Ltac override_step :=
  eapply yields_bind;
  [ first [ apply yields_override_skip
          | apply yields_override_int; [reflexivity | lia]
          | apply yields_override_float;
            [reflexivity | by vm_compute | reflexivity | reflexivity] ]
  | first [ intros ? -> | intros ? (? & -> & ?) ] ].

Lemma yields_apply_profile a (data : gmap string pyval) :
  a ∈ profile_names __init__ →
  dom data = fields →
  contained __init__ None data →
  yields (S := world G)
    (anomaly_config ← getitem (anomaly_types __init__) a;
     apply_overrides data anomaly_config)
    (λ data', dom data' = fields ∧ contained __init__ (Some a) data').
Proof.
  intros Ha Hdom Hc. rewrite profile_names_init in Ha.
  unfold contained, metrics in Hc.
  repeat (apply Forall_cons_1 in Hc as [? Hc]). clear Hc.
  repeat (apply elem_of_cons in Ha as [-> | Ha]);
    [..|by apply elem_of_nil in Ha];
    (eapply yields_bind;
     [ apply yields_getitem_eq; reflexivity
     | intros cfg <-; cbn [apply_overrides] ]);
    repeat override_step;
    apply yields_ret;
    (split;
     [ by repeat apply dom_insert_field
     | unfold contained, metrics;
       repeat apply Forall_cons_2; try apply Forall_nil_2; solve_within ]).
Qed.

Lemma profile_name_truthy a :
  a ∈ profile_names __init__ → truthy (Some a) = true.
Proof.
  rewrite profile_names_init. intros Ha.
  repeat (apply elem_of_cons in Ha as [-> | Ha]); try reflexivity.
  by apply elem_of_nil in Ha.
Qed.

Lemma assoc_Some_fst {V} (d : list (string * V)) k v :
  assoc k d = Some v → k ∈ (fst <$> d).
Proof.
  induction d as [|[k' v'] d IH]; [done|]. simpl.
  destruct (String.eqb_spec k k') as [->|Hne].
  - intros _. apply elem_of_cons. by left.
  - intros Hk. apply elem_of_cons. right. by apply IH.
Qed.

Lemma yields_decided timestamp force_anomaly :
  ∀ (TAIL : datetime → bool → option string
            → M (world G) (gmap string pyval)) w Q,
    (∀ ts ia aty w', decided __init__ force_anomaly ia aty →
                     post (TAIL ts ia aty) w' Q) →
    post
      (ts ← match timestamp with
            | None => datetime_now
            | Some t => mret t
            end;
       ia ← match force_anomaly with
            | Some _ => mret true
            | None => _should_trigger_anomaly __init__
            end;
       aty ← (if truthy force_anomaly then mret force_anomaly
              else if ia
                   then a ← _select_anomaly __init__; mret (Some a)
                   else mret None);
       TAIL ts ia aty) w Q.
Proof.
  intros TAIL w Q HT.
  eapply post_bind with (P := λ _, True).
  { intros s. destruct timestamp; by eexists _, _. }
  intros ts w1 _.
  eapply post_bind with (P := λ ia, force_anomaly ≠ None → ia = true).
  { destruct force_anomaly; [by apply yields_ret|].
    unfold _should_trigger_anomaly.
    eapply yields_bind; [apply yields_random|].
    intros u _. by apply yields_ret. }
  intros ia w2 Hia.
  eapply post_bind with (P := decided __init__ force_anomaly ia); [|by auto].
  destruct (truthy force_anomaly) eqn:Ht.
  - apply yields_ret. right.
    destruct force_anomaly as [a|]; [|done].
    split; [by apply Hia|]. exists a. split; [done|]. by left.
  - destruct ia.
    + eapply yields_bind; [apply yields_select_anomaly|].
      intros a Ha. apply yields_ret. right. split; [done|].
      exists a. split; [done|]. by right.
    + apply yields_ret. left.
      destruct force_anomaly; [|done].
      by specialize (Hia ltac:(done)).
Qed.

(** Every call on the stock generator ends as [reading_post] says. *)
Lemma generate_reading_post timestamp force_anomaly w :
  post (generate_reading (G := G) __init__ timestamp force_anomaly) w
    (reading_post force_anomaly).
Proof.
  unfold generate_reading. apply yields_decided.
  intros ts ia aty w0 Hdec.
  eapply post_bind;
    [apply (yields_normal_int "heart_rate" 60 100); [reflexivity|lia]|].
  intros v1 w1 Hv1.
  eapply post_bind;
    [apply (yields_normal_float "spo2" (NInt 95) (NInt 100));
     [reflexivity | by vm_compute | reflexivity | reflexivity]|].
  intros v2 w2 Hv2.
  eapply post_bind;
    [apply (yields_normal_float "temperature" (NFloat 36.1) (NFloat 37.2));
     [reflexivity | by vm_compute | reflexivity | reflexivity]|].
  intros v3 w3 Hv3.
  eapply post_bind;
    [apply (yields_normal_int "systolic_bp" 110 130); [reflexivity|lia]|].
  intros v4 w4 Hv4.
  eapply post_bind;
    [apply (yields_normal_int "diastolic_bp" 70 85); [reflexivity|lia]|].
  intros v5 w5 Hv5.
  eapply post_bind;
    [apply (yields_normal_int "steps" 0 150); [reflexivity|lia]|].
  intros v6 w6 Hv6.
  eapply post_bind;
    [apply (yields_normal_int "stress_level" 1 5); [reflexivity|lia]|].
  intros v7 w7 Hv7.
  eapply post_bind;
    [apply (yields_normal_float "sleep_hours" (NFloat 6.5) (NFloat 9.0));
     [reflexivity | by vm_compute | reflexivity | reflexivity]|].
  intros v8 w8 Hv8.
  cbv zeta.
  match goal with
  | |- context [apply_overrides ?d] => set (data := d)
  end.
  assert (Hdom : dom data = fields) by reflexivity.
  assert (Hc : contained __init__ None data).
  { unfold contained, metrics.
    repeat apply Forall_cons_2; try apply Forall_nil_2;
      (eexists; split; [reflexivity | eassumption]). }
  clearbody data.
  destruct Hdec as [(-> & -> & ->) | (-> & a & -> & Hsel)].
  - apply post_ret. split; [done|]. by exists None.
  - cbn [andb default].
    destruct Hsel as [[Ht ->] | [Ht Ha]].
    + rewrite Ht.
      destruct (assoc a (anomaly_types __init__)) as [cfg|] eqn:Ea.
      * apply assoc_Some_fst in Ea.
        apply (post_yields _ _ _ _ (yields_apply_profile a data Ea Hdom Hc)).
        intros data' [Hdom' Hc']. split; [done|].
        by exists (Some a).
      * apply post_getitem_missing; [done|].
        exists a. repeat split; try done.
        intros ->. discriminate Ht.
    + rewrite (profile_name_truthy a Ha).
      apply (post_yields _ _ _ _ (yields_apply_profile a data Ha Hdom Hc)).
      intros data' [Hdom' Hc']. split; [done|].
      exists (Some a). split; [|done]. split; [done|]. by rewrite Ht.
Qed.

Lemma assoc_fst_Some {V} (d : list (string * V)) k :
  k ∈ (fst <$> d) → is_Some (assoc k d).
Proof.
  induction d as [|[k' v'] d IH]; [by intros ?%elem_of_nil|].
  rewrite fmap_cons. simpl.
  destruct (String.eqb_spec k k') as [->|Hne]; [by eexists|].
  intros [?|?]%elem_of_cons; [done|by apply IH].
Qed.

(** ** The claims about the generator *)

(** C4, amended.  For every timestamp and every state of the random
    source, [generate_reading] called with a forced anomaly name that
    is not empty and is not one of the configured profiles raises
    [KeyError] with that name, and returns no reading. *)
Theorem unknown_profile_rejected timestamp name (w : world G) :
  name ≠ "" →
  assoc name (anomaly_types __init__) = None →
  ∃ w', generate_reading __init__ timestamp (Some name) w
        = (inl (KeyError name), w').
Proof.
  intros Hne Hname.
  pose proof (generate_reading_post timestamp (Some name) w) as Hpost.
  unfold post in Hpost.
  destruct (generate_reading __init__ timestamp (Some name) w) as [[e|data] w'].
  - destruct Hpost as (a & [= <-] & _ & _ & ->). by exists w'.
  - destruct Hpost as (_ & [a|] & Hsel & _); [|done].
    destruct Hsel as [Ha Hf].
    assert (Ht : truthy (Some name) = true).
    { simpl. by destruct (String.eqb_spec name ""). }
    specialize (Hf Ht). injection Hf as ->.
    apply assoc_fst_Some in Ha as [cfg Hcfg]. congruence.
Qed.

(** C7.  For every timestamp and every state of the random source,
    [generate_reading] with the forced anomaly "low_oxygen" returns a
    reading whose spo2 is an integer between 85 and 94, whatever the
    15% trial would have given. *)
Theorem forced_low_oxygen timestamp (w : world G) :
  ∃ data w',
    generate_reading __init__ timestamp (Some "low_oxygen") w = (inr data, w') ∧
    ∃ z, data !! "spo2" = Some (PInt z) ∧ 85 ≤ z ≤ 94.
Proof.
  pose proof (generate_reading_post timestamp (Some "low_oxygen") w)
    as Hpost.
  unfold post in Hpost.
  destruct (generate_reading __init__ timestamp (Some "low_oxygen") w)
    as [[e|data] w'].
  - by destruct Hpost as (a & [= <-] & _ & ? & _).
  - exists data, w'. split; [done|].
    destruct Hpost as (_ & [a|] & Hsel & Hc); [|done].
    destruct Hsel as [_ Hf]. specialize (Hf eq_refl). injection Hf as <-.
    unfold contained, metrics in Hc.
    apply Forall_cons_1 in Hc as [_ Hc].
    apply Forall_cons_1 in Hc as [(v & Hv & z & -> & Hlo & Hhi) _].
    exists z. split; [done|].
    cbn [num_Q] in Hlo, Hhi. rewrite <- Zle_Qle in Hlo, Hhi. lia.
Qed.

(** C8.  Every reading that [generate_reading] returns is contained:
    there is a profile the call may have applied such that every
    metric the profile overrides lies in the override range, and every
    other metric in its normal range; a value drawn from an integer
    range is an integer within the bounds, a value drawn from a
    continuous range is a float with one decimal within the bounds,
    the bounds included. *)
Theorem range_containment timestamp force_anomaly (w : world G) data w' :
  generate_reading __init__ timestamp force_anomaly w = (inr data, w') →
  ∃ chosen, selectable __init__ force_anomaly chosen ∧
            contained __init__ chosen data.
Proof.
  intros Hrun.
  pose proof (generate_reading_post timestamp force_anomaly w) as Hpost.
  unfold post in Hpost. rewrite Hrun in Hpost. by destruct Hpost.
Qed.

(** C10.  Every reading that [generate_reading] returns has exactly the
    fields timestamp, heart_rate, spo2, temperature, systolic_bp,
    diastolic_bp, steps, stress_level and sleep_hours, whether an
    anomaly was forced, drawn or absent; in particular it has no
    'probability' field. *)
Theorem reading_fields timestamp force_anomaly (w : world G) data w' :
  generate_reading __init__ timestamp force_anomaly w = (inr data, w') →
  dom data = fields ∧ data !! "probability" = None.
Proof.
  intros Hrun.
  pose proof (generate_reading_post timestamp force_anomaly w) as Hpost.
  unfold post in Hpost. rewrite Hrun in Hpost.
  destruct Hpost as [Hdom _]. split; [done|].
  apply not_elem_of_dom. rewrite Hdom. by apply (bool_decide_unpack _).
Qed.

End Reading.

(** C4, as stated, fails.  The empty string names no configured
    profile, yet a call that forces it returns a reading. *)
Lemma empty_name_accepted :
  assoc "" (anomaly_types __init__) = None ∧
  is_report (fst (generate_reading __init__ (Some noon) (Some "") (world0 5)))
  = true.
Proof. split; [reflexivity|]. vm_compute. reflexivity. Qed.

Lemma unknown_profile_rejected_witness :
  "fever" ≠ "" ∧
  assoc "fever" (anomaly_types __init__) = None ∧
  ∃ w', generate_reading __init__ (Some noon) (Some "fever") (world0 5)
        = (inl (KeyError "fever"), w').
Proof.
  split; [discriminate|]. split; [reflexivity|].
  apply (unknown_profile_rejected (Some noon) "fever" (world0 5));
    [discriminate | reflexivity].
Defined.

Lemma forced_low_oxygen_witness :
  ∃ data w',
    generate_reading __init__ None (Some "low_oxygen") (world0 5)
    = (inr data, w') ∧
    ∃ z, data !! "spo2" = Some (PInt z) ∧ 85 ≤ z ≤ 94.
Proof. apply (forced_low_oxygen None (world0 5)). Defined.

Lemma range_containment_witness :
  ∃ data w',
    generate_reading __init__ (Some noon) None (world0 5) = (inr data, w') ∧
    ∃ chosen, selectable __init__ None chosen ∧ contained __init__ chosen data.
Proof.
  assert (Hr : is_report (fst (generate_reading __init__ (Some noon) None
                                 (world0 5))) = true)
    by (vm_compute; reflexivity).
  destruct (generate_reading __init__ (Some noon) None (world0 5))
    as [[e|data] w'] eqn:E; [discriminate Hr|].
  exists data, w'. split; [reflexivity|].
  apply (range_containment (Some noon) None (world0 5) data w' E).
Defined.

Lemma reading_fields_witness :
  ∃ data w',
    generate_reading __init__ (Some noon) (Some "high_bp") (world0 7)
    = (inr data, w') ∧
    dom data = fields ∧ data !! "probability" = None.
Proof.
  assert (Hr : is_report (fst (generate_reading __init__ (Some noon)
                                 (Some "high_bp") (world0 7))) = true)
    by (vm_compute; reflexivity).
  destruct (generate_reading __init__ (Some noon) (Some "high_bp") (world0 7))
    as [[e|data] w'] eqn:E; [discriminate Hr|].
  exists data, w'. split; [reflexivity|].
  apply (reading_fields (Some noon) (Some "high_bp") (world0 7) data w' E).
Defined.

End GeneratorFacts.

(** * Further properties of the analysis *)

Module ReportFacts.

Import AnalyzerFacts GeneratorFacts.

(** ** Counting rows *)

Lemma count_rows_range p d :
  0 ≤ count_rows p d ≤ Z.of_nat (length (rows d)).
Proof.
  unfold count_rows. pose proof (List.filter_length_le p (rows d)). lia.
Qed.

Lemma count_rows_exclusive p q d :
  (∀ r, p r = true → q r = true → False) →
  count_rows p d + count_rows q d ≤ Z.of_nat (length (rows d)).
Proof.
  intros Hpq. unfold count_rows.
  induction (rows d) as [|r l IH]; [done|].
  rewrite !count_cons. cbn [length].
  specialize (Hpq r).
  destruct (p r), (q r); first [lia | by destruct Hpq].
Qed.

Lemma count_rows_perm p d1 d2 :
  rows d1 ≡ₚ rows d2 → count_rows p d1 = count_rows p d2.
Proof.
  intros Hp. unfold count_rows. f_equal.
  induction Hp as [|r l1 l2 Hp IH|r1 r2 l|l1 l2 l3 H1 IH1 H2 IH2];
    simpl; [done| | |congruence].
  - destruct (p r); simpl; congruence.
  - by destruct (p r1), (p r2).
Qed.

Lemma tally_perm d1 d2 : rows d1 ≡ₚ rows d2 → tally d1 = tally d2.
Proof.
  intros Hp. unfold tally, detection_rules. rewrite !fmap_cons.
  cbn [fst snd]. by rewrite !(count_rows_perm _ d1 d2 Hp).
Qed.

Lemma tally_append d row :
  tally (append_reading d row)
  = list_to_map ((λ rule, (fst rule,
                           count_rows (snd rule) d
                           + (if snd rule row then 1 else 0)))
                   <$> detection_rules).
Proof.
  unfold tally, detection_rules. rewrite !fmap_cons.
  cbn [fst snd]. by rewrite !count_rows_append.
Qed.

(** A counter of the tally is the count of one of the rules. *)
Lemma tally_lookup d rule n :
  tally d !! rule = Some n →
  ∃ p, (rule, p) ∈ detection_rules ∧ n = count_rows p d.
Proof.
  intros Hl. apply elem_of_list_to_map_2 in Hl.
  apply list_elem_of_fmap in Hl as ([k p] & [= -> ->] & Hin).
  by exists p.
Qed.

(** ** One reading against the rules *)

Lemma Qgtb_lt q t : Qgtb q t = true ↔ (t < q)%Q.
Proof.
  unfold Qgtb. rewrite Qgt_alt. by destruct (q ?= t)%Q.
Qed.

Lemma Qltb_lt q t : Qltb q t = true ↔ (q < t)%Q.
Proof.
  unfold Qltb. rewrite Qlt_alt. by destruct (q ?= t)%Q.
Qed.

Lemma satisfies_exclusive c lo hi r :
  (lo <= hi)%Q →
  satisfies c Qgtb hi r = true → satisfies c Qltb lo r = true → False.
Proof.
  unfold satisfies. intros Hle.
  destruct (num_of (cell c r)) as [q|]; [|done].
  intros Hgt%Qgtb_lt Hlt%Qltb_lt. lra.
Qed.

(** Of the eight rules, the two on heart rate exclude each other, and
    so do the two on temperature and the two on blood pressure. *)
Lemma rules_triggered_range r : 0 ≤ rules_triggered r ≤ 5.
Proof.
  unfold rules_triggered, detection_rules. cbn [List.filter snd].
  pose proof (satisfies_exclusive "heart_rate" 60 120 r ltac:(done)) as H1.
  pose proof (satisfies_exclusive "temperature" 36.1 37.2 r ltac:(done))
    as H2.
  pose proof (satisfies_exclusive "systolic_bp" 110 130 r ltac:(done)) as H3.
  destruct (satisfies "heart_rate" Qgtb 120 r),
           (satisfies "heart_rate" Qltb 60 r); try (by destruct H1);
  destruct (satisfies "temperature" Qgtb 37.2 r),
           (satisfies "temperature" Qltb 36.1 r); try (by destruct H2);
  destruct (satisfies "systolic_bp" Qgtb 130 r),
           (satisfies "systolic_bp" Qltb 110 r); try (by destruct H3);
  destruct (satisfies "spo2" Qltb 95 r),
           (satisfies "stress_level" Qgtb 6 r); cbn [length]; lia.
Qed.

Lemma Zsum_range (f : gmap string pyval → Z) (b : Z) l :
  (∀ r, 0 ≤ f r ≤ b) → 0 ≤ Zsum (f <$> l) ≤ b * Z.of_nat (length l).
Proof.
  intros Hf. induction l as [|r l IH]; [simpl; lia|].
  rewrite fmap_cons. change (Zsum (?x :: ?xs)) with (x + Zsum xs).
  cbn [length]. specialize (Hf r). nia.
Qed.

(** A report tells the number of readings, and a report is only made
    of a table that has readings. *)
Lemma report_total_readings σ l d r σ' :
  σ !! l = Some d →
  analyze_data_statistics l σ = (inr r, σ') →
  r !! "total_readings" = Some (scalar (PInt (Z.of_nat (length (rows d)))))
  ∧ rows d ≠ [].
Proof.
  intros Hσ Hrun.
  destruct (analysis_run _ _ _ _ _ _ (wp_stats l d) Hσ Hrun r eq_refl)
    as (_ & _ & _ & _ & _ & _ & _ & Hn & a & b & Ha & _).
  split; [done|].
  pose proof (iloc_first_shaped d "timestamp") as Hs.
  rewrite Ha in Hs. by destruct Hs.
Qed.

(** ** Bounds on the counters *)

(** Every counter of a report lies between 0 and the report's number
    of readings, which is at least 1. *)
Theorem counters_within_readings σ l d r σ' :
  σ !! l = Some d →
  analyze_data_statistics l σ = (inr r, σ') →
  ∃ N, r !! "total_readings" = Some (scalar (PInt N)) ∧
       1 ≤ N ∧
       ∀ rule n, anomaly_count r rule = Some n → 0 ≤ n ≤ N.
Proof.
  intros Hσ Hrun.
  destruct (report_total_readings _ _ _ _ _ Hσ Hrun) as [Hn Hne].
  eexists. split; [exact Hn|]. split.
  { destruct (rows d); [done|]. cbn [length]. lia. }
  intros rule n. rewrite (anomaly_count_tally _ _ _ _ _ _ Hσ Hrun).
  intros (p & _ & ->)%tally_lookup. apply count_rows_range.
Qed.

Lemma counters_within_readings_witness :
  let σ : store := {[1%positive := scenario]} in
  ∃ r σ',
    analyze_data_statistics 1 σ = (inr r, σ') ∧
    ∃ N, r !! "total_readings" = Some (scalar (PInt N)) ∧
         1 ≤ N ∧
         ∀ rule n, anomaly_count r rule = Some n → 0 ≤ n ≤ N.
Proof.
  intros σ. subst σ. run_sample r σ' E. exists r, σ'.
  split; [reflexivity|].
  apply (counters_within_readings {[1%positive := scenario]} 1%positive
           scenario r σ'); [reflexivity | exact E].
Defined.

(** No reading is counted both as high and as low on the same metric,
    so the two counters of a metric add up to at most the number of
    readings, and the total of a report is at most five times the
    number of readings. *)
Theorem opposite_rules_exclusive σ l d r σ' :
  σ !! l = Some d →
  analyze_data_statistics l σ = (inr r, σ') →
  let N := Z.of_nat (length (rows d)) in
  Forall (λ '(high, low),
            ∃ a b, anomaly_count r high = Some a ∧
                   anomaly_count r low = Some b ∧
                   a + b ≤ N)
    [("high_heart_rate", "low_heart_rate"); ("high_temp", "low_temp");
     ("high_bp", "low_bp")] ∧
  ∃ t, total_anomalies r = Some t ∧ 0 ≤ t ≤ 5 * N.
Proof.
  intros Hσ Hrun N. split.
  - repeat apply Forall_cons_2; try apply Forall_nil_2;
      rewrite !(anomaly_count_tally _ _ _ _ _ _ Hσ Hrun);
      (eexists _, _; split; [reflexivity|]; split; [reflexivity|]);
      apply count_rows_exclusive; intros row;
      apply satisfies_exclusive; done.
  - eexists. split; [exact (total_anomalies_tally _ _ _ _ _ Hσ Hrun)|].
    rewrite sum_values_tally.
    apply Zsum_range, rules_triggered_range.
Qed.

Lemma opposite_rules_exclusive_witness :
  let σ : store := {[1%positive := scenario]} in
  ∃ r σ',
    analyze_data_statistics 1 σ = (inr r, σ') ∧
    Forall (λ '(high, low),
              ∃ a b, anomaly_count r high = Some a ∧
                     anomaly_count r low = Some b ∧
                     a + b ≤ Z.of_nat (length (rows scenario)))
      [("high_heart_rate", "low_heart_rate"); ("high_temp", "low_temp");
       ("high_bp", "low_bp")] ∧
    ∃ t, total_anomalies r = Some t
         ∧ 0 ≤ t ≤ 5 * Z.of_nat (length (rows scenario)).
Proof.
  intros σ. subst σ. run_sample r σ' E. exists r, σ'.
  split; [reflexivity|].
  apply (opposite_rules_exclusive {[1%positive := scenario]} 1%positive
           scenario r σ'); [reflexivity | exact E].
Defined.

(** ** The order of the readings *)

(** The counters, the total and the number of readings of a report do
    not depend on the order of the readings, nor on the object that
    holds the table. *)
Theorem counters_ignore_order σ1 l1 d1 r1 σ1' σ2 l2 d2 r2 σ2' :
  σ1 !! l1 = Some d1 →
  analyze_data_statistics l1 σ1 = (inr r1, σ1') →
  σ2 !! l2 = Some d2 →
  analyze_data_statistics l2 σ2 = (inr r2, σ2') →
  rows d1 ≡ₚ rows d2 →
  Forall (λ k, r1 !! k = r2 !! k)
    ["anomalies"; "total_anomalies"; "total_readings"].
Proof.
  intros Hσ1 Hrun1 Hσ2 Hrun2 Hp.
  destruct (analysis_run _ _ _ _ _ _ (wp_anomalies l1 d1) Hσ1 Hrun1 r1
              eq_refl) as [Ha1 Ht1].
  destruct (analysis_run _ _ _ _ _ _ (wp_anomalies l2 d2) Hσ2 Hrun2 r2
              eq_refl) as [Ha2 Ht2].
  destruct (report_total_readings _ _ _ _ _ Hσ1 Hrun1) as [Hn1 _].
  destruct (report_total_readings _ _ _ _ _ Hσ2 Hrun2) as [Hn2 _].
  rewrite (tally_perm _ _ Hp) in Ha1, Ht1.
  rewrite (Permutation_length Hp) in Hn1.
  repeat apply Forall_cons_2; try apply Forall_nil_2; congruence.
Qed.

Lemma counters_ignore_order_witness :
  let d1 := scenario in
  let d2 := {| header := header scenario; rows := reverse (rows scenario) |} in
  ∃ r1 σ1' r2 σ2',
    analyze_data_statistics 1 {[1%positive := d1]} = (inr r1, σ1') ∧
    analyze_data_statistics 2 {[2%positive := d2]} = (inr r2, σ2') ∧
    rows d1 ≡ₚ rows d2 ∧
    Forall (λ k, r1 !! k = r2 !! k)
      ["anomalies"; "total_anomalies"; "total_readings"].
Proof.
  intros d1 d2. subst d1 d2.
  run_sample r1 σ1' E1. run_sample r2 σ2' E2.
  exists r1, σ1', r2, σ2'. split; [reflexivity|]. split; [reflexivity|].
  assert (Hp : rows scenario
               ≡ₚ rows {| header := header scenario;
                          rows := reverse (rows scenario) |}).
  { cbn [rows]. symmetry. apply reverse_Permutation. }
  split; [exact Hp|].
  eapply (counters_ignore_order _ 1%positive _ r1 σ1' _ 2%positive _ r2 σ2');
    [ | exact E1 | | exact E2 | exact Hp]; reflexivity.
Defined.

(** ** One more reading *)

(** When the analysis reports on a series and on the same series with
    one more reading, every counter has grown by 1 if the new reading
    satisfies its rule and by 0 if not (a gap satisfies no rule), and
    the total has grown by the number of rules the reading triggers. *)
Theorem counters_after_append σ l d r σ' σ2 l2 row r2 σ2' :
  σ !! l = Some d →
  analyze_data_statistics l σ = (inr r, σ') →
  σ2 !! l2 = Some (append_reading d row) →
  analyze_data_statistics l2 σ2 = (inr r2, σ2') →
  Forall (λ rule : string * (gmap string pyval → bool),
            ∃ n, anomaly_count r (fst rule) = Some n ∧
                 anomaly_count r2 (fst rule)
                 = Some (n + if snd rule row then 1 else 0))
    detection_rules ∧
  ∃ t, total_anomalies r = Some t ∧
       total_anomalies r2 = Some (t + rules_triggered row).
Proof.
  intros Hσ Hrun Hσ2 Hrun2. split.
  - unfold detection_rules.
    repeat apply Forall_cons_2; try apply Forall_nil_2; cbn [fst snd];
      rewrite (anomaly_count_tally _ _ _ _ _ _ Hσ Hrun),
              (anomaly_count_tally _ _ _ _ _ _ Hσ2 Hrun2), tally_append;
      (eexists; split; reflexivity).
  - eexists. split; [exact (total_anomalies_tally _ _ _ _ _ Hσ Hrun)|].
    rewrite (total_anomalies_tally _ _ _ _ _ Hσ2 Hrun2).
    rewrite !sum_values_tally. f_equal.
    unfold append_reading. cbn [rows]. rewrite fmap_app.
    unfold Zsum. rewrite foldr_app. cbn [fmap list_fmap foldr].
    generalize (rules_triggered row). intros z.
    induction (rules_triggered <$> rows d) as [|x xs IH]; simpl; lia.
Qed.

Lemma counters_after_append_witness :
  let σ : store := {[1%positive := one_reading]} in
  let σ2 : store := {[1%positive := append_reading one_reading strained]} in
  ∃ r σ' r2 σ2',
    analyze_data_statistics 1 σ = (inr r, σ') ∧
    analyze_data_statistics 1 σ2 = (inr r2, σ2') ∧
    rules_triggered strained = 2 ∧
    ∃ t, total_anomalies r = Some t ∧
         total_anomalies r2 = Some (t + rules_triggered strained).
Proof.
  intros σ σ2. subst σ σ2.
  run_sample r σ' E. run_sample r2 σ2' E2.
  exists r, σ', r2, σ2'.
  split; [reflexivity|]. split; [reflexivity|]. split; [reflexivity|].
  eapply (counters_after_append _ 1%positive one_reading r σ'
            _ 1%positive strained r2 σ2');
    [ | exact E | | exact E2]; reflexivity.
Defined.

(** ** Rounding keeps the order *)






(** ** The mean lies between the extremes *)





End ReportFacts.

(** * Properties of the prompt *)

Module PromptFacts.

Import AnalyzerFacts ReportFacts.

#[local] Hint Resolve evals_len evals_col_iloc evals_col_mean1 evals_col_min
  evals_col_max evals_col_min1 evals_col_max1 evals_col_std1
  evals_col_sum evals_count_where : evals.

(** ** Presenting a cell *)

Lemma num_of_present d c r : num_of (present d c r) = num_of (cell c r).
Proof.
  unfold present, coercion.
  repeat match goal with
         | |- context [if ?b then _ else _] => destruct b
         end; by rewrite ?num_of_to_float64.
Qed.

Lemma present_text d c r s : cell c r = PStr s → present d c r = PStr s.
Proof.
  intros Hs. unfold present, coercion. rewrite Hs.
  by repeat match goal with
            | |- context [if ?b then _ else _] => destruct b
            end.
Qed.

(** ** Quoting a reading *)

Lemma find_filter {A} (p : A → bool) (l : list A) :
  List.find p l = head (List.filter p l).
Proof.
  induction l as [|x l IH]; [done|]. simpl. by destruct (p x).
Qed.

Lemma row_lookup (hd : list string) (f : string → pyval) c :
  c ∈ hd →
  cell c (list_to_map ((λ c, (c, f c)) <$> hd)) = f c.
Proof.
  intros Hc. unfold cell.
  rewrite (elem_of_list_to_map_1' _ c (f c)); [done| |].
  - by intros y (c' & [= <- ->] & _)%list_elem_of_fmap.
  - apply list_elem_of_fmap. by exists c.
Qed.

Lemma quote_run σ l d c test t :
  σ !! l = Some d →
  quote l c (compare_with test t) σ = (quote_of d c test t, σ).
Proof.
  intros Hσ. unfold quote, quote_of, df_getitem, df_getitem_mask.
  unfold mbind, M_bind, lift. rewrite (lookup_total_correct _ _ _ Hσ).
  unfold column. case_bool_decide as Hc; [|done].
  destruct (compare_with test t _) as [e|mask] eqn:E.
  - unfold compare_with in E. rewrite text_in_column in E.
    destruct (text_in d c); [by injection E as <-|done].
  - pose proof E as E'. apply compare_infer_dtype in E'. subst mask.
    unfold compare_with in E. rewrite text_in_column in E.
    destruct (text_in d c); [done|]. clear E.
    rewrite <- list_fmap_compose.
    replace (select _ (rows d))
      with (List.filter (satisfies c test t) (rows d))
      by (symmetry; apply select_fmap).
    rewrite find_filter.
    unfold iloc. cbn [kept origin].
    destruct (List.filter _ (rows d)) as [|r0 rs]; [done|].
    cbn [head length lookup list_lookup]. simpl.
    unfold row_get. cbn [index values].
    rewrite bool_decide_eq_true_2 by done. simpl.
    case_bool_decide as Ht; [|done].
    by rewrite !row_lookup.
Qed.

(** ** The three sample blocks *)

Lemma positive_anomaly stats rule n :
  anomaly_count stats rule = Some n →
  (e ← stats_get stats "anomalies"; f ← entry_get e rule; positive_count f)
  = inr (0 <? n).
Proof.
  unfold anomaly_count, stats_get.
  destruct (stats !! "anomalies") as [[f|g]|]; try done.
  cbn [mbind exn_bind entry_get].
  destruct (g !! rule) as [[[z|x|s]|a sep b]|]; try done.
  by intros [= ->].
Qed.

Lemma sample_if_run σ l d stats rule n c test t label unit_at :
  σ !! l = Some d →
  anomaly_count stats rule = Some n →
  sample_if stats l rule c (compare_with test t) label unit_at σ
  = (if 0 <? n
     then vt ← quote_of d c test t;
          inr [[Txt label; Shown (scalar (fst vt)); Txt unit_at;
                Shown (scalar (snd vt))]]
     else inr [], σ).
Proof.
  intros Hσ Hn. unfold sample_if.
  unfold mbind at 1. unfold M_bind, lift.
  rewrite (positive_anomaly _ _ _ Hn).
  destruct (0 <? n); [|done].
  unfold mbind at 1. unfold M_bind. rewrite (quote_run _ _ _ _ _ _ Hσ).
  by destruct (quote_of d c test t).
Qed.

(** With the count of the table itself, the block gives the sample
    line of the table. *)
Lemma sample_if_counted σ l d stats rule c test t label unit_at :
  σ !! l = Some d →
  anomaly_count stats rule = Some (count_rows (satisfies c test t) d) →
  c ∈ header d → text_in d c = false → "timestamp" ∈ header d →
  sample_if stats l rule c (compare_with test t) label unit_at σ
  = (inr (sample_line d c test t label unit_at), σ).
Proof.
  intros Hσ Hn Hc Htxt Hts.
  rewrite (sample_if_run _ _ _ _ _ _ _ _ _ _ _ Hσ Hn).
  unfold quote_of, sample_line, count_rows.
  rewrite !bool_decide_eq_true_2 by done. rewrite Htxt, find_filter.
  by destruct (List.filter _ (rows d)).
Qed.

Lemma mean1_of_inr d c v :
  mean1_of d c = inr v → c ∈ header d ∧ text_in d c = false.
Proof.
  rewrite mean1_of_eq. case_bool_decide; [|done].
  by destruct (text_in d c).
Qed.

(** What a successful analysis tells about the columns the samples
    are taken from. *)
Lemma sampled_columns σ l d r σ' :
  σ !! l = Some d →
  analyze_data_statistics l σ = (inr r, σ') →
  σ' !! l = Some d ∧ "timestamp" ∈ header d ∧
  Forall (λ c, c ∈ header d ∧ text_in d c = false)
    ["heart_rate"; "spo2"; "temperature"].
Proof.
  intros Hσ Hrun.
  destruct (wp_run _ _ _ _ σ (wp_stats l d) Hσ) as [Hpost Hsub].
  rewrite Hrun in Hpost, Hsub. cbn [fst snd] in Hpost, Hsub.
  destruct (Hpost r eq_refl)
    as (((v1 & H1 & _) & _) & ((v2 & H2 & _) & _) & ((v3 & H3 & _) & _)
        & _ & _ & _ & _ & _ & a & b & Ha & _).
  split; [by eapply lookup_weaken|]. split.
  - pose proof (iloc_first_shaped d "timestamp") as Hs.
    rewrite Ha in Hs. by destruct Hs.
  - repeat apply Forall_cons_2; try apply Forall_nil_2;
      by eapply mean1_of_inr.
Qed.

Lemma wp_complete l d :
  wp (analyze_data_statistics l) l d (λ R, ∀ r, R = inr r → complete r).
Proof.
  unfold analyze_data_statistics.
  do 22 (wp_step ltac:(intros ? [=])).
  cbv zeta.
  do 8 (wp_step ltac:(intros ? [=])).
  apply wp_ret. intros r [= <-] samples.
  vm_compute. reflexivity.
Qed.

Lemma sample_line_length d c test t label unit_at :
  (length (sample_line d c test t label unit_at) ≤ 1)%nat.
Proof. unfold sample_line. destruct (List.find _ _); simpl; lia. Qed.

(** ** The prompt of an analysed table *)

Lemma anomaly_samples_run σ l d stats σ' :
  σ !! l = Some d →
  analyze_data_statistics l σ = (inr stats, σ') →
  anomaly_samples stats l σ' = (inr (samples_of d), σ').
Proof.
  intros Hσ Hrun.
  destruct (sampled_columns _ _ _ _ _ Hσ Hrun) as (Hσ' & Hts & Hcols).
  repeat (apply Forall_cons_1 in Hcols as [[? ?] Hcols]).
  pose proof (anomaly_count_tally _ _ _ _ _ "high_heart_rate" Hσ Hrun)
    as C1.
  pose proof (anomaly_count_tally _ _ _ _ _ "low_oxygen" Hσ Hrun) as C2.
  pose proof (anomaly_count_tally _ _ _ _ _ "high_temp" Hσ Hrun) as C3.
  unfold anomaly_samples, series_gt, series_lt, mbind, M_bind.
  rewrite (sample_if_counted _ _ d) by done.
  rewrite (sample_if_counted _ _ d) by done.
  by rewrite (sample_if_counted _ _ d) by done.
Qed.

(** When the statistics are those of the table, the sample lines of
    the prompt are, for high heart rate, low oxygen and high
    temperature in this order, one line for each rule that some
    reading satisfies, quoting the value and the timestamp of the
    first such reading; a quoted value is the number of the reading,
    and a quoted timestamp that is text is the text of the reading. *)
Theorem samples_quote_first_readings σ l d stats σ' :
  σ !! l = Some d →
  analyze_data_statistics l σ = (inr stats, σ') →
  anomaly_samples stats l σ' = (inr (samples_of d), σ') ∧
  ∀ c r, num_of (present d c r) = num_of (cell c r) ∧
         ∀ s, cell c r = PStr s → present d c r = PStr s.
Proof.
  intros Hσ Hrun. split; [by eapply anomaly_samples_run|].
  intros c r. split; [apply num_of_present|]. apply present_text.
Qed.

Lemma samples_quote_first_readings_witness :
  ∃ stats σ',
    analyze_data_statistics 1 {[1%positive := scenario]} = (inr stats, σ') ∧
    anomaly_samples stats 1 σ' = (inr (samples_of scenario), σ') ∧
    length (samples_of scenario) = 1%nat.
Proof.
  run_sample stats σ' E. exists stats, σ'. split; [reflexivity|].
  split; [|reflexivity].
  eapply (samples_quote_first_readings {[1%positive := scenario]} 1%positive
            scenario stats σ'); [reflexivity | exact E].
Defined.

(** On the statistics of the table itself the prompt is always built:
    every value the template asks for is there, every sample it
    quotes exists, there are at most three sample lines, so that the
    slice of three drops none, and no table is changed. *)
Theorem prompt_after_analysis σ l d stats σ' :
  σ !! l = Some d →
  analyze_data_statistics l σ = (inr stats, σ') →
  ∃ p, create_llm_prompt stats l σ' = (inr p, σ') ∧
       render stats (samples_of d) template = inr p ∧
       take 3 (samples_of d) = samples_of d.
Proof.
  intros Hσ Hrun.
  pose proof (analysis_run _ _ _ _ _ _ (wp_complete l d) Hσ Hrun stats
                eq_refl (samples_of d)) as Hc.
  destruct (render stats (samples_of d) template) as [e|p] eqn:E; [done|].
  exists p. split; [|split; [done|]].
  - unfold create_llm_prompt, mbind, M_bind.
    by rewrite (anomaly_samples_run _ _ _ _ _ Hσ Hrun), E.
  - apply take_ge. unfold samples_of. rewrite !length_app.
    pose proof (sample_line_length d "heart_rate" Qgtb 120
                  "High heart rate: " " bpm at ").
    pose proof (sample_line_length d "spo2" Qltb 95 "Low oxygen: " "% at ").
    pose proof (sample_line_length d "temperature" Qgtb 37.2
                  "High temperature: " "°C at ").
    lia.
Qed.

Lemma prompt_after_analysis_witness :
  ∃ stats σ' p,
    analyze_data_statistics 1 {[1%positive := scenario]} = (inr stats, σ') ∧
    create_llm_prompt stats 1 σ' = (inr p, σ') ∧
    render stats (samples_of scenario) template = inr p ∧
    take 3 (samples_of scenario) = samples_of scenario.
Proof.
  run_sample stats σ' E.
  assert (Hσ : ({[1%positive := scenario]} : store) !! 1%positive
               = Some scenario) by reflexivity.
  destruct (prompt_after_analysis {[1%positive := scenario]} 1%positive
              scenario stats σ' Hσ E) as (p & Hp).
  exists stats, σ', p. split; [reflexivity|]. exact Hp.
Defined.

(** Statistics that count a high heart rate, used with a table (of
    numbers) in which no heart rate is above 120, make the prompt fail
    with [IndexError]: the sample is taken from the table, not from
    the statistics. *)
Theorem stale_statistics_rejected σ l d stats n :
  σ !! l = Some d →
  anomaly_count stats "high_heart_rate" = Some n →
  0 < n →
  "heart_rate" ∈ header d →
  text_in d "heart_rate" = false →
  count_rows (satisfies "heart_rate" Qgtb 120) d = 0 →
  create_llm_prompt stats l σ = (inl IndexError, σ).
Proof.
  intros Hσ Hn Hpos Hc Htxt Hnone.
  unfold create_llm_prompt, anomaly_samples, series_gt.
  unfold mbind at 1. unfold M_bind.
  unfold mbind at 1. unfold M_bind.
  rewrite (sample_if_run _ _ _ _ _ _ _ _ _ _ _ Hσ Hn).
  destruct (Z.ltb_spec 0 n) as [_|?]; [|lia].
  unfold quote_of. rewrite bool_decide_eq_true_2 by done.
  rewrite Htxt, find_filter.
  unfold count_rows in Hnone.
  by destruct (List.filter _ (rows d)).
Qed.

Lemma stale_statistics_rejected_witness :
  ∃ stats σ',
    analyze_data_statistics 1 {[1%positive := scenario]} = (inr stats, σ') ∧
    create_llm_prompt stats 1 {[1%positive := one_reading]}
    = (inl IndexError, {[1%positive := one_reading]}).
Proof.
  run_sample stats σ' E. exists stats, σ'. split; [reflexivity|].
  apply (stale_statistics_rejected {[1%positive := one_reading]} 1%positive
           one_reading stats 1).
  - reflexivity.
  - assert (Hσ : ({[1%positive := scenario]} : store) !! 1%positive
                 = Some scenario) by reflexivity.
    rewrite (anomaly_count_tally {[1%positive := scenario]} 1%positive
               scenario stats σ' "high_heart_rate" Hσ E).
    vm_compute. reflexivity.
  - lia.
  - apply (bool_decide_unpack _). vm_compute. reflexivity.
  - vm_compute. reflexivity.
  - vm_compute. reflexivity.
Defined.

End PromptFacts.

(** * The generator seen by the analyser *)

Module ScreeningFacts.

Import AnalyzerFacts GeneratorFacts ReportFacts.

Lemma Qgtb_intro_true q t : (t < q)%Q → Qgtb q t = true.
Proof. apply Qgtb_lt. Qed.

Lemma Qgtb_intro_false q t : (q <= t)%Q → Qgtb q t = false.
Proof.
  intros Hle. destruct (Qgtb q t) eqn:E; [|done].
  apply Qgtb_lt in E. lra.
Qed.

Lemma Qltb_intro_true q t : (q < t)%Q → Qltb q t = true.
Proof. apply Qltb_lt. Qed.

Lemma Qltb_intro_false q t : (t <= q)%Q → Qltb q t = false.
Proof.
  intros Hle. destruct (Qltb q t) eqn:E; [|done].
  apply Qltb_lt in E. lra.
Qed.

Lemma rules_triggered_flagged r :
  rules_triggered r = Z.of_nat (length (flagged r)).
Proof. unfold rules_triggered, flagged. by rewrite length_fmap. Qed.

Lemma sampled_num k lo hi v :
  sampled k lo hi v →
  ∃ q, num_of v = Some q ∧ (num_Q lo <= q)%Q ∧ (q <= num_Q hi)%Q.
Proof.
  destruct k; [intros (z & -> & ? & ?) | intros (q & -> & ? & ? & _)];
    by eexists.
Qed.

(** Every metric of a contained reading is a number within the range
    it was drawn from. *)
Lemma contained_values chosen data :
  contained __init__ chosen data →
  Forall (λ m, ∃ lo hi q,
            range_of __init__ chosen m = Some (lo, hi) ∧
            num_of (cell m data) = Some q ∧
            (num_Q lo <= q)%Q ∧ (q <= num_Q hi)%Q)
    metrics.
Proof.
  unfold contained. intros Hc. eapply Forall_impl; [exact Hc|]. clear Hc.
  intros m (v & Hv & Hs). unfold range_of, cell. rewrite Hv. cbn [default].
  destruct (override __init__ chosen m) as [[lo hi]|].
  - apply sampled_num in Hs as (q & ? & ? & ?). by exists lo, hi, q.
  - destruct (assoc m (normal_ranges __init__)) as [[lo hi]|]; [|done].
    apply sampled_num in Hs as (q & ? & ? & ?). by exists lo, hi, q.
Qed.

Ltac read_metrics Hc :=
  apply contained_values in Hc; unfold metrics in Hc;
  repeat (let Hr := fresh "Hr" in
          apply Forall_cons_1 in Hc as [(? & ? & ? & Hr & ? & ? & ?) Hc];
          vm_compute in Hr; injection Hr as <- <-);
  clear Hc; cbn [num_Q] in *; unfold inject_Z in *.

Ltac decide_rules :=
  unfold flagged, detection_rules; cbn [List.filter snd];
  unfold satisfies;
  repeat match goal with
         | H : num_of (cell _ _) = Some _ |- _ => rewrite H; clear H
         end;
  repeat match goal with
         | |- context [Qgtb ?q ?t] =>
           first [ rewrite (Qgtb_intro_false q t) by lra
                 | rewrite (Qgtb_intro_true q t) by lra ]
         | |- context [Qltb ?q ?t] =>
           first [ rewrite (Qltb_intro_false q t) by lra
                 | rewrite (Qltb_intro_true q t) by lra ]
         end.

(** A reading within the normal ranges triggers no rule. *)
Lemma normal_unflagged data :
  contained __init__ None data → flagged data = [].
Proof. intros Hc. read_metrics Hc. decide_rules. reflexivity. Qed.

(** Seven profiles put their metric on the far side of the threshold
    of one rule, and leave the other metrics normal. *)
Lemma profile_flagged a rule data :
  (a, rule) ∈ [("low_heart_rate", "low_heart_rate");
               ("low_oxygen", "low_oxygen");
               ("high_temperature", "high_temp");
               ("low_temperature", "low_temp");
               ("high_bp", "high_bp"); ("low_bp", "low_bp");
               ("high_stress", "high_stress")] →
  contained __init__ (Some a) data → flagged data = [rule].
Proof.
  intros Hin Hc.
  repeat (apply elem_of_cons in Hin as [[= -> ->] | Hin]);
    [..|by apply elem_of_nil in Hin];
    read_metrics Hc; decide_rules; reflexivity.
Qed.

(** The two sleep profiles move a metric no rule looks at. *)
Lemma sleep_profile_unflagged a data :
  a ∈ ["poor_sleep"; "excessive_sleep"] →
  contained __init__ (Some a) data →
  flagged data = [] ∧
  ∃ q, num_of (cell "sleep_hours" data) = Some q ∧
       ((q < 6.5)%Q ∨ (9.0 < q)%Q).
Proof.
  intros Hin Hc.
  repeat (apply elem_of_cons in Hin as [-> | Hin]);
    [..|by apply elem_of_nil in Hin];
    read_metrics Hc;
    (split; [|eexists; split; [eassumption|lra]]);
    decide_rules; reflexivity.
Qed.

(** The profile [high_heart_rate] draws from 120 to 180, and the rule
    asks for more than 120. *)
Lemma high_heart_rate_flagged data :
  contained __init__ (Some "high_heart_rate") data →
  ∃ z, data !! "heart_rate" = Some (PInt z) ∧ 120 ≤ z ≤ 180 ∧
       flagged data = if z =? 120 then [] else ["high_heart_rate"].
Proof.
  intros Hc.
  assert (Hz : ∃ z, data !! "heart_rate" = Some (PInt z) ∧ 120 ≤ z ≤ 180).
  { unfold contained, metrics in Hc.
    apply Forall_cons_1 in Hc as [(v & Hv & z & -> & Hlo & Hhi) _].
    exists z. split; [done|].
    cbn [num_Q] in Hlo, Hhi. rewrite <- Zle_Qle in Hlo, Hhi. lia. }
  destruct Hz as (z & Hz & Hr). exists z. split; [done|]. split; [done|].
  read_metrics Hc.
  match goal with
  | H : num_of (cell "heart_rate" data) = Some ?q |- _ =>
    assert (Hq : q = inject_Z z)
      by (unfold cell in H; rewrite Hz in H; by injection H as <-);
    subst q
  end.
  destruct (Z.eqb_spec z 120) as [->|Hne].
  - decide_rules. reflexivity.
  - assert (Hgt : (120 < inject_Z z)%Q).
    { change 120%Q with (inject_Z 120). rewrite <- Zlt_Qlt. lia. }
    decide_rules. reflexivity.
Qed.

(** Whatever profile was applied, at most one rule is triggered. *)
Lemma contained_flagged_once force_anomaly chosen data :
  selectable __init__ force_anomaly chosen →
  contained __init__ chosen data →
  (length (flagged data) ≤ 1)%nat.
Proof.
  intros Hsel Hc. destruct chosen as [a|].
  - destruct Hsel as [Ha _]. rewrite profile_names_init in Ha.
    repeat (apply elem_of_cons in Ha as [-> | Ha]);
      [..|by apply elem_of_nil in Ha].
    + destruct (high_heart_rate_flagged _ Hc) as (z & _ & _ & ->).
      destruct (z =? 120); simpl; lia.
    + rewrite (profile_flagged "low_heart_rate" "low_heart_rate");
        [simpl; lia | by apply (bool_decide_unpack _) | done].
    + rewrite (profile_flagged "low_oxygen" "low_oxygen");
        [simpl; lia | by apply (bool_decide_unpack _) | done].
    + rewrite (profile_flagged "high_temperature" "high_temp");
        [simpl; lia | by apply (bool_decide_unpack _) | done].
    + rewrite (profile_flagged "low_temperature" "low_temp");
        [simpl; lia | by apply (bool_decide_unpack _) | done].
    + rewrite (profile_flagged "high_bp" "high_bp");
        [simpl; lia | by apply (bool_decide_unpack _) | done].
    + rewrite (profile_flagged "low_bp" "low_bp");
        [simpl; lia | by apply (bool_decide_unpack _) | done].
    + rewrite (profile_flagged "high_stress" "high_stress");
        [simpl; lia | by apply (bool_decide_unpack _) | done].
    + destruct (sleep_profile_unflagged "poor_sleep" data) as [-> _];
        [by apply (bool_decide_unpack _) | done | simpl; lia].
    + destruct (sleep_profile_unflagged "excessive_sleep" data) as [-> _];
        [by apply (bool_decide_unpack _) | done | simpl; lia].
  - rewrite (normal_unflagged _ Hc). simpl. lia.
Qed.

Section Readings.
Context {G : Type} `{RandomSource G}.

(** A forced call with a configured name returns a reading contained
    in that profile. *)
Lemma forced_reading timestamp a (w : world G) :
  a ∈ profile_names __init__ →
  ∃ data w',
    generate_reading __init__ timestamp (Some a) w = (inr data, w') ∧
    contained __init__ (Some a) data.
Proof.
  intros Ha.
  pose proof (generate_reading_post timestamp (Some a) w) as Hpost.
  unfold post in Hpost.
  destruct (generate_reading __init__ timestamp (Some a) w)
    as [[e|data] w'].
  - destruct Hpost as (a' & [= <-] & _ & Hnone & _).
    apply assoc_fst_Some in Ha as [cfg Hcfg]. congruence.
  - exists data, w'. split; [done|].
    destruct Hpost as (_ & [a'|] & Hsel & Hc); [|done].
    destruct Hsel as [_ Hf].
    specialize (Hf (profile_name_truthy a Ha)). by injection Hf as <-.
Qed.

(** Every reading the generator returns triggers at most one of the
    analyser's detection rules, whatever was forced or drawn: each
    profile moves the metrics of one rule pair only, and the normal
    ranges lie within the thresholds. *)
Theorem reading_flagged_at_most_once timestamp force_anomaly
    (w : world G) data w' :
  generate_reading __init__ timestamp force_anomaly w = (inr data, w') →
  0 ≤ rules_triggered data ≤ 1.
Proof.
  intros Hrun.
  pose proof (generate_reading_post timestamp force_anomaly w) as Hpost.
  unfold post in Hpost. rewrite Hrun in Hpost.
  destruct Hpost as (_ & chosen & Hsel & Hc).
  rewrite rules_triggered_flagged.
  pose proof (contained_flagged_once _ _ _ Hsel Hc). lia.
Qed.

(** Forcing one of the profiles low_heart_rate, low_oxygen,
    high_temperature, low_temperature, high_bp, low_bp or high_stress
    always gives a reading that triggers exactly the rule of that
    anomaly (named high_temp and low_temp for the two temperature
    profiles), for every state of the random source. *)
Theorem forced_profile_flagged timestamp a rule (w : world G) :
  (a, rule) ∈ [("low_heart_rate", "low_heart_rate");
               ("low_oxygen", "low_oxygen");
               ("high_temperature", "high_temp");
               ("low_temperature", "low_temp");
               ("high_bp", "high_bp"); ("low_bp", "low_bp");
               ("high_stress", "high_stress")] →
  ∃ data w',
    generate_reading __init__ timestamp (Some a) w = (inr data, w') ∧
    flagged data = [rule].
Proof.
  intros Hin.
  assert (Ha : a ∈ profile_names __init__).
  { pose proof Hin as Hin'. rewrite profile_names_init.
    repeat (apply elem_of_cons in Hin' as [[= -> ->] | Hin']);
      [..|by apply elem_of_nil in Hin']; by apply (bool_decide_unpack _). }
  destruct (forced_reading timestamp a w Ha) as (data & w' & Hrun & Hc).
  exists data, w'. split; [done|]. by apply (profile_flagged a).
Qed.

(** Forcing poor_sleep or excessive_sleep gives a reading whose sleep
    hours lie outside the normal range and which triggers no rule of
    the analyser. *)
Theorem sleep_profiles_unflagged timestamp a (w : world G) :
  a ∈ ["poor_sleep"; "excessive_sleep"] →
  ∃ data w',
    generate_reading __init__ timestamp (Some a) w = (inr data, w') ∧
    flagged data = [] ∧
    ∃ q, num_of (cell "sleep_hours" data) = Some q ∧
         ((q < 6.5)%Q ∨ (9.0 < q)%Q).
Proof.
  intros Hin.
  assert (Ha : a ∈ profile_names __init__).
  { pose proof Hin as Hin'. rewrite profile_names_init.
    repeat (apply elem_of_cons in Hin' as [-> | Hin']);
      [..|by apply elem_of_nil in Hin']; by apply (bool_decide_unpack _). }
  destruct (forced_reading timestamp a w Ha) as (data & w' & Hrun & Hc).
  exists data, w'. split; [done|]. by apply (sleep_profile_unflagged a).
Qed.

(** Forcing high_heart_rate gives a heart rate from 120 to 180, and
    the reading is flagged exactly when the heart rate is not 120:
    the profile's lower bound is the rule's threshold, which the rule
    excludes. *)
Theorem high_heart_rate_boundary timestamp (w : world G) :
  ∃ data w' z,
    generate_reading __init__ timestamp (Some "high_heart_rate") w
    = (inr data, w') ∧
    data !! "heart_rate" = Some (PInt z) ∧ 120 ≤ z ≤ 180 ∧
    flagged data = if z =? 120 then [] else ["high_heart_rate"].
Proof.
  destruct (forced_reading timestamp "high_heart_rate" w)
    as (data & w' & Hrun & Hc).
  { rewrite profile_names_init. by apply (bool_decide_unpack _). }
  destruct (high_heart_rate_flagged _ Hc) as (z & Hz & Hr & Hf).
  by exists data, w', z.
Qed.

End Readings.

Lemma reading_flagged_at_most_once_witness :
  ∃ data w',
    generate_reading __init__ (Some noon) None (world0 5) = (inr data, w') ∧
    0 ≤ rules_triggered data ≤ 1.
Proof.
  assert (Hr : is_report (fst (generate_reading __init__ (Some noon) None
                                 (world0 5))) = true)
    by (vm_compute; reflexivity).
  destruct (generate_reading __init__ (Some noon) None (world0 5))
    as [[e|data] w'] eqn:E; [discriminate Hr|].
  exists data, w'. split; [reflexivity|].
  apply (reading_flagged_at_most_once (Some noon) None (world0 5) data w' E).
Defined.

Lemma forced_profile_flagged_witness :
  ∃ data w',
    generate_reading __init__ (Some noon) (Some "high_temperature") (world0 5)
    = (inr data, w') ∧
    flagged data = ["high_temp"].
Proof.
  apply (forced_profile_flagged (Some noon) "high_temperature" "high_temp"
           (world0 5)).
  apply (bool_decide_unpack _). vm_compute. reflexivity.
Defined.

Lemma sleep_profiles_unflagged_witness :
  ∃ data w',
    generate_reading __init__ (Some noon) (Some "poor_sleep") (world0 5)
    = (inr data, w') ∧
    flagged data = [] ∧
    ∃ q, num_of (cell "sleep_hours" data) = Some q ∧
         ((q < 6.5)%Q ∨ (9.0 < q)%Q).
Proof.
  apply (sleep_profiles_unflagged (Some noon) "poor_sleep" (world0 5)).
  apply (bool_decide_unpack _). vm_compute. reflexivity.
Defined.

(** The boundary is reached: a run in which the forced high heart
    rate is 120, and the reading goes unflagged. *)
Lemma high_heart_rate_boundary_witness :
  ∃ data w',
    generate_reading __init__ (Some noon) (Some "high_heart_rate") (world0 31)
    = (inr data, w') ∧
    data !! "heart_rate" = Some (PInt 120) ∧ flagged data = [].
Proof.
  destruct (high_heart_rate_boundary (Some noon) (world0 31))
    as (data & w' & z & Hrun & Hz & _ & Hf).
  exists data, w'. split; [exact Hrun|].
  assert (Hhr : (fst (generate_reading __init__ (Some noon)
                        (Some "high_heart_rate") (world0 31))
                 ≫= λ data, inr (cell "heart_rate" data))
                = inr (PInt 120)) by (vm_compute; reflexivity).
  rewrite Hrun in Hhr. cbn [fst mbind exn_bind] in Hhr.
  unfold cell in Hhr. rewrite Hz in Hhr. cbn [default] in Hhr.
  injection Hhr as ->. split; [exact Hz | exact Hf].
Defined.

End ScreeningFacts.

(** * Further properties of the generator *)

Module ReadingFacts.

Import AnalyzerFacts GeneratorFacts ReportFacts ScreeningFacts.

(** ** The search of [bisect] on running totals *)

Lemma sorted_lookup (a : list Q) i j ci cj :
  StronglySorted Qle a → (i ≤ j)%nat →
  a !! i = Some ci → a !! j = Some cj → (ci <= cj)%Q.
Proof.
  intros Hs. revert i j. induction Hs as [|c a Hs IH Hall]; [done|].
  intros [|i] [|j] Hij Hi Hj; simplify_eq/=; try lia.
  - apply Qle_refl.
  - rewrite List.Forall_forall in Hall. apply Hall.
    apply list_elem_of_In. by eapply list_elem_of_lookup_2.
  - apply (IH i j); [lia|done..].
Qed.

(** On a sorted list the loop ends on the first position, from [lo]
    on, whose entry exceeds [x], when such a position exists up to
    [hi]. *)
Lemma bisect_loop_first (a : list Q) x :
  StronglySorted Qle a →
  ∀ fuel lo hi,
    0 ≤ lo ≤ hi → hi < Z.of_nat (length a) → hi - lo ≤ Z.of_nat fuel →
    (∀ i c, (i < Z.to_nat lo)%nat → a !! i = Some c → (c <= x)%Q) →
    (∀ i c, (Z.to_nat hi ≤ i)%nat → a !! i = Some c → (x < c)%Q) →
    let r := Z.to_nat (bisect_loop fuel a x lo hi) in
    (∀ i c, (i < r)%nat → a !! i = Some c → (c <= x)%Q) ∧
    (∀ i c, (r ≤ i)%nat → a !! i = Some c → (x < c)%Q).
Proof.
  intros Hs. induction fuel as [|fuel IH]; intros lo hi Hlo Hhi Hf Hbelow Habove.
  - assert (lo = hi) as -> by lia. simpl. by split.
  - cbn [bisect_loop]. destruct (Z.ltb_spec lo hi) as [Hlt|Hge].
    + assert (Hmid : lo ≤ (lo + hi) / 2 < hi).
      { split; [apply Z.div_le_lower_bound | apply Z.div_lt_upper_bound];
          lia. }
      set (mid := (lo + hi) / 2) in *.
      destruct (lookup_lt_is_Some_2 a (Z.to_nat mid)) as [c Hc]; [lia|].
      rewrite Hc. change (default 0%Q (Some c)) with c.
      destruct (Qltb x c) eqn:E.
      * apply Qltb_lt in E. apply IH; [lia | lia | lia | done |].
        intros i ci Hi Hci.
        pose proof (sorted_lookup a _ _ _ _ Hs Hi Hc Hci). lra.
      * apply Qltb_false in E. apply IH; [lia | lia | lia | | done].
        intros i ci Hi Hci.
        assert (Hle : (i ≤ Z.to_nat mid)%nat) by lia.
        pose proof (sorted_lookup a _ _ _ _ Hs Hle Hci Hc). lra.
    + assert (lo = hi) as -> by lia. by split.
Qed.

Lemma bisect_find (a : list Q) x hi :
  StronglySorted Qle a →
  0 ≤ hi → hi < Z.of_nat (length a) →
  (∀ i c, (Z.to_nat hi ≤ i)%nat → a !! i = Some c → (x < c)%Q) →
  ∃ c, (Z.to_nat (bisect a x 0 hi) ≤ Z.to_nat hi)%nat ∧
       a !! Z.to_nat (bisect a x 0 hi) = Some c ∧
       (∀ i ci, (i < Z.to_nat (bisect a x 0 hi))%nat →
                a !! i = Some ci → (ci <= x)%Q) ∧
       (x < c)%Q.
Proof.
  intros Hs Hhi Hlen Habove.
  pose proof (bisect_range a x 0 hi Hhi) as Hr.
  destruct (bisect_loop_first a x Hs (Z.to_nat (hi - 0)) 0 hi)
    as [Hlo Hup]; [lia | lia | lia | intros; lia | done |].
  fold (bisect a x 0 hi) in Hlo, Hup.
  destruct (lookup_lt_is_Some_2 a (Z.to_nat (bisect a x 0 hi))) as [c Hc];
    [lia|].
  exists c. split; [lia|]. split; [done|]. split; [done|].
  by apply (Hup _ c (le_n _)).
Qed.

(** The first pair of names and totals whose total exceeds [x]. *)
Lemma find_first (names : list string) (a : list Q) x r n c :
  (∀ i ci, (i < r)%nat → a !! i = Some ci → (ci <= x)%Q) →
  names !! r = Some n → a !! r = Some c → (x < c)%Q →
  List.find (λ s, Qltb x (snd s)) (zip names a) = Some (n, c).
Proof.
  revert names a. induction r as [|r IH]; intros [|n0 names] [|c0 a];
    intros Hlo Hn Hc Hx; simplify_eq/=.
  - by rewrite (Qltb_intro_true _ _ Hx).
  - rewrite (Qltb_intro_false x c0); [|by apply (Hlo 0%nat); [lia|]].
    apply IH; [|done..].
    intros i ci Hi Hci. apply (Hlo (S i)); [lia|done].
Qed.

Section Choice.
Context {G : Type} `{RandomSource G}.

Lemma weights_init (w : world G) :
  mapM (λ a,
      cfg ← getitem (anomaly_types __init__) a;
      p ← getitem cfg "probability";
      match p with
      | CNum x => mret (num_Q x)
      | CRange _ _ => raise TypeError
      end) (fst <$> anomaly_types __init__) w
  = (inr ((λ a, weight (snd a)) <$> anomaly_types __init__), w).
Proof. reflexivity. Qed.

Lemma choices_run {A} (population : list A) (weights : list Q) total
    (w : world G) :
  length (accumulate weights) = length population →
  last (accumulate weights) = Some total →
  Qle_bool total 0 = false →
  choices population weights w
  = (match population
           !! Z.to_nat (bisect (accumulate weights)
                          (fst (rs_random (rng w)) * total) 0
                          (Z.of_nat (length population) - 1)) with
     | Some x => inr x
     | None => inl IndexError
     end, after_random w).
Proof.
  intros Hlen Hlast Htot. unfold choices, after_random.
  rewrite bool_decide_eq_true_2 by done. rewrite Hlast, Htot.
  unfold mbind, M_bind, random.
  destruct (rs_random (rng w)) as [u g]. cbn [fst snd].
  by destruct (population !! _).
Qed.

Lemma select_anomaly_run (w : world G) :
  ∃ a, _select_anomaly __init__ w = (inr a, after_random w) ∧
       share_selected __init__ (fst (rs_random (rng w))) = Some a.
Proof.
  unfold _select_anomaly. unfold mbind at 1. unfold M_bind.
  rewrite weights_init.
  rewrite (choices_run _ _ (total_weight __init__)); [|reflexivity..].
  pose proof (rs_random_range (rng w)) as [Hu0 Hu1].
  generalize dependent (fst (rs_random (rng w))). intros u Hu0 Hu1.
  unfold share_selected, shares.
  set (names := fst <$> anomaly_types __init__).
  set (cum := accumulate _).
  set (x := (u * _)%Q).
  assert (Hx1 : (x < total_weight __init__)%Q).
  { assert (Ht : (0 < total_weight __init__)%Q) by (by vm_compute).
    subst x. generalize dependent (total_weight __init__). intros. nra. }
  clearbody x. clear Hu0 Hu1 u.
  assert (Hsorted : StronglySorted Qle cum).
  { subst cum. cbn [fmap list_fmap anomaly_types __init__ accumulate
                    accumulate_from].
    repeat (apply SSorted_cons;
            [|repeat (apply List.Forall_cons; [by vm_compute|]);
              apply List.Forall_nil]).
    apply SSorted_nil. }
  assert (Hlen : length cum = 10%nat) by reflexivity.
  assert (Hlast : cum !! 9%nat = Some (total_weight __init__))
    by (vm_compute; reflexivity).
  destruct (bisect_find cum x 9 Hsorted) as (c & Hr & Hc & Hlo & Hhi).
  { lia. } { rewrite Hlen. lia. }
  { intros i ci Hi Hci. assert (i = 9%nat) as ->.
    { apply lookup_lt_Some in Hci. lia. }
    rewrite Hlast in Hci. by injection Hci as <-. }
  assert (Hn : is_Some (names !! Z.to_nat (bisect cum x 0 9))).
  { apply lookup_lt_is_Some. change (length names) with 10%nat. lia. }
  destruct Hn as [n Hn].
  exists n. change (Z.of_nat (length names) - 1) with 9. rewrite Hn.
  split; [done|].
  by rewrite (find_first names cum x (Z.to_nat (bisect cum x 0 9)) n c).
Qed.


(** ** The first statements of [generate_reading] *)

Lemma bind_run {S A B} (m : M S A) (k : A → M S B) s a s' :
  m s = (inr a, s') → (m ≫= k) s = k a s'.
Proof. intros E. unfold mbind, M_bind. by rewrite E. Qed.

Lemma should_trigger_run (w : world G) :
  _should_trigger_anomaly __init__ w
  = (inr (Qltb (fst (rs_random (rng w))) 0.15), after_random w).
Proof.
  unfold _should_trigger_anomaly, mbind, M_bind, random, after_random.
  by destruct (rs_random (rng w)).
Qed.

Lemma decided_trace timestamp force_anomaly
    (TAIL : datetime → bool → option string
            → M (world G) (gmap string pyval)) w Q :
  (∀ w', post (TAIL (default (clock w) timestamp)
                 (match force_anomaly with
                  | Some _ => true
                  | None => Qltb (fst (rs_random (rng w))) 0.15
                  end)
                 (decision __init__ force_anomaly w)) w' Q) →
  post
    (ts ← match timestamp with
          | None => datetime_now
          | Some t => mret t
          end;
     ia ← match force_anomaly with
          | Some _ => mret true
          | None => _should_trigger_anomaly __init__
          end;
     aty ← (if truthy force_anomaly then mret force_anomaly
            else if ia
                 then a ← _select_anomaly __init__; mret (Some a)
                 else mret None);
     TAIL ts ia aty) w Q.
Proof.
  intros HT. unfold post in *.
  rewrite (bind_run _ _ w (default (clock w) timestamp) w)
    by (by destruct timestamp).
  unfold decision in HT. destruct force_anomaly as [a|].
  - rewrite (bind_run _ _ w true w) by reflexivity.
    destruct (truthy (Some a)).
    + rewrite (bind_run _ _ w (Some a) w) by reflexivity. apply HT.
    + destruct (select_anomaly_run w) as (a' & Hrun & Hsel).
      rewrite (bind_run _ _ w (Some a') (after_random w))
        by (by rewrite (bind_run _ _ _ _ _ Hrun)).
      rewrite Hsel in HT. apply HT.
  - rewrite (bind_run _ _ w _ _ (should_trigger_run w)). cbn [truthy].
    destruct (Qltb _ 0.15).
    + destruct (select_anomaly_run (after_random w)) as (a' & Hrun & Hsel).
      rewrite (bind_run _ _ (after_random w) (Some a')
                 (after_random (after_random w)))
        by (by rewrite (bind_run _ _ _ _ _ Hrun)).
      rewrite Hsel in HT. apply HT.
    + rewrite (bind_run _ _ (after_random w) None (after_random w))
        by reflexivity.
      apply HT.
Qed.

(** ** The overrides leave the other fields alone *)

Lemma apply_override_keeps data m v k (w : world G) data' w' :
  apply_override data m v w = (inr data', w') →
  k ≠ m → data' !! k = data !! k.
Proof.
  unfold apply_override. destruct (String.eqb m "probability").
  { by intros [= <- <-]. }
  destruct v as [[a|a] hi|x]; [| |done]; unfold mbind, M_bind.
  - destruct (randint _ _ w) as [[e|z] w1]; [done|].
    intros [= <- <-] Hk. by rewrite lookup_insert_ne.
  - destruct (uniform _ _ w) as [[e|z] w1]; [done|].
    intros [= <- <-] Hk. by rewrite lookup_insert_ne.
Qed.

Lemma apply_overrides_keeps items data k (w : world G) data' w' :
  apply_overrides data items w = (inr data', w') →
  k ∉ (fst <$> items) → data' !! k = data !! k.
Proof.
  revert data w. induction items as [|[m v] items IH]; intros data w.
  { by intros [= <- <-]. }
  cbn [apply_overrides]. unfold mbind, M_bind.
  destruct (apply_override data m v w) as [[e|data1] w1] eqn:E; [done|].
  intros Hrun Hk. rewrite fmap_cons in Hk.
  apply not_elem_of_cons in Hk as [Hne Hk].
  rewrite (IH _ _ Hrun Hk). by eapply apply_override_keeps.
Qed.

Lemma assoc_elem_of {V} (d : list (string * V)) k v :
  assoc k d = Some v → (k, v) ∈ d.
Proof.
  induction d as [|[k' v'] d IH]; [done|]. simpl.
  destruct (String.eqb_spec k k') as [->|Hne].
  - intros [= ->]. by left.
  - intros Hk. right. by apply IH.
Qed.

(** No profile of the stock configuration has a ['timestamp'] entry. *)
Lemma profile_keeps_timestamp a data (w : world G) data' w' :
  (anomaly_config ← getitem (anomaly_types __init__) a;
   apply_overrides data anomaly_config) w = (inr data', w') →
  data' !! "timestamp" = data !! "timestamp".
Proof.
  unfold mbind, M_bind, getitem.
  destruct (assoc a (anomaly_types __init__)) as [cfg|] eqn:Ea; [|done].
  unfold mret, M_ret. intros Hrun.
  apply (apply_overrides_keeps _ _ _ _ _ _ Hrun).
  apply assoc_elem_of in Ea.
  assert (Hall : Forall (λ p, "timestamp" ∉ (fst <$> snd p))
                   (anomaly_types __init__)).
  { apply (bool_decide_unpack _). by vm_compute. }
  rewrite Forall_forall in Hall. apply (Hall _ Ea).
Qed.

Lemma share_selected_name (w : world G) a :
  share_selected __init__ (fst (rs_random (rng w))) = Some a →
  a ∈ profile_names __init__.
Proof.
  destruct (select_anomaly_run w) as (a' & Hrun & Hsel).
  rewrite Hsel. intros [= <-].
  destruct (yields_select_anomaly (G := G) w) as (a'' & w' & E & Ha).
  rewrite Hrun in E. by injection E as <- _.
Qed.

(** ** A call of [generate_reading], draw by draw *)

Lemma generate_reading_trace timestamp force_anomaly (w : world G) :
  post (generate_reading __init__ timestamp force_anomaly) w
    (λ r, ∀ data, r = inr data →
       dom data = fields ∧
       contained __init__ (decision __init__ force_anomaly w) data ∧
       data !! "timestamp"
       = Some (PStr (isoformat (default (clock w) timestamp)))).
Proof.
  unfold generate_reading. apply decided_trace. intros w0.
  eapply post_bind;
    [apply (yields_normal_int "heart_rate" 60 100); [reflexivity|lia]|].
  intros v1 w1 Hv1.
  eapply post_bind;
    [apply (yields_normal_float "spo2" (NInt 95) (NInt 100));
     [reflexivity | by vm_compute | reflexivity | reflexivity]|].
  intros v2 w2 Hv2.
  eapply post_bind;
    [apply (yields_normal_float "temperature" (NFloat 36.1) (NFloat 37.2));
     [reflexivity | by vm_compute | reflexivity | reflexivity]|].
  intros v3 w3 Hv3.
  eapply post_bind;
    [apply (yields_normal_int "systolic_bp" 110 130); [reflexivity|lia]|].
  intros v4 w4 Hv4.
  eapply post_bind;
    [apply (yields_normal_int "diastolic_bp" 70 85); [reflexivity|lia]|].
  intros v5 w5 Hv5.
  eapply post_bind;
    [apply (yields_normal_int "steps" 0 150); [reflexivity|lia]|].
  intros v6 w6 Hv6.
  eapply post_bind;
    [apply (yields_normal_int "stress_level" 1 5); [reflexivity|lia]|].
  intros v7 w7 Hv7.
  eapply post_bind;
    [apply (yields_normal_float "sleep_hours" (NFloat 6.5) (NFloat 9.0));
     [reflexivity | by vm_compute | reflexivity | reflexivity]|].
  intros v8 w8 Hv8.
  cbv zeta.
  match goal with
  | |- context [apply_overrides ?d] => set (data := d)
  end.
  assert (Hdom : dom data = fields) by reflexivity.
  assert (Hts : data !! "timestamp"
                = Some (PStr (isoformat (default (clock w) timestamp))))
    by reflexivity.
  assert (Hc : contained __init__ None data).
  { unfold contained, metrics.
    repeat apply Forall_cons_2; try apply Forall_nil_2;
      (eexists; split; [reflexivity | eassumption]). }
  clearbody data.
  assert (Hprofile : ∀ a w',
             a ∈ profile_names __init__ →
             post (anomaly_config ← getitem (anomaly_types __init__) a;
                   apply_overrides data anomaly_config) w'
               (λ r, ∀ data', r = inr data' →
                  dom data' = fields ∧ contained __init__ (Some a) data' ∧
                  data' !! "timestamp"
                  = Some (PStr (isoformat (default (clock w) timestamp))))).
  { intros a w' Ha.
    destruct (yields_apply_profile a data Ha Hdom Hc w')
      as (data' & w'' & E & Hdom' & Hc').
    unfold post. rewrite E. intros ? [= <-].
    split; [done|]. split; [done|].
    by rewrite (profile_keeps_timestamp _ _ _ _ _ E). }
  unfold decision. destruct force_anomaly as [f|].
  - cbn [andb]. destruct (truthy (Some f)) eqn:Ht.
    + rewrite Ht. cbn [default].
      destruct (assoc f (anomaly_types __init__)) as [cfg|] eqn:Ef.
      * apply Hprofile. by apply assoc_Some_fst in Ef.
      * by apply post_getitem_missing.
    + destruct (share_selected _ _) as [a|] eqn:Ea.
      * apply share_selected_name in Ea.
        rewrite (profile_name_truthy a Ea). cbn [default].
        by apply Hprofile.
      * cbn [truthy]. apply post_ret. by intros ? [= <-].
  - destruct (Qltb _ 0.15);
      [|cbn [andb]; apply post_ret; by intros ? [= <-]].
    cbn [andb].
    destruct (share_selected _ _) as [a|] eqn:Ea.
    + apply share_selected_name in Ea.
      rewrite (profile_name_truthy a Ea). cbn [default].
      by apply Hprofile.
    + cbn [truthy]. apply post_ret. by intros ? [= <-].
Qed.

(** Every reading carries the ISO text of the timestamp it was asked
    for, or of the clock when none was given; no override replaces
    it. *)
Theorem reading_timestamp timestamp force_anomaly (w : world G) data w' :
  generate_reading __init__ timestamp force_anomaly w = (inr data, w') →
  data !! "timestamp"
  = Some (PStr (isoformat (default (clock w) timestamp))).
Proof.
  intros Hrun.
  pose proof (generate_reading_trace timestamp force_anomaly w) as Hpost.
  unfold post in Hpost. rewrite Hrun in Hpost.
  by destruct (Hpost data eq_refl) as (_ & _ & Hts).
Qed.


(** A call returns a reading unless a name was forced that is neither
    empty nor configured: it never fails in any other case. *)
Theorem reading_unless_unknown timestamp force_anomaly (w : world G) :
  is_report (fst (generate_reading __init__ timestamp force_anomaly w)) = true
  ↔ ∀ a, force_anomaly = Some a → a = "" ∨ a ∈ profile_names __init__.
Proof.
  pose proof (generate_reading_post timestamp force_anomaly w) as Hpost.
  unfold post in Hpost.
  destruct (generate_reading __init__ timestamp force_anomaly w)
    as [[e|data] w']; cbn [fst is_report] in *.
  - destruct Hpost as (a & -> & Hne & Hnone & _).
    split; [done|]. intros Hall.
    destruct (Hall a eq_refl) as [?|Ha]; [done|].
    apply assoc_fst_Some in Ha as [cfg Hcfg]. congruence.
  - split; [|done]. intros _ a ->.
    destruct Hpost as (_ & [c|] & Hsel & _); [|done].
    destruct Hsel as [Hc Hf].
    destruct (String.eqb_spec a "") as [->|Hne]; [by left|].
    right. assert (Ht : truthy (Some a) = true).
    { simpl. by destruct (String.eqb_spec a ""). }
    specialize (Hf Ht). by injection Hf as ->.
Qed.

(** With nothing forced and a first draw of at least 0.15, the call
    returns a reading within the normal ranges, and such a reading
    triggers no detection rule of the analyser. *)
Theorem normal_without_anomaly timestamp (w : world G) :
  Qltb (fst (rs_random (rng w))) 0.15 = false →
  ∃ data w',
    generate_reading __init__ timestamp None w = (inr data, w') ∧
    contained __init__ None data ∧ flagged data = [].
Proof.
  intros Hu.
  pose proof (generate_reading_post timestamp None w) as Hpost.
  pose proof (generate_reading_trace timestamp None w) as Htrace.
  unfold post in Hpost, Htrace.
  destruct (generate_reading __init__ timestamp None w) as [[e|data] w'].
  { by destruct Hpost as (a & [=] & _). }
  exists data, w'. split; [done|].
  destruct (Htrace data eq_refl) as (_ & Hc & _).
  unfold decision in Hc. rewrite Hu in Hc.
  split; [done|]. by apply normal_unflagged.
Qed.


End Choice.

Lemma reading_timestamp_witness :
  ∃ data w',
    generate_reading __init__ None (Some "high_bp") (world0 7)
    = (inr data, w') ∧
    data !! "timestamp" = Some (PStr "2025-01-01T12:00:00").
Proof.
  assert (Hr : is_report (fst (generate_reading __init__ None
                                 (Some "high_bp") (world0 7))) = true)
    by (vm_compute; reflexivity).
  destruct (generate_reading __init__ None (Some "high_bp") (world0 7))
    as [[e|data] w'] eqn:E; [discriminate Hr|].
  exists data, w'. split; [reflexivity|].
  apply (reading_timestamp None (Some "high_bp") (world0 7) data w' E).
Defined.


Lemma normal_without_anomaly_witness :
  Qltb (fst (rs_random (rng (world0 (2 ^ 52))))) 0.15 = false ∧
  ∃ data w',
    generate_reading __init__ (Some noon) None (world0 (2 ^ 52))
    = (inr data, w') ∧
    contained __init__ None data ∧ flagged data = [].
Proof.
  split; [reflexivity|].
  apply (normal_without_anomaly (Some noon) (world0 (2 ^ 52))).
  reflexivity.
Defined.

End ReadingFacts.



(** * Properties of the time series *)

Module SeriesFacts.

Import AnalyzerFacts GeneratorFacts ReportFacts ScreeningFacts ReadingFacts.

(** ** Timestamps *)

Lemma timedelta_of_failure d s us e :
  timedelta_of d s us = inl e → e = OverflowError.
Proof.
  unfold timedelta_of. destruct (_ <? _); [|done]. by intros [= <-].
Qed.

Lemma datetime_add_failure t delta e :
  datetime_add t delta = inl e → e = OverflowError.
Proof.
  unfold datetime_add.
  destruct (timedelta_of (toordinal t) _ _) as [e1|d1] eqn:E1.
  { intros [= <-]. by eapply timedelta_of_failure. }
  cbn [mbind failure_bind].
  destruct (timedelta_of (days d1 + _) _ _) as [e2|d2] eqn:E2.
  { intros [= <-]. by eapply timedelta_of_failure. }
  cbn [mbind failure_bind].
  destruct (_ && _); [|by intros [= <-]].
  by destruct (_ord2ymd _) as [[? ?] ?].
Qed.

Lemma stamp_failure start interval i e :
  stamp start interval i = inl e → e = OverflowError.
Proof.
  unfold stamp, timedelta_minutes.
  destruct (timedelta_of 0 _ 0) as [e1|d1] eqn:E1.
  { intros [= <-]. by eapply timedelta_of_failure. }
  apply datetime_add_failure.
Qed.

(** ** Ordinals of valid dates *)

Ltac list_indices :=
  repeat match goal with
         | |- context [Z.to_nat (Zpos ?p)] =>
           let n := eval vm_compute in (Z.to_nat (Zpos p)) in
           change (Z.to_nat (Zpos p)) with n
         | H : context [Z.to_nat (Zpos ?p)] |- _ =>
           let n := eval vm_compute in (Z.to_nat (Zpos p)) in
           change (Z.to_nat (Zpos p)) with n in H
         end.

Lemma days_before_year_step y :
  _days_before_year (y + 1)
  = _days_before_year y + 365 + (if _is_leap y then 1 else 0).
Proof.
  unfold _days_before_year, _is_leap. cbv zeta.
  replace (y + 1 - 1) with y by lia.
  destruct (Z.eqb_spec (y mod 4) 0), (Z.eqb_spec (y mod 100) 0),
           (Z.eqb_spec (y mod 400) 0); cbn [andb orb negb];
    Z.div_mod_to_equations; lia.
Qed.

Lemma days_before_year_mono y y' :
  y ≤ y' → _days_before_year y ≤ _days_before_year y'.
Proof.
  intros Hle. unfold _days_before_year. cbv zeta.
  Z.div_mod_to_equations. lia.
Qed.

Lemma valid_datetime_spec t :
  valid_datetime t = true →
  (1 ≤ year t ≤ 9999) ∧ (1 ≤ month t ≤ 12) ∧
  (1 ≤ day t ≤ _days_in_month (year t) (month t)) ∧
  (0 ≤ hour t < 24) ∧ (0 ≤ minute t < 60) ∧ (0 ≤ second t < 60) ∧
  (0 ≤ microsecond t < 1000000).
Proof.
  unfold valid_datetime. rewrite !andb_true_iff.
  rewrite !Z.leb_le, !Z.ltb_lt. lia.
Qed.

Lemma toordinal_range t :
  valid_datetime t = true →
  1 ≤ toordinal t ≤ _days_before_year (year t + 1).
Proof.
  intros (Hy & Hm & Hd & _)%valid_datetime_spec.
  unfold toordinal, _ymd2ord. rewrite days_before_year_step.
  assert (Hpos : 0 ≤ _days_before_year (year t)).
  { change 0 with (_days_before_year 1). apply days_before_year_mono. lia. }
  destruct t as [y m d h mi s us]. cbn [year month day] in *.
  unfold _days_before_month, _days_in_month in *.
  generalize dependent (_days_before_year y). intros dby Hpos.
  assert (Hcases : m = 1 ∨ m = 2 ∨ m = 3 ∨ m = 4 ∨ m = 5 ∨ m = 6 ∨
                   m = 7 ∨ m = 8 ∨ m = 9 ∨ m = 10 ∨ m = 11 ∨ m = 12)
    by lia.
  clear Hm.
  destruct (_is_leap y);
    repeat (destruct Hcases as [-> | Hcases]); try subst m;
    list_indices; cbn in Hd |- *; lia.
Qed.

Lemma timedelta_of_ok d s us :
  Z.abs (d + (s + us / 1000000) / 86400) ≤ 999999999 →
  timedelta_of d s us
  = inr {| days := d + (s + us / 1000000) / 86400;
           seconds := (s + us / 1000000) mod 86400;
           microseconds := us mod 1000000 |}.
Proof.
  intros Hd. unfold timedelta_of. cbv zeta.
  by destruct (Z.ltb_spec 999999999
                 (Z.abs (d + (s + us / 1000000) / 86400))); [lia|].
Qed.

(** A valid time before the year 9999 can be moved forward by up to
    five hundred thousand minutes. *)
Lemma stamp_defined t interval i :
  valid_datetime t = true → year t ≤ 9998 →
  0 ≤ i * interval ≤ 500000 →
  returned (stamp t interval i) = true.
Proof.
  intros Hv Hy Hk.
  pose proof (toordinal_range t Hv) as Hord.
  assert (Hmax : _days_before_year (year t + 1) ≤ 3651694).
  { change 3651694 with (_days_before_year 9999).
    apply days_before_year_mono. lia. }
  apply valid_datetime_spec in Hv as (_ & _ & _ & Hh & Hmi & Hs & Hus).
  unfold stamp, timedelta_minutes, datetime_add.
  generalize dependent (toordinal t). intros ord Hord.
  generalize dependent (i * interval). intros k Hk.
  generalize dependent (_days_before_year (year t + 1)). intros dby ? ?.
  rewrite (timedelta_of_ok 0) by (Z.div_mod_to_equations; lia).
  cbn [mbind failure_bind].
  rewrite (timedelta_of_ok ord) by (Z.div_mod_to_equations; lia).
  cbn [mbind failure_bind days seconds microseconds].
  rewrite timedelta_of_ok by (Z.div_mod_to_equations; lia).
  cbn [mbind failure_bind days seconds microseconds].
  match goal with
  | |- context [(0 <? ?d) && (?d <=? _MAXORDINAL)] =>
    assert (Hd : 0 < d ≤ 3652059) by (Z.div_mod_to_equations; lia);
    destruct (Z.ltb_spec 0 d); [|lia];
    destruct (Z.leb_spec d _MAXORDINAL); [|unfold _MAXORDINAL in *; lia]
  end.
  cbn [andb]. by destruct (_ord2ymd _) as [[? ?] ?].
Qed.

(** The month and the day of a day of the year, counted from 0. *)
Lemma month_day_of (leap : bool) m d :
  1 ≤ m ≤ 12 →
  1 ≤ d ≤ (if (m =? 2) && leap then 29
           else nth (Z.to_nat m) _DAYS_IN_MONTH 0) →
  let n := nth (Z.to_nat m) _DAYS_BEFORE_MONTH 0
           + (if (2 <? m) && leap then 1 else 0) + d - 1 in
  let month := Z.shiftr (n + 50) 5 in
  let preceding :=
    nth (Z.to_nat month) _DAYS_BEFORE_MONTH 0
    + (if (2 <? month) && leap then 1 else 0) in
  (if n <? preceding then
     let month := month - 1 in
     let preceding :=
       preceding - (nth (Z.to_nat month) _DAYS_IN_MONTH 0
                    + (if (month =? 2) && leap then 1 else 0)) in
     (month, n - preceding + 1)
   else (month, n - preceding + 1)) = (m, d).
Proof.
  intros Hm Hd.
  assert (Hcases : m = 1 ∨ m = 2 ∨ m = 3 ∨ m = 4 ∨ m = 5 ∨ m = 6 ∨
                   m = 7 ∨ m = 8 ∨ m = 9 ∨ m = 10 ∨ m = 11 ∨ m = 12)
    by lia.
  clear Hm. cbv zeta. rewrite Z.shiftr_div_pow2 by lia.
  change (2 ^ 5) with 32.
  destruct leap;
    repeat (destruct Hcases as [-> | Hcases]); try subst m;
    list_indices; cbn in Hd |- *;
    match goal with
    | |- context [?x / 32] =>
      let q := fresh "q" in
      let Hq := fresh "Hq" in
      remember (x / 32) as q eqn:Hq;
      assert (q = 1 ∨ q = 2 ∨ q = 3 ∨ q = 4 ∨ q = 5 ∨ q = 6 ∨
              q = 7 ∨ q = 8 ∨ q = 9 ∨ q = 10 ∨ q = 11 ∨ q = 12)
        as Hqs by (subst q; Z.div_mod_to_equations; lia);
      repeat (destruct Hqs as [Hq' | Hqs]);
      try (exfalso; Z.div_mod_to_equations; lia)
    end;
    match goal with
    | Hk : ?q = Zpos ?p, He : ?q = _ / 32 |- _ =>
      rewrite Hk in He |- *; clear Hk
    end;
    repeat match goal with
           | |- context [Zpos ?p - 1] =>
             let v := eval vm_compute in (Zpos p - 1) in
             change (Zpos p - 1) with v
           end;
    list_indices; cbn;
    match goal with
    | |- context [?a <? ?b] => destruct (Z.ltb_spec a b)
    end;
    first [ f_equal; lia | exfalso; Z.div_mod_to_equations; lia ].
Qed.


Lemma divmod_eq k q r n :
  0 ≤ r < k → n = k * q + r → n / k = q ∧ n mod k = r.
Proof.
  intros Hr ->. split.
  - symmetry. by apply (Z.div_unique _ _ q r); [left|].
  - symmetry. by apply (Z.mod_unique _ _ q r); [left|].
Qed.

(** A year, counted from 0, taken apart by 400, 100, 4 and 1. *)
Lemma year_cycles y :
  1 ≤ y →
  ∃ a b c e,
    0 ≤ a ∧ 0 ≤ b ≤ 3 ∧ 0 ≤ c ≤ 24 ∧ 0 ≤ e ≤ 3 ∧
    y = 400 * a + 100 * b + 4 * c + e + 1 ∧
    _days_before_year y = 146097 * a + 36524 * b + 1461 * c + 365 * e ∧
    _is_leap y = (e =? 3) && (negb (c =? 24) || (b =? 3)).
Proof.
  intros Hy.
  exists ((y - 1) / 400), ((y - 1) mod 400 / 100),
         ((y - 1) mod 100 / 4), ((y - 1) mod 4).
  unfold _days_before_year, _is_leap. cbv zeta.
  repeat split; Z.div_mod_to_equations; lia.
Qed.

Lemma day_of_year_range (leap : bool) m d :
  1 ≤ m ≤ 12 →
  1 ≤ d ≤ (if (m =? 2) && leap then 29
           else nth (Z.to_nat m) _DAYS_IN_MONTH 0) →
  let doy := nth (Z.to_nat m) _DAYS_BEFORE_MONTH 0
             + (if (2 <? m) && leap then 1 else 0) + d - 1 in
  0 ≤ doy ≤ 364 + (if leap then 1 else 0) ∧
  (doy = 365 → m = 12 ∧ d = 31).
Proof.
  intros Hm Hd.
  assert (Hcases : m = 1 ∨ m = 2 ∨ m = 3 ∨ m = 4 ∨ m = 5 ∨ m = 6 ∨
                   m = 7 ∨ m = 8 ∨ m = 9 ∨ m = 10 ∨ m = 11 ∨ m = 12)
    by lia.
  clear Hm. cbv zeta.
  destruct leap;
    repeat (destruct Hcases as [-> | Hcases]); try subst m;
    list_indices; cbn in Hd |- *; lia.
Qed.

Lemma ord2ymd_ymd2ord y m d :
  1 ≤ y → 1 ≤ m ≤ 12 → 1 ≤ d ≤ _days_in_month y m →
  _ord2ymd (_ymd2ord y m d) = (y, m, d).
Proof.
  intros Hy Hm Hd.
  destruct (year_cycles y Hy)
    as (a & b & c & e & Ha & Hb & Hc & He & Hyear & Hdby & Hleap).
  unfold _days_in_month in Hd.
  pose proof (day_of_year_range (_is_leap y) m d Hm Hd) as [Hdoy H365].
  pose proof (month_day_of (_is_leap y) m d Hm Hd) as Hmd.
  cbv zeta in Hdoy, H365, Hmd.
  unfold _ymd2ord, _days_before_month. rewrite Hdby.
  remember (nth (Z.to_nat m) _DAYS_BEFORE_MONTH 0
            + (if (2 <? m) && _is_leap y then 1 else 0) + d - 1)
    as doy eqn:Edoy.
  replace (146097 * a + 36524 * b + 1461 * c + 365 * e
           + (nth (Z.to_nat m) _DAYS_BEFORE_MONTH 0
              + (if (2 <? m) && _is_leap y then 1 else 0)) + d)
    with (146097 * a + 36524 * b + 1461 * c + 365 * e + doy + 1) by lia.
  unfold _ord2ymd, _DI400Y, _DI100Y, _DI4Y. cbv zeta.
  replace (146097 * a + 36524 * b + 1461 * c + 365 * e + doy + 1 - 1)
    with (146097 * a + (36524 * b + 1461 * c + 365 * e + doy)) by lia.
  assert (Hl : doy = 365 → e = 3 ∧ (c ≠ 24 ∨ b = 3)).
  { intros H5. rewrite Hleap in Hdoy.
    destruct (Z.eqb_spec e 3), (Z.eqb_spec c 24), (Z.eqb_spec b 3);
      cbn [andb orb negb] in Hdoy; lia. }
  assert (Hdoy' : 0 ≤ doy ≤ 365) by (destruct (_is_leap y); lia).
  destruct (divmod_eq 146097 a (36524 * b + 1461 * c + 365 * e + doy)
              (146097 * a + (36524 * b + 1461 * c + 365 * e + doy)))
    as [-> ->]; [lia | lia |].
  set (R1 := 36524 * b + 1461 * c + 365 * e + doy).
  assert (Hcase :
    (doy = 365 ∧ b = 3 ∧ c = 24 ∧ e = 3 ∧ m = 12 ∧ d = 31) ∨
    (doy = 365 ∧ e = 3 ∧ (c ≠ 24 ∨ b ≠ 3) ∧ (c ≠ 24 ∨ b = 3)
     ∧ m = 12 ∧ d = 31) ∨
    doy ≤ 364).
  { destruct (Z.eq_dec doy 365) as [H5|H5]; [|lia].
    destruct (Hl H5) as [-> Hcb]. destruct (H365 H5) as [-> ->]. lia. }
  destruct Hcase as [(H5 & -> & -> & -> & -> & ->)
                    |[(H5 & -> & Hcb & Hcb' & -> & ->)|H364]].
  - destruct (divmod_eq 36524 4 0 R1) as [-> ->]; [lia | subst R1; lia |].
    replace (0 / 1461) with 0 by done. replace (0 mod 1461) with 0 by done.
    replace (0 / 365) with 0 by done. cbn [Z.eqb orb].
    f_equal. f_equal. lia.
  - destruct (divmod_eq 36524 b (1461 * c + 1460) R1) as [-> ->];
      [lia | subst R1; lia |].
    destruct (divmod_eq 1461 c 1460 (1461 * c + 1460)) as [-> ->];
      [lia | lia |].
    replace (1460 / 365) with 4 by done. cbn [Z.eqb orb].
    f_equal. f_equal. lia.
  - destruct (divmod_eq 36524 b (1461 * c + 365 * e + doy) R1) as [-> ->];
      [lia | subst R1; lia |].
    destruct (divmod_eq 1461 c (365 * e + doy)
                (1461 * c + 365 * e + doy)) as [-> ->]; [lia | lia |].
    destruct (divmod_eq 365 e doy (365 * e + doy)) as [-> ->];
      [lia | lia |].
    destruct (Z.eqb_spec e 4); [lia|]. destruct (Z.eqb_spec b 4); [lia|].
    cbn [orb]. rewrite <- Hleap.
    destruct (doy <? _);
      (f_equal; [f_equal; [lia | exact (f_equal fst Hmd)]
                | exact (f_equal snd Hmd)]).
Qed.

(** Adding nothing to a valid time gives the time itself. *)
Lemma stamp_zero t interval :
  valid_datetime t = true → stamp t interval 0 = inr t.
Proof.
  intros Hv.
  pose proof (toordinal_range t Hv) as Hord.
  assert (Hmax : _days_before_year (year t + 1) ≤ 3652059).
  { change 3652059 with (_days_before_year 10000).
    apply days_before_year_mono.
    apply valid_datetime_spec in Hv. lia. }
  apply valid_datetime_spec in Hv as (Hy & Hm & Hd & Hh & Hmi & Hs & Hus).
  unfold stamp, timedelta_minutes, datetime_add.
  rewrite Z.mul_0_l.
  rewrite (timedelta_of_ok 0) by (Z.div_mod_to_equations; lia).
  cbn [mbind failure_bind].
  rewrite (timedelta_of_ok (toordinal t)) by (Z.div_mod_to_equations; lia).
  cbn [mbind failure_bind days seconds microseconds].
  rewrite timedelta_of_ok by (Z.div_mod_to_equations; lia).
  cbn [mbind failure_bind days seconds microseconds].
  match goal with
  | |- context [(0 <? ?x) && (?x <=? _MAXORDINAL)] =>
    assert (Hx : x = toordinal t) by (Z.div_mod_to_equations; lia);
    rewrite !Hx
  end.
  destruct (Z.ltb_spec 0 (toordinal t)); [|lia].
  destruct (Z.leb_spec (toordinal t) _MAXORDINAL);
    [|unfold _MAXORDINAL in *; lia].
  cbn [andb]. unfold toordinal. rewrite ord2ymd_ymd2ord by lia.
  destruct t as [y m d h mi s us]. cbn [year month day hour minute second microsecond] in *.
  f_equal. f_equal; Z.div_mod_to_equations; lia.
Qed.


Section Loop.
Context {G : Type} `{RandomSource G}.

(** An unforced reading is always returned. *)
Lemma unforced_reading t (w : world G) :
  ∃ r w', generate_reading __init__ (Some t) None w = (inr r, w') ∧
          series_reading t r.
Proof.
  pose proof (generate_reading_post (Some t) None w) as Hpost.
  pose proof (generate_reading_trace (Some t) None w) as Htrace.
  unfold post in Hpost, Htrace.
  destruct (generate_reading __init__ (Some t) None w) as [[e|r] w'].
  { by destruct Hpost as (a & [=] & _). }
  exists r, w'. split; [done|].
  destruct Hpost as (Hdom & Hc).
  destruct (Htrace r eq_refl) as (_ & _ & Hts).
  by split; [|split].
Qed.

(** The loop either stamps and draws one reading for every index, in
    order, or stops at an index whose timestamp overflows. *)
Lemma series_loop_post start interval indices acc (w : world G) :
  match fst (series_loop __init__ start interval indices acc w) with
  | inr out =>
    ∃ new, out = acc ++ new ∧
           Forall2 (λ i r, ∃ t, stamp start interval i = inr t ∧
                                series_reading t r) indices new
  | inl e =>
    e = OverflowError ∧
    ∃ i, i ∈ indices ∧ stamp start interval i = inl OverflowError
  end.
Proof.
  revert acc w. induction indices as [|i indices IH]; intros acc w.
  { cbn. exists []. by rewrite app_nil_r. }
  cbn [series_loop]. unfold mbind at 1. unfold T_bind, fallible.
  fold (stamp start interval i).
  destruct (stamp start interval i) as [e|t] eqn:Et.
  { cbn [fst]. pose proof (stamp_failure _ _ _ _ Et) as ->.
    split; [done|]. exists i. split; [by left|done]. }
  unfold mbind at 1. unfold T_bind, embed.
  destruct (unforced_reading t w) as (r & w' & -> & Hr).
  specialize (IH (acc ++ [r]) w').
  destruct (fst (series_loop _ _ _ _ _ _)) as [e|out].
  - destruct IH as (-> & j & Hj & Hs). split; [done|].
    exists j. split; [by right|done].
  - destruct IH as (new & -> & Hall).
    exists (r :: new). split; [by rewrite <- app_assoc|].
    constructor; [by exists t|done].
Qed.

Lemma generate_time_series_run self duration interval (w : world G) :
  interval ≠ 0 →
  generate_time_series self duration interval w
  = series_loop self (clock w) interval (seqZ 0 (duration / interval)) [] w.
Proof.
  intros Hi. unfold generate_time_series, floordiv.
  destruct (Z.eqb_spec interval 0); done.
Qed.

Lemma seqZ_lookup_nat n k i :
  seqZ 0 n !! k = Some i → i = Z.of_nat k ∧ 0 ≤ i < n.
Proof. intros Hl%lookup_seqZ. lia. Qed.

(** What the callers of a series rely on. *)
Lemma series_dom duration interval (w : world G) rs w' :
  generate_time_series __init__ duration interval w = (inr rs, w') →
  length rs = Z.to_nat (duration / interval) ∧
  Forall (λ r, dom r = fields) rs.
Proof.
  intros Hrun.
  assert (Hi : interval ≠ 0) by (by intros ->).
  rewrite generate_time_series_run in Hrun by done.
  pose proof (series_loop_post (clock w) interval
                (seqZ 0 (duration / interval)) [] w) as Hpost.
  rewrite Hrun in Hpost. cbn [fst] in Hpost.
  destruct Hpost as (new & -> & Hall). rewrite app_nil_l. split.
  - by rewrite <- (Forall2_length _ _ _ Hall), length_seqZ.
  - apply Forall_lookup. intros k r Hk.
    by destruct (Forall2_lookup_r _ _ _ _ _ Hall Hk)
      as (i & _ & t & _ & Hdom & _).
Qed.


(** An interval of zero minutes ends the call in [ZeroDivisionError]
    before anything is drawn, for every generator and duration. *)
Theorem series_zero_interval self duration (w : world G) :
  generate_time_series self duration 0 w = (inl ZeroDivisionError, w).
Proof. reflexivity. Qed.

(** When the duration holds no whole interval (in particular when it
    is shorter than the interval), the call returns the empty list
    and draws nothing: not even a first reading is taken. *)
Theorem series_without_interval self duration interval (w : world G) :
  interval ≠ 0 → duration / interval ≤ 0 →
  generate_time_series self duration interval w = (inr [], w).
Proof.
  intros Hi Hn. rewrite generate_time_series_run by done.
  unfold seqZ. by replace (Z.to_nat (duration / interval)) with 0%nat by lia.
Qed.

(** A returned series has [duration // interval] readings; the k-th
    carries the start time moved on by k intervals, has the nine
    fields, is contained in the ranges of a profile, and triggers at
    most one detection rule of the analyser. *)
Theorem series_readings duration interval (w : world G) rs w' :
  generate_time_series __init__ duration interval w = (inr rs, w') →
  length rs = Z.to_nat (duration / interval) ∧
  ∀ k r, rs !! k = Some r →
    ∃ t, stamp (clock w) interval (Z.of_nat k) = inr t ∧
         series_reading t r ∧ 0 ≤ rules_triggered r ≤ 1.
Proof.
  intros Hrun.
  assert (Hi : interval ≠ 0) by (by intros ->).
  rewrite generate_time_series_run in Hrun by done.
  pose proof (series_loop_post (clock w) interval
                (seqZ 0 (duration / interval)) [] w) as Hpost.
  rewrite Hrun in Hpost. cbn [fst] in Hpost.
  destruct Hpost as (new & -> & Hall). rewrite app_nil_l. split.
  - rewrite <- (Forall2_length _ _ _ Hall), length_seqZ. done.
  - intros k r Hk.
    destruct (Forall2_lookup_r _ _ _ _ _ Hall Hk)
      as (i & Hi' & t & Ht & Hr).
    apply seqZ_lookup_nat in Hi' as [-> _].
    exists t. split; [done|]. split; [done|].
    destruct Hr as (_ & _ & chosen & Hsel & Hc).
    rewrite rules_triggered_flagged.
    pose proof (contained_flagged_once _ _ _ Hsel Hc). lia.
Qed.

(** The call fails in two ways only: [ZeroDivisionError] for an
    interval of zero, and [OverflowError] when one of the timestamps
    cannot be represented. *)
Theorem series_failure duration interval (w : world G) e :
  fst (generate_time_series __init__ duration interval w) = inl e →
  (e = ZeroDivisionError ∧ interval = 0) ∨
  (e = OverflowError ∧ interval ≠ 0 ∧
   ∃ k, 0 ≤ k < duration / interval ∧
        stamp (clock w) interval k = inl OverflowError).
Proof.
  destruct (Z.eq_dec interval 0) as [->|Hi].
  { intros [= <-]. by left. }
  rewrite generate_time_series_run by done.
  pose proof (series_loop_post (clock w) interval
                (seqZ 0 (duration / interval)) [] w) as Hpost.
  intros Hrun. rewrite Hrun in Hpost.
  destruct Hpost as (-> & k & Hk & Hs). right.
  split; [done|]. split; [done|]. exists k. split; [|done].
  apply elem_of_seqZ in Hk. lia.
Qed.

(** From a valid clock before the year 9999, a positive interval and a
    duration of at most 500000 minutes always give a series. *)
Theorem series_returns duration interval (w : world G) :
  valid_datetime (clock w) = true → year (clock w) ≤ 9998 →
  0 < interval → duration ≤ 500000 →
  ∃ rs w',
    generate_time_series __init__ duration interval w = (inr rs, w') ∧
    length rs = Z.to_nat (duration / interval).
Proof.
  intros Hv Hy Hi Hd.
  rewrite generate_time_series_run by lia.
  pose proof (series_loop_post (clock w) interval
                (seqZ 0 (duration / interval)) [] w) as Hpost.
  destruct (series_loop __init__ (clock w) interval _ [] w)
    as [[e|rs] w'] eqn:E; cbn [fst] in Hpost.
  - destruct Hpost as (_ & k & Hk & Hs).
    apply elem_of_seqZ in Hk.
    assert (Hok : returned (stamp (clock w) interval k) = true).
    { apply stamp_defined; [done..|].
      assert (k * interval ≤ (duration / interval) * interval) by nia.
      pose proof (Z.mul_div_le duration interval Hi). nia. }
    by rewrite Hs in Hok.
  - exists rs, w'. split; [done|].
    destruct Hpost as (new & -> & Hall). rewrite app_nil_l.
    by rewrite <- (Forall2_length _ _ _ Hall), length_seqZ.
Qed.

(** From a valid clock, the first reading of a series carries the
    current time: moving the start time on by no interval gives the
    start time back, through the day count and back. *)
Theorem series_starts_now duration interval (w : world G) rs w' r :
  valid_datetime (clock w) = true →
  generate_time_series __init__ duration interval w = (inr rs, w') →
  rs !! 0%nat = Some r →
  r !! "timestamp" = Some (PStr (isoformat (clock w))).
Proof.
  intros Hv Hrun Hr.
  assert (Hi : interval ≠ 0) by (by intros ->).
  rewrite generate_time_series_run in Hrun by done.
  pose proof (series_loop_post (clock w) interval
                (seqZ 0 (duration / interval)) [] w) as Hpost.
  rewrite Hrun in Hpost. cbn [fst] in Hpost.
  destruct Hpost as (new & -> & Hall). rewrite app_nil_l in Hr.
  destruct (Forall2_lookup_r _ _ _ _ _ Hall Hr) as (i & Hi' & t & Ht & Hrd).
  apply seqZ_lookup_nat in Hi' as [-> _].
  change (Z.of_nat 0) with 0 in Ht.
  rewrite (stamp_zero _ _ Hv) in Ht. injection Ht as <-.
  by destruct Hrd as (_ & Hts & _).
Qed.

End Loop.

Lemma series_without_interval_witness :
  generate_time_series __init__ 4 5 (world0 5) = (inr [], world0 5).
Proof. apply (series_without_interval __init__ 4 5 (world0 5)); done. Defined.

Lemma series_returns_witness :
  ∃ rs w',
    generate_time_series __init__ (24 * 60) (5 * 60) (world0 5)
    = (inr rs, w') ∧
    length rs = 4%nat.
Proof.
  apply (series_returns (24 * 60) (5 * 60) (world0 5));
    [reflexivity | cbn; lia | lia | lia].
Defined.

Lemma series_readings_witness :
  ∃ rs w',
    generate_time_series __init__ 120 60 (world0 5) = (inr rs, w') ∧
    length rs = 2%nat ∧
    ∀ k r, rs !! k = Some r →
      ∃ t, stamp (clock (world0 5)) 60 (Z.of_nat k) = inr t ∧
           series_reading t r ∧ 0 ≤ rules_triggered r ≤ 1.
Proof.
  assert (Hr : returned (fst (generate_time_series __init__ 120 60
                                (world0 5))) = true)
    by (vm_compute; reflexivity).
  destruct (generate_time_series __init__ 120 60 (world0 5))
    as [[e|rs] w'] eqn:E; [discriminate Hr|].
  exists rs, w'. split; [reflexivity|].
  apply (series_readings 120 60 (world0 5) rs w' E).
Defined.

Lemma series_starts_now_witness :
  ∃ rs w' r,
    generate_time_series __init__ 120 60 (world0 5) = (inr rs, w') ∧
    rs !! 0%nat = Some r ∧
    r !! "timestamp" = Some (PStr "2025-01-01T12:00:00").
Proof.
  assert (Hr : returned (fst (generate_time_series __init__ 120 60
                                (world0 5))
                         ≫= λ rs, match rs !! 0%nat with
                                  | Some _ => inr ()
                                  | None => inl OverflowError
                                  end) = true)
    by (vm_compute; reflexivity).
  destruct (generate_time_series __init__ 120 60 (world0 5))
    as [[e|rs] w'] eqn:E; [discriminate Hr|].
  cbn [fst mbind failure_bind] in Hr.
  destruct (rs !! 0%nat) as [r|] eqn:E0; [|discriminate Hr].
  exists rs, w', r. split; [reflexivity|]. split; [exact E0|].
  apply (series_starts_now 120 60 (world0 5) rs w' r eq_refl E E0).
Defined.

Lemma series_failure_witness :
  fst (generate_time_series __init__ 60 0 (world0 5)) = inl ZeroDivisionError ∧
  ((ZeroDivisionError = ZeroDivisionError ∧ 0 = 0) ∨
   (ZeroDivisionError = OverflowError ∧ 0 ≠ 0 ∧
    ∃ k, 0 ≤ k < 60 / 0 ∧
         stamp (clock (world0 5)) 0 k = inl OverflowError)).
Proof.
  split; [reflexivity|].
  apply (series_failure 60 0 (world0 5) ZeroDivisionError). reflexivity.
Defined.

End SeriesFacts.



(** * Properties of the client and of the generator's [main] *)

Module DemoFacts.

Import AnalyzerFacts GeneratorFacts ReportFacts ScreeningFacts ReadingFacts
  SeriesFacts.

Section Client.
Context {G O : Type} `{Outside O}.

(** ** One request *)

Lemma json_get_object members key default (s : env G O) :
  json_get (JObject members) key default s
  = (inr (match assoc key members with
          | Some v => v
          | None => default
          end), s).
Proof. reflexivity. Qed.

(** With a server and a key configured, [_request] sends one request
    and ends as the answer and the checks on it decide. *)
Lemma request_run method path json (s : env G O) :
  configured (config s) = true →
  let r := {| method := method;
              url := (SUPABASE_URL (config s)
                      +:+ "/functions/v1/make-server-51edddfe") +:+ path;
              headers := [("Content-Type", "application/json");
                          ("Authorization",
                           "Bearer " +:+ SUPABASE_ANON_KEY (config s))];
              payload := json; timeout := 15 |} in
  _request method path json s
  = (match fst (answer r (outside s)) with
     | Some resp => verdict resp
     | None => inl RequestException
     end,
     {| inner := inner s; outside := snd (answer r (outside s));
        config := config s;
        trace := trace s ++ [Requested r (fst (answer r (outside s)))] |}).
Proof.
  intros Hc r. unfold configured in Hc.
  apply andb_true_iff in Hc as [Hu Hk].
  apply negb_true_iff in Hu, Hk.
  unfold _request. unfold mbind at 1. unfold P_bind, FUNCTION_BASE.
  unfold mbind at 1. unfold P_bind, _headers. rewrite Hu, Hk. cbn [orb].
  unfold mbind at 1. unfold P_bind, requests_request.
  fold r. destruct (answer r (outside s)) as [[resp|] o]; [|reflexivity].
  cbn [fst snd inner outside config trace].
  unfold verdict.
  destruct resp as [okb code [data|] txt]; cbn [body ok status_code text].
  - destruct data as [| | | | | |members];
      try (by destruct okb).
    unfold mbind at 1. unfold P_bind.
    destruct okb; cbn [negb andb].
    + unfold mbind at 1. unfold P_bind. rewrite json_get_object.
      unfold mret, P_ret. unfold default.
      destruct (assoc "success" members) as [v|]; cbn [from_option id];
        [destruct (json_truthy v)|]; cbn [negb json_truthy];
        try reflexivity;
        unfold mbind, P_bind; rewrite json_get_object;
        by destruct (assoc "error" members).
    + unfold mret, P_ret. unfold mbind, P_bind. rewrite json_get_object.
      unfold default. by destruct (assoc "error" members).
  - unfold mbind at 1. unfold P_bind.
    destruct okb; cbn [negb andb]; reflexivity.
Qed.

Lemma request_unconfigured method path json (s : env G O) :
  configured (config s) = false →
  ∃ message, _request method path json s = (inl (SupabaseError message), s).
Proof.
  intros Hc. unfold configured in Hc.
  unfold _request. unfold mbind at 1. unfold P_bind, FUNCTION_BASE.
  unfold mbind at 1. unfold P_bind, _headers.
  destruct (String.eqb (SUPABASE_URL (config s)) ""); [by eexists|].
  destruct (String.eqb (SUPABASE_ANON_KEY (config s)) ""); [by eexists|].
  done.
Qed.

(** [post_health_reading] sends the nine fields of the reading. *)
Lemma post_health_reading_run patient_id reading (s : env G O) :
  configured (config s) = true →
  let r := health_request (config s) patient_id reading in
  post_health_reading patient_id reading s
  = (match fst (answer r (outside s)) with
     | Some resp => verdict resp
     | None => inl RequestException
     end,
     {| inner := inner s; outside := snd (answer r (outside s));
        config := config s;
        trace := trace s ++ [Requested r (fst (answer r (outside s)))] |}).
Proof.
  intros Hc r. unfold post_health_reading.
  by rewrite request_run.
Qed.

Lemma verdict_cases resp :
  (∃ data, verdict resp = inr data) ∨
  (∃ message, verdict resp = inl (SupabaseError message)) ∨
  (verdict resp = inl AttributeError ∧
   match body resp with
   | Some (JObject _) | None => False
   | Some _ => True
   end).
Proof.
  unfold verdict. destruct (body resp) as [[| | | | | |members]|];
    try (by right; right).
  - destruct (_ && _); [left|right; left]; by eexists.
  - cbn. rewrite andb_false_r. right; left. by eexists.
Qed.

(** With a server and a key configured, [post_health_reading] sends
    exactly one request; its payload holds the nine fields of a
    reading, with the values of the reading (so person_id is not
    sent, and a generated reading leaves none of them empty); and the
    call ends as the answer decides: in the transport's exception when
    there is no answer, in [AttributeError] when the body is JSON but
    not an object, in [SupabaseError] when the response is not ok, not
    JSON or without a true success, and in the data otherwise. *)
Theorem reading_request patient_id reading (s : env G O) :
  configured (config s) = true →
  ∃ r sent,
    payload r = Some sent ∧ fst <$> sent = payload_keys ∧
    (∀ k v, (k, v) ∈ sent → v = reading !! k) ∧
    (fields ⊆ dom reading → Forall (λ kv, is_Some (snd kv)) sent) ∧
    trace (snd (post_health_reading patient_id reading s))
    = trace s ++ [Requested r (fst (answer r (outside s)))] ∧
    fst (post_health_reading patient_id reading s)
    = match fst (answer r (outside s)) with
      | Some resp => verdict resp
      | None => inl RequestException
      end.
Proof.
  intros Hc. rewrite post_health_reading_run by done.
  exists (health_request (config s) patient_id reading),
         ((λ k, (k, reading !! k)) <$> payload_keys).
  split; [done|]. split; [done|]. split; [|split; [|done]].
  - intros k v Hin. apply list_elem_of_fmap in Hin as (k' & [= -> ->] & _).
    done.
  - intros Hsub. apply Forall_fmap, Forall_forall. intros k Hk. cbn.
    apply elem_of_dom, Hsub. revert Hk. unfold payload_keys.
    rewrite !elem_of_cons, elem_of_nil.
    intros Hk. repeat destruct Hk as [->|Hk]; try done;
      by apply (bool_decide_unpack _).
Qed.

End Client.

(** ** The events of the pushing phase *)

Lemma shape_quiet push push' evs : shape push push' evs → quiet evs.
Proof.
  unfold shape, quiet. destruct push.
  - intros [[_ Hr] | (_ & pre & l & v & -> & Hr)].
    + eapply Forall_impl; [exact Hr|]. by intros [].
    + apply Forall_app. split.
      * eapply Forall_impl; [exact Hr|]. by intros [].
      * by repeat constructor.
  - intros [_ ->]. constructor.
Qed.

Lemma shape_refl push : shape push push [].
Proof. destruct push; simpl; [left|]; split; by try constructor. Qed.

Lemma shape_app a b c evs1 evs2 :
  shape a b evs1 → shape b c evs2 → shape a c (evs1 ++ evs2).
Proof.
  unfold shape. destruct a.
  - intros [[-> H1] | (-> & pre & l & v & -> & H1)].
    + intros [[-> H2] | (-> & pre & l & v & -> & H2)].
      * left. split; [done|]. by apply Forall_app.
      * right. split; [done|]. exists (evs1 ++ pre), l, v.
        split; [by rewrite app_assoc|]. by apply Forall_app.
    + intros [-> ->]. right. split; [done|].
      exists pre, l, v. by rewrite app_nil_r.
  - intros [-> ->] [-> ->]. done.
Qed.

(** A report among requests and writes is where the requests end. *)
Lemma one_report reqs x' tail pre x post :
  Forall (λ ev, is_request ev = true) reqs →
  Forall (λ ev, is_write ev = true) tail →
  is_request x = false → is_write x = false → is_request x' = false →
  reqs ++ x' :: tail = pre ++ x :: post →
  pre = reqs ∧ post = tail.
Proof.
  intros Hreq Htail Hx1 Hx2 Hx'. revert pre.
  induction Hreq as [|r reqs Hr _ IH]; intros pre Heq.
  - destruct pre as [|e pre]; cbn in Heq.
    + by injection Heq as _ <-.
    + injection Heq as _ Heq. exfalso.
      rewrite Forall_forall in Htail.
      assert (Hin : x ∈ tail).
      { rewrite Heq. apply elem_of_app. right. by left. }
      specialize (Htail _ Hin). congruence.
  - destruct pre as [|e pre]; cbn in Heq.
    + injection Heq as Heq _. congruence.
    + injection Heq as <- Heq. destruct (IH _ Heq) as [-> ->]. done.
Qed.

Section Main.
Context {G O : Type} `{RandomSource G} `{Outside O}.

(** One pass through the [if] that pushes a reading. *)
Lemma push_step_post patient_id reading push (s : env G O) :
  match
    (if push && truthy patient_id then
       except_supabase
         (_ ← post_health_reading (default "" patient_id) reading;
          mret push)
         (λ e, _ ← print "[Supabase error] " e; mret false)
     else mret push) s
  with
  | (inr push', s') =>
    inner s' = inner s ∧ config s' = config s ∧
    ∃ evs, trace s' = trace s ++ evs ∧ shape push push' evs
  | (inl c, s') =>
    inner s' = inner s ∧ config s' = config s ∧
    ∃ evs, trace s' = trace s ++ evs ∧ quiet evs
  end.
Proof.
  destruct (push && truthy patient_id) eqn:Hp.
  - apply andb_true_iff in Hp as [-> _].
    unfold except_supabase. unfold mbind at 1. unfold P_bind.
    destruct (configured (config s)) eqn:Hc.
    + rewrite post_health_reading_run by done.
      set (r := health_request _ _ _).
      destruct (answer r (outside s)) as [[resp|] o]; cbn [fst snd].
      * destruct (verdict_cases resp)
          as [[data ->] | [[message ->] | [-> _]]].
        -- simpl. split; [done|]. split; [done|]. eexists. split; [done|].
           left. split; [done|]. by repeat constructor.
        -- simpl. split; [done|]. split; [done|]. eexists.
           split; [by rewrite <- app_assoc|].
           right. split; [done|]. eexists [_], _, _.
           split; [done|]. by repeat constructor.
        -- simpl. split; [done|]. split; [done|]. eexists. split; [done|].
           by repeat constructor.
      * simpl. split; [done|]. split; [done|]. eexists. split; [done|].
        by repeat constructor.
    + destruct (request_unconfigured "POST"
                  ("/patient/" +:+ default "" patient_id +:+ "/health-data")
                  (Some ((λ k, (k, reading !! k)) <$> payload_keys)) s Hc)
        as (message & Hrun).
      unfold post_health_reading. rewrite Hrun.
      simpl. split; [done|]. split; [done|]. eexists. split; [done|].
      right. split; [done|]. eexists [], _, _. by split.
  - simpl. split; [done|]. split; [done|]. exists [].
    split; [by rewrite app_nil_r|].
    destruct push; [|done]. left. split; [done|]. constructor.
Qed.

Lemma reading_loop_post patient_id person readings all push (s : env G O) :
  match reading_loop patient_id person readings all push s with
  | (inr state, s') =>
    fst state = all ++ (insert "person_id" (PStr person) <$> readings) ∧
    inner s' = inner s ∧ config s' = config s ∧
    ∃ evs, trace s' = trace s ++ evs ∧ shape push (snd state) evs
  | (inl c, s') =>
    inner s' = inner s ∧ config s' = config s ∧
    ∃ evs, trace s' = trace s ++ evs ∧ quiet evs
  end.
Proof.
  revert all push s. induction readings as [|reading readings IH];
    intros all push s.
  { simpl. rewrite app_nil_r. split; [done|]. split; [done|]. split; [done|].
    exists []. rewrite app_nil_r. split; [done|]. apply shape_refl. }
  cbn [reading_loop]. cbv zeta. unfold mbind at 1. unfold P_bind.
  pose proof (push_step_post patient_id
                (<["person_id" := PStr person]> reading) push s) as Hstep.
  match goal with
  | |- (let (_, _) := (let (_, _) := ?x in _) in _) =>
    change (let (r, s') := x in
            match r with
            | inl _ => inner s' = inner s ∧ config s' = config s ∧
                       ∃ evs, trace s' = trace s ++ evs ∧ quiet evs
            | inr push' => inner s' = inner s ∧ config s' = config s ∧
                           ∃ evs, trace s' = trace s ++ evs
                                  ∧ shape push push' evs
            end) in Hstep;
    destruct x as [[c|push1] s1]
  end.
  { exact Hstep. }
  destruct Hstep as (Hin & Hcfg & evs1 & Htr & Hsh).
  specialize (IH (all ++ [<["person_id" := PStr person]> reading]) push1 s1).
  destruct (reading_loop _ _ _ _ _ s1) as [[c|state] s2].
  - destruct IH as (Hin2 & Hcfg2 & evs2 & Htr2 & Hq).
    split; [congruence|]. split; [congruence|].
    exists (evs1 ++ evs2). split; [by rewrite Htr2, Htr, app_assoc|].
    apply Forall_app. split; [by eapply shape_quiet|done].
  - destruct IH as (Hall & Hin2 & Hcfg2 & evs2 & Htr2 & Hsh2).
    split; [by rewrite Hall, fmap_cons, <- app_assoc|].
    split; [congruence|]. split; [congruence|].
    exists (evs1 ++ evs2). split; [by rewrite Htr2, Htr, app_assoc|].
    by eapply shape_app.
Qed.

(** With pushing off, or without a patient, the loop only collects. *)
Lemma reading_loop_offline patient_id person readings all push
    (s : env G O) :
  push && truthy patient_id = false →
  reading_loop patient_id person readings all push s
  = (inr (all ++ (insert "person_id" (PStr person) <$> readings), push), s).
Proof.
  intros Hp. revert all. induction readings as [|reading readings IH];
    intros all.
  { simpl. by rewrite app_nil_r. }
  cbn [reading_loop]. rewrite Hp. unfold mbind, P_bind.
  unfold mret at 1. unfold P_ret. rewrite IH.
  by rewrite fmap_cons, <- app_assoc.
Qed.

(** The readings of one person, tagged. *)
Lemma tagged_chunk person (readings : list (gmap string pyval)) :
  length readings = 4%nat → Forall (λ r, dom r = fields) readings →
  person_chunk person (insert "person_id" (PStr person) <$> readings).
Proof.
  intros Hlen Hdom. split; [by rewrite length_fmap|].
  apply Forall_fmap. eapply Forall_impl; [exact Hdom|].
  intros r Hr. cbn. split; [apply lookup_insert_eq|].
  rewrite dom_insert_L, Hr. unfold demo_fields. set_solver.
Qed.

Lemma people_loop_post patient_id persons all push (s : env G O) :
  match people_loop __init__ patient_id persons all push s with
  | (inr state, s') =>
    config s' = config s ∧
    ∃ chunks evs,
      fst state = all ++ concat chunks ∧
      Forall2 person_chunk persons chunks ∧
      trace s' = trace s ++ evs ∧ shape push (snd state) evs
  | (inl c, s') =>
    config s' = config s ∧ ∃ evs, trace s' = trace s ++ evs ∧ quiet evs
  end.
Proof.
  revert all push s. induction persons as [|person persons IH];
    intros all push s.
  { simpl. split; [done|]. exists [], []. simpl. rewrite !app_nil_r.
    split; [done|]. split; [constructor|]. split; [done|]. apply shape_refl. }
  cbn [people_loop].
  unfold mbind at 1. unfold P_bind, time_passes.
  destruct (pass (outside s)) as [t o].
  unfold mbind at 1. unfold P_bind, call. cbn [inner outside config trace].
  destruct (generate_time_series __init__ (24 * 60) (5 * 60) _)
    as [[f|readings] w'] eqn:E.
  { split; [done|]. exists []. rewrite app_nil_r. split; [done|].
    constructor. }
  apply series_dom in E as [Hlen Hdom].
  unfold mbind at 1. unfold P_bind.
  match goal with
  | |- context [reading_loop patient_id person readings all push ?s1] =>
    pose proof (reading_loop_post patient_id person readings all push s1)
      as Hloop;
    destruct (reading_loop patient_id person readings all push s1)
      as [[c|state] s2]
  end.
  { destruct Hloop as (_ & Hcfg & evs & Htr & Hq). by eauto. }
  destruct Hloop as (Hall & _ & Hcfg & evs1 & Htr & Hsh).
  cbn [config trace] in Hcfg, Htr.
  specialize (IH (fst state) (snd state) s2).
  destruct (people_loop __init__ patient_id persons _ _ s2)
    as [[c|state'] s3].
  - destruct IH as (Hcfg3 & evs2 & Htr3 & Hq).
    split; [congruence|].
    exists (evs1 ++ evs2). split; [by rewrite Htr3, Htr, app_assoc|].
    apply Forall_app. split; [by eapply shape_quiet|done].
  - destruct IH as (Hcfg3 & chunks & evs2 & Hall3 & Hchunks & Htr3 & Hsh3).
    split; [congruence|].
    exists ((insert "person_id" (PStr person) <$> readings) :: chunks),
           (evs1 ++ evs2).
    split; [by rewrite Hall3, Hall, <- app_assoc|].
    split; [constructor; [by apply tagged_chunk|done]|].
    split; [by rewrite Htr3, Htr, app_assoc|].
    by eapply shape_app.
Qed.

(** ** The collected readings *)

Lemma chunks_dom persons chunks :
  Forall2 person_chunk persons chunks →
  Forall (λ r : gmap string pyval, dom r = demo_fields) (concat chunks) ∧
  length (concat chunks) = (4 * length persons)%nat.
Proof.
  induction 1 as [|person chunk persons chunks [Hlen Hall] _ [IH1 IH2]].
  { split; [constructor|done]. }
  cbn [concat length]. split.
  - apply Forall_app. split; [|done].
    eapply Forall_impl; [exact Hall|]. by intros r [_ Hr].
  - rewrite length_app, Hlen, IH2. lia.
Qed.

Lemma chunks_lookup persons chunks k (r : gmap string pyval) :
  Forall2 person_chunk persons chunks →
  concat chunks !! k = Some r →
  ∃ person, persons !! (k `div` 4)%nat = Some person ∧
            r !! "person_id" = Some (PStr person) ∧ dom r = demo_fields.
Proof.
  intros Hall. revert k.
  induction Hall as [|person chunk persons chunks [Hlen Hchunk] _ IH];
    intros k Hk; [done|].
  cbn [concat] in Hk.
  destruct (decide (k < 4)%nat) as [Hlt|Hge].
  - rewrite lookup_app_l in Hk by lia.
    exists person. rewrite Forall_lookup in Hchunk.
    destruct (Hchunk _ _ Hk) as [Hp Hd].
    split; [|done]. by rewrite Nat.div_small by lia.
  - rewrite lookup_app_r in Hk by lia. rewrite Hlen in Hk.
    destruct (IH _ Hk) as (p & Hp & Hr).
    exists p. split; [|done].
    replace k with ((k - 4) + 1 * 4)%nat by lia.
    rewrite Nat.div_add by lia.
    by rewrite Nat.add_1_r.
Qed.

Lemma rows_written_all (fieldnames : gset string)
    (rows : list (gmap string pyval)) :
  Forall (λ r, dom r = fieldnames) rows →
  rows_written (λ row, bool_decide (dom row ⊆ fieldnames)) rows = rows ∧
  forallb (λ row, bool_decide (dom row ⊆ fieldnames)) rows = true.
Proof.
  induction 1 as [|r rows Hr _ [IH1 IH2]]; [done|]. cbn.
  rewrite bool_decide_eq_true_2 by (by rewrite Hr). by rewrite IH1, IH2.
Qed.

(** [main] is its loop followed by the two files, which are always
    written once the loop is through. *)
Lemma main_run patient_id push (s : env G O) :
  main patient_id push s
  = match people_loop __init__ patient_id people [] push s with
    | (inl c, s') => (inl c, s')
    | (inr state, s') =>
      (inr (),
       {| inner := inner s'; outside := outside s'; config := config s';
          trace := (trace s'
                    ++ [WroteJson "smartwatch_data.json" (fst state)])
                   ++ [WroteCsv "smartwatch_data.csv" demo_fields
                         (fst state)] |})
    end.
Proof.
  unfold main. cbv zeta. unfold mbind at 1. unfold P_bind.
  pose proof (people_loop_post patient_id people [] push s) as Hloop.
  destruct (people_loop __init__ patient_id people [] push s)
    as [[c|[all push']] s1]; [done|].
  destruct Hloop as (_ & chunks & evs & Hall & Hchunks & _).
  cbn [fst] in *. rewrite app_nil_l in Hall. subst all.
  destruct (chunks_dom _ _ Hchunks) as [Hdom Hlen].
  unfold mbind, P_bind, save_to_json, save_to_csv, record.
  cbn [inner outside config trace].
  destruct (concat chunks) as [|first rest] eqn:Eall; [done|].
  rewrite <- Eall in *.
  assert (Hfirst : dom first = demo_fields).
  { rewrite Eall in Hdom. by apply Forall_cons_1 in Hdom as [? _]. }
  rewrite Hfirst. cbn [inner outside config trace].
  destruct (rows_written_all demo_fields (concat chunks) Hdom) as [-> ->].
  reflexivity.
Qed.

Lemma main_post patient_id push (s : env G O) :
  match main patient_id push s with
  | (inr _, s') =>
    ∃ chunks evs push',
      Forall2 person_chunk people chunks ∧ shape push push' evs ∧
      trace s'
      = trace s ++ evs
        ++ [WroteJson "smartwatch_data.json" (concat chunks);
            WroteCsv "smartwatch_data.csv" demo_fields (concat chunks)]
  | (inl c, s') => ∃ evs, trace s' = trace s ++ evs ∧ quiet evs
  end.
Proof.
  rewrite main_run.
  pose proof (people_loop_post patient_id people [] push s) as Hloop.
  destruct (people_loop __init__ patient_id people [] push s)
    as [[c|[all push']] s1].
  { by destruct Hloop as [_ ?]. }
  destruct Hloop as (_ & chunks & evs & Hall & Hchunks & Htr & Hsh).
  cbn [fst snd] in *. rewrite app_nil_l in Hall. subst all.
  exists chunks, evs, push'. split; [done|]. split; [done|].
  cbn [trace]. rewrite Htr. by rewrite <- !app_assoc.
Qed.

(** ** Runs that go through *)




(** With pushing off, or no patient, nothing is sent or printed. *)
Lemma people_loop_offline patient_id persons all push (s : env G O) :
  push && truthy patient_id = false →
  trace (snd (people_loop __init__ patient_id persons all push s))
  = trace s.
Proof.
  intros Hoff. revert all s.
  induction persons as [|person persons IH]; intros all s; [done|].
  cbn [people_loop].
  unfold mbind at 1. unfold P_bind, time_passes.
  destruct (pass (outside s)) as [t o].
  unfold mbind at 1. unfold P_bind, call. cbn [inner outside config trace].
  destruct (generate_time_series __init__ (24 * 60) (5 * 60) _)
    as [[f|readings] w']; [done|].
  unfold mbind at 1. unfold P_bind.
  rewrite reading_loop_offline by done. cbn [fst snd].
  by rewrite IH.
Qed.

(** ** The demo as a whole *)

(** When [main] returns, it has written the same list of readings to
    the JSON file and then to the CSV file, whose columns are the nine
    fields and person_id; the list holds 24 readings, four for each of
    the six persons in their order, each tagged with its person;
    nothing else was written. *)
Theorem main_saves_everything patient_id push (s s' : env G O) :
  main patient_id push s = (inr (), s') →
  ∃ evs all,
    trace s' = trace s ++ evs
               ++ [WroteJson "smartwatch_data.json" all;
                   WroteCsv "smartwatch_data.csv" demo_fields all] ∧
    quiet evs ∧ length all = 24%nat ∧
    ∀ k r, all !! k = Some r →
      ∃ person, people !! (k `div` 4)%nat = Some person ∧
                r !! "person_id" = Some (PStr person) ∧
                dom r = demo_fields.
Proof.
  intros Hrun. pose proof (main_post patient_id push s) as Hpost.
  rewrite Hrun in Hpost.
  destruct Hpost as (chunks & evs & push' & Hchunks & Hsh & Htr).
  exists evs, (concat chunks). split; [done|].
  split; [by eapply shape_quiet|].
  split; [by destruct (chunks_dom _ _ Hchunks) as [_ ->]|].
  intros k r Hk. by eapply chunks_lookup.
Qed.


(** With pushing off, without a patient id or with an empty one,
    [main] sends no request and prints no error, however it ends:
    the only events it adds are the writes of the two files. *)
Theorem main_offline patient_id push (s : env G O) :
  push && truthy patient_id = false →
  ∃ evs, trace (snd (main patient_id push s)) = trace s ++ evs ∧
         Forall (λ ev, is_write ev = true) evs.
Proof.
  intros Hoff. rewrite main_run.
  pose proof (people_loop_offline patient_id people [] push s Hoff) as Htr.
  destruct (people_loop __init__ patient_id people [] push s)
    as [[c|state] s1]; cbn [snd trace] in *; rewrite Htr.
  - exists []. by rewrite app_nil_r.
  - eexists [_; _]. split; [by rewrite <- app_assoc|].
    by repeat constructor.
Qed.

(** When [main] returns after reporting a Supabase error, everything
    before the report was a request and everything after it is the
    writing of the files: the error is reported once, and no request
    is sent after it. *)
Theorem main_stops_after_error patient_id push (s s' : env G O)
    pre label value post :
  main patient_id push s = (inr (), s') →
  trace s' = trace s ++ pre ++ Printed label value :: post →
  Forall (λ ev, is_request ev = true) pre ∧
  Forall (λ ev, is_write ev = true) post.
Proof.
  intros Hrun Htrace. pose proof (main_post patient_id push s) as Hpost.
  rewrite Hrun in Hpost.
  destruct Hpost as (chunks & evs & push' & _ & Hsh & Htr).
  rewrite Htr in Htrace. apply app_inv_head in Htrace.
  set (files := [WroteJson _ _; WroteCsv _ _ _]) in Htrace.
  assert (Hfiles : Forall (λ ev, is_write ev = true) files)
    by (by repeat constructor).
  clearbody files.
  assert (Hin : Printed label value ∈ evs ++ files).
  { rewrite Htrace. apply elem_of_app. right. by left. }
  unfold shape in Hsh. destruct push.
  - destruct Hsh as [[_ Hreq] | (_ & reqs & l & v & -> & Hreq)].
    + exfalso. apply elem_of_app in Hin as [Hin|Hin].
      * rewrite Forall_forall in Hreq. by specialize (Hreq _ Hin).
      * rewrite Forall_forall in Hfiles. by specialize (Hfiles _ Hin).
    + rewrite <- app_assoc in Htrace.
      destruct (one_report reqs (Printed l v) files pre
                  (Printed label value) post) as [-> ->]; done.
  - destruct Hsh as [_ ->]. exfalso.
    rewrite Forall_forall in Hfiles. by specialize (Hfiles _ Hin).
Qed.

(** When [main] ends in an exception -- the transport failing, a JSON
    answer that is not an object, a timestamp out of range -- no file
    has been written: the readings collected so far are lost. *)
Theorem main_crash_saves_nothing patient_id push (s s' : env G O) c :
  main patient_id push s = (inl c, s') →
  ∃ evs, trace s' = trace s ++ evs ∧ quiet evs.
Proof.
  intros Hrun. pose proof (main_post patient_id push s) as Hpost.
  by rewrite Hrun in Hpost.
Qed.

End Main.

Lemma reading_request_witness :
  ∃ r sent,
    payload r = Some sent ∧ fst <$> sent = payload_keys ∧
    (∀ k v, (k, v) ∈ sent → v = calm "t0" !! k) ∧
    (fields ⊆ dom (calm "t0") → Forall (λ kv, is_Some (snd kv)) sent) ∧
    trace (snd (post_health_reading "p1" (calm "t0") (env0 5 [Some refused])))
    = [Requested r (Some refused)] ∧
    is_report (match fst (post_health_reading "p1" (calm "t0")
                            (env0 5 [Some refused])) with
               | inl (SupabaseError _) => inr ()
               | _ => inl IndexError
               end) = true.
Proof.
  destruct (reading_request "p1" (calm "t0") (env0 5 [Some refused]) eq_refl)
    as (r & sent & Hp & Hk & Hv & Hf & Htr & Hres).
  exists r, sent. split; [exact Hp|]. split; [exact Hk|].
  split; [exact Hv|]. split; [exact Hf|]. split; [exact Htr|].
  rewrite Hres. reflexivity.
Defined.

Lemma main_saves_everything_witness :
  ∃ s' evs all,
    main (Some "p1") true (env0 5 [Some accepted; Some refused])
    = (inr (), s') ∧
    trace s' = evs ++ [WroteJson "smartwatch_data.json" all;
                       WroteCsv "smartwatch_data.csv" demo_fields all] ∧
    length all = 24%nat.
Proof.
  assert (Hr : finished (fst (main (Some "p1") true
                                (env0 5 [Some accepted; Some refused])))
               = true) by (vm_compute; reflexivity).
  destruct (main (Some "p1") true (env0 5 [Some accepted; Some refused]))
    as [[c|[]] s'] eqn:E; [discriminate Hr|].
  destruct (main_saves_everything (Some "p1") true _ s' E)
    as (evs & all & Htr & _ & Hlen & _).
  exists s', evs, all. split; [reflexivity|]. split; [exact Htr|exact Hlen].
Defined.


Lemma main_offline_witness :
  ∃ evs, trace (snd (main (Some "") true (env0 5 [None]))) = evs ∧
         Forall (λ ev, is_write ev = true) evs.
Proof.
  apply (main_offline (Some "") true (env0 5 [None])). reflexivity.
Defined.

Lemma main_stops_after_error_witness :
  ∃ s' pre label value post,
    main (Some "p1") true (env0 5 [Some accepted; Some refused])
    = (inr (), s') ∧
    trace s' = pre ++ Printed label value :: post ∧
    length pre = 2%nat ∧
    Forall (λ ev, is_request ev = true) pre ∧
    Forall (λ ev, is_write ev = true) post.
Proof.
  pose (run := main (Some "p1") true (env0 5 [Some accepted; Some refused])).
  pose (said := match trace (snd run) !! 2%nat with
                | Some (Printed label value) => (label, value)
                | _ => ("", JNull)
                end).
  assert (Hfin : finished (fst run) = true) by (vm_compute; reflexivity).
  assert (Hsaid : trace (snd run) !! 2%nat
                  = Some (Printed (fst said) (snd said)))
    by (vm_compute; reflexivity).
  apply take_drop_middle, eq_sym in Hsaid as Htr. clear Hsaid.
  assert (Hlen : length (take 2 (trace (snd run))) = 2%nat)
    by (vm_compute; reflexivity).
  revert Hfin Htr Hlen. generalize said. subst run. clear said.
  destruct (main (Some "p1") true (env0 5 [Some accepted; Some refused]))
    as [[c|[]] s'] eqn:E; intros said Hfin Htr Hlen; [discriminate Hfin|].
  cbn [snd] in Htr, Hlen.
  exists s', (take 2 (trace s')), said.1, said.2, (drop 3 (trace s')).
  split; [reflexivity|]. split; [exact Htr|]. split; [exact Hlen|].
  apply (main_stops_after_error (Some "p1") true _ s' _ _ _ _ E Htr).
Defined.

Lemma main_crash_saves_nothing_witness :
  ∃ s' evs,
    main (Some "p1") true (env0 5 [None]) = (inl RequestException, s') ∧
    trace s' = evs ∧ quiet evs.
Proof.
  assert (Hr : fst (main (Some "p1") true (env0 5 [None]))
               = inl RequestException) by (vm_compute; reflexivity).
  destruct (main (Some "p1") true (env0 5 [None])) as [res s'] eqn:E.
  cbn [fst] in Hr. subst res.
  destruct (main_crash_saves_nothing (Some "p1") true _ s' _ E)
    as (evs & Htr & Hq).
  exists s', evs. split; [reflexivity|]. split; [exact Htr|exact Hq].
Defined.

End DemoFacts.
